(** * Meal tracker: the persistence layer of [meal.py]

    A shallow embedding of the functions of [meal.py] that resolve the
    file paths, load and save the JSON files, prune the ledger, and
    maintain the suggestion list, together with the properties of the
    specification that concern them.

    Python values read from the files are values of type [json]; the file
    system is a finite map from paths to file contents; a run of a function
    threads the file system and the printed messages, and ends with a
    value or with an uncaught exception.

    What is modelled of the libraries that [meal.py] calls:
    - text is ASCII: [str.lower] maps the letters [A-Z], and the digits of a
      date are [0-9];
    - [os.path.dirname], [basename] and [join] are those of [posixpath];
    - a file holds text that [json.load] decodes, kept as the decoded value,
      or text on which it raises [JSONDecodeError]; what [json.dump] writes,
      [json.load] reads back;
    - directories are not kept in the file system: [save_file] makes the ones
      it needs, and [restore] writes next to the backup directory it has just
      read from; of the failures of the file system only the missing file is
      modelled;
    - the clock is read once in an operation, as the argument [now], and
      [random.choice] draws the index given by the argument [rnd]. *)

From Stdlib Require Import ZArith Ascii String.
From stdpp Require Import gmap strings list fin_maps.

Local Open Scope Z_scope.
Set Warnings "-register-all".

(** ** Python strings *)

Module PyStr.

(** [str.lower] on ASCII text. *)
Definition lower_char (c : ascii) : ascii :=
  let n := nat_of_ascii c in
  if ((65 <=? n) && (n <=? 90))%nat then ascii_of_nat (n + 32) else c.

Fixpoint lower (s : string) : string :=
  match s with
  | EmptyString => EmptyString
  | String c r => String (lower_char c) (lower r)
  end.

Definition len (s : string) : Z := Z.of_nat (String.length s).

(** [s[:i]] and [s[i:]] for [0 <= i]. *)
Fixpoint take (n : nat) (s : string) : string :=
  match n, s with
  | S n', String c r => String c (take n' r)
  | _, _ => EmptyString
  end.

Fixpoint drop (n : nat) (s : string) : string :=
  match n, s with
  | S n', String _ r => drop n' r
  | _, _ => s
  end.

Definition upto (i : Z) (s : string) : string := take (Z.to_nat i) s.
Definition from (i : Z) (s : string) : string := drop (Z.to_nat i) s.

Definition is_slash (c : ascii) : bool := Ascii.eqb c "/".

(** [s.rfind('/')]: the index of the last slash, or [-1]. *)
Fixpoint rfind_slash (s : string) : Z :=
  match s with
  | EmptyString => -1
  | String c r =>
      let i := rfind_slash r in
      if 0 <=? i then i + 1 else if is_slash c then 0 else -1
  end.

(** [s == '/' * len(s)] *)
Fixpoint all_slashes (s : string) : bool :=
  match s with
  | EmptyString => true
  | String c r => is_slash c && all_slashes r
  end.

(** [s.rstrip('/')] *)
Fixpoint rstrip_slash (s : string) : string :=
  match s with
  | EmptyString => EmptyString
  | String c r =>
      match rstrip_slash r with
      | EmptyString => if is_slash c then EmptyString else String c EmptyString
      | r' => String c r'
      end
  end.

Definition startswith_slash (s : string) : bool :=
  match s with String c _ => is_slash c | EmptyString => false end.

Fixpoint endswith_slash (s : string) : bool :=
  match s with
  | EmptyString => false
  | String c EmptyString => is_slash c
  | String _ r => endswith_slash r
  end.

Definition is_empty (s : string) : bool :=
  match s with EmptyString => true | _ => false end.

(** The string has no ['/']. *)
Fixpoint slash_free (s : string) : bool :=
  match s with
  | EmptyString => true
  | String c r => negb (is_slash c) && slash_free r
  end.

End PyStr.

(** ** [os.path] on POSIX *)

Module PosixPath.
Import PyStr.

(** [i = p.rfind('/') + 1; return p[i:]] *)
Definition basename (p : string) : string :=
  let i := rfind_slash p + 1 in
  from i p.

(** [head = p[:i]; if head and head != '/'*len(head): head = head.rstrip('/')] *)
Definition dirname (p : string) : string :=
  let i := rfind_slash p + 1 in
  let head := upto i p in
  if negb (is_empty head) && negb (all_slashes head)
  then rstrip_slash head else head.

(** One round of the loop of [join]. *)
Definition join_step (path b : string) : string :=
  if startswith_slash b then b
  else if is_empty path || endswith_slash path then path +:+ b
  else path +:+ "/" +:+ b.

Definition join (a : string) (ps : list string) : string :=
  fold_left join_step ps a.

End PosixPath.

(** ** Path resolution ([get_data_file], [get_suggestion_file]) *)

Definition BACKUP_SUFFIX : string := "backup_".
Definition SUGGESTION_SUFFIX : string := "suggestion_".

Definition get_data_file (live : bool) (cli_path : option string) : string :=
  if live then
    match cli_path with
    | None => "./live/meals.json"
    | Some p =>
        PosixPath.join (PosixPath.dirname p)
          ["live"; PosixPath.basename p +:+ ".json"]
    end
  else
    match cli_path with
    | None => "./test/meals.json"
    | Some p =>
        PosixPath.join (PosixPath.dirname p)
          ["test"; PosixPath.basename p +:+ ".json"]
    end.

Definition get_suggestion_file (live : bool) (cli_path : option string) : string :=
  if live then
    match cli_path with
    | None => "./live/suggestion.json"
    | Some p =>
        PosixPath.join (PosixPath.dirname p)
          ["live"; SUGGESTION_SUFFIX +:+ PosixPath.basename p +:+ ".json"]
    end
  else
    match cli_path with
    | None => "./test/suggestion.json"
    | Some p =>
        PosixPath.join (PosixPath.dirname p)
          ["test"; SUGGESTION_SUFFIX +:+ PosixPath.basename p +:+ ".json"]
    end.

(** The path of the backup of a data file, as [save_file] and [restore]
    both compute it. *)
Definition backup_path (data_file : string) : string :=
  PosixPath.join (PosixPath.dirname data_file)
    ["backup"; BACKUP_SUFFIX +:+ PosixPath.basename data_file].

(** ** Python values decoded from JSON *)

(** What [json.load] returns.  A float is [m * 2^e]; a dict is the list of
    its items in insertion order (its keys are distinct). *)
Inductive json : Type :=
  | JNull
  | JBool (b : bool)
  | JInt (n : Z)
  | JFloat (m e : Z)
  | JStr (s : string)
  | JArr (items : list json)
  | JObj (fields : list (string * json)).

(** The exceptions that the code catches or lets escape. *)
Inductive exn : Type :=
  | FileNotFoundError
  | JSONDecodeError
  | ValueError
  | KeyError
  | TypeError
  | AttributeError
  | IndexError.

Inductive result (A : Type) : Type :=
  | Ok (a : A)
  | Raise (e : exn).
Arguments Ok {A} a.
Arguments Raise {A} e.

Definition rbind {A B} (r : result A) (k : A -> result B) : result B :=
  match r with
  | Ok a => k a
  | Raise e => Raise e
  end.

Declare Scope py_scope.
Delimit Scope py_scope with py.
Notation "x <-? r ;; k" := (rbind r (fun x => k))
  (at level 100, r at next level, right associativity) : py_scope.
Local Open Scope py_scope.

Module Py.

(** [bool(v)] *)
Definition truthy (v : json) : bool :=
  match v with
  | JNull => false
  | JBool b => b
  | JInt n => negb (n =? 0)
  | JFloat m _ => negb (m =? 0)
  | JStr s => negb (PyStr.is_empty s)
  | JArr l => match l with [] => false | _ => true end
  | JObj kv => match kv with [] => false | _ => true end
  end.

(** [a or b] *)
Definition or_else (a b : json) : json := if truthy a then a else b.

Fixpoint chars (s : string) : list json :=
  match s with
  | EmptyString => []
  | String c r => JStr (String c EmptyString) :: chars r
  end.

(** The items that [for x in v] goes through. *)
Definition iter (v : json) : result (list json) :=
  match v with
  | JArr l => Ok l
  | JObj kv => Ok (map (fun p => JStr (fst p)) kv)
  | JStr s => Ok (chars s)
  | _ => Raise TypeError
  end.

Fixpoint assoc (k : string) (kv : list (string * json)) : option json :=
  match kv with
  | [] => None
  | (k', v) :: r => if String.eqb k' k then Some v else assoc k r
  end.

(** [v[k]] for a string [k] *)
Definition getitem (v : json) (k : string) : result json :=
  match v with
  | JObj kv => match assoc k kv with Some x => Ok x | None => Raise KeyError end
  | _ => Raise TypeError
  end.

(** [v.get(k, default)] *)
Definition get_default (v : json) (k : string) (default : json) : result json :=
  match v with
  | JObj kv => Ok (match assoc k kv with Some x => x | None => default end)
  | _ => Raise AttributeError
  end.

(** [v.get(k)] *)
Definition get (v : json) (k : string) : result json := get_default v k JNull.

(** [v.lower()] *)
Definition lower (v : json) : result string :=
  match v with
  | JStr s => Ok (PyStr.lower s)
  | _ => Raise AttributeError
  end.

(** [len(v)] *)
Definition len (v : json) : result Z :=
  match v with
  | JArr l => Ok (Z.of_nat (length l))
  | JObj kv => Ok (Z.of_nat (length kv))
  | JStr s => Ok (PyStr.len s)
  | _ => Raise TypeError
  end.

(** [v.append(x)], giving the list after the call *)
Definition append (v x : json) : result json :=
  match v with
  | JArr l => Ok (JArr (l ++ [x]))
  | _ => Raise AttributeError
  end.

(** [v.pop(i)] for an integer [i], giving the removed item and the
    list after the call *)
Definition pop (v : json) (i : Z) : result (json * json) :=
  match v with
  | JArr l =>
      let n := Z.of_nat (length l) in
      let j := if i <? 0 then i + n else i in
      if (0 <=? j) && (j <? n) then
        match l !! Z.to_nat j with
        | Some x => Ok (x, JArr (delete (Z.to_nat j) l))
        | None => Raise IndexError
        end
      else Raise IndexError
  | JObj _ => Raise KeyError
  | _ => Raise AttributeError
  end.

End Py.

(** ** Dates *)

Record datetime : Type := DateTime {
  year : Z;
  month : Z;
  day : Z;
  tod : Z   (** microseconds since midnight *)
}.

Module Date.

Definition is_leap (y : Z) : bool :=
  (y mod 4 =? 0) && (negb (y mod 100 =? 0) || (y mod 400 =? 0)).

Definition days_in_month (y m : Z) : Z :=
  if m =? 2 then (if is_leap y then 29 else 28)
  else if (m =? 4) || (m =? 6) || (m =? 9) || (m =? 11) then 30
  else 31.

Definition days_before_year (y : Z) : Z :=
  let p := y - 1 in
  p * 365 + p / 4 - p / 100 + p / 400.

Definition days_before_month (y m : Z) : Z :=
  let cum :=
    nth (Z.to_nat (m - 1)) [0; 31; 59; 90; 120; 151; 181; 212; 243; 273; 304; 334] 0 in
  cum + (if (2 <? m) && is_leap y then 1 else 0).

(** [date.toordinal()] *)
Definition toordinal (d : datetime) : Z :=
  days_before_year (year d) + days_before_month (year d) (month d) + day d.

Definition valid (d : datetime) : bool :=
  (1 <=? year d) && (year d <=? 9999) &&
  (1 <=? month d) && (month d <=? 12) &&
  (1 <=? day d) && (day d <=? days_in_month (year d) (month d)) &&
  (0 <=? tod d) && (tod d <? 86400000000).

(** An instant [days] days before [now], as day number and time of day:
    [now - timedelta(days=days)]. *)
Definition minus_days (now : datetime) (days : Z) : Z * Z :=
  (toordinal now - days, tod now).

(** [ts >= cutoff] on [datetime]s: by day, then by time of day. *)
Definition ge (ts : datetime) (cutoff : Z * Z) : bool :=
  (fst cutoff <? toordinal ts) ||
  ((fst cutoff =? toordinal ts) && (snd cutoff <=? tod ts)).

Definition digit (c : ascii) : option Z :=
  let n := nat_of_ascii c in
  if ((48 <=? n) && (n <=? 57))%nat then Some (Z.of_nat n - 48) else None.

(** [%m]: [1[0-2]|0[1-9]|[1-9]], followed by the ['-'] of the format *)
Definition parse_month (s : string) : option (Z * string) :=
  match s with
  | String a (String "-" r) =>
      match digit a with
      | Some x => if 1 <=? x then Some (x, r) else None
      | None => None
      end
  | String a (String b (String "-" r)) =>
      match digit a, digit b with
      | Some x, Some y =>
          if ((x =? 1) && (y <=? 2)) || ((x =? 0) && (1 <=? y))
          then Some (10 * x + y, r) else None
      | _, _ => None
      end
  | _ => None
  end.

(** [%d]: [3[0-1]|[1-2]\d|0[1-9]|[1-9]| [1-9]], followed by the closing
    bracket and the end of the string *)
Definition parse_day (s : string) : option Z :=
  match s with
  | String a (String "]" EmptyString) =>
      match digit a with
      | Some x => if 1 <=? x then Some x else None
      | None => None
      end
  | String a (String b (String "]" EmptyString)) =>
      match digit b with
      | Some y =>
          if Ascii.eqb a " " then (if 1 <=? y then Some y else None)
          else
            match digit a with
            | Some x =>
                if ((x =? 3) && (y <=? 1)) || ((1 <=? x) && (x <=? 2))
                   || ((x =? 0) && (1 <=? y))
                then Some (10 * x + y) else None
            | None => None
            end
      | None => None
      end
  | _ => None
  end.

(** The match of the format [[%Y-%m-%d]] against the whole string: the
    year, month and day that the groups give. *)
Definition parse_fields (s : string) : option (Z * Z * Z) :=
  match s with
  | String "[" (String y1 (String y2 (String y3 (String y4 (String "-" r))))) =>
      match digit y1, digit y2, digit y3, digit y4 with
      | Some a, Some b, Some c, Some d =>
          match parse_month r with
          | Some (m, r') =>
              match parse_day r' with
              | Some dd => Some (1000 * a + 100 * b + 10 * c + d, m, dd)
              | None => None
              end
          | None => None
          end
      | _, _, _, _ => None
      end
  | _ => None
  end.

(** [datetime.strptime(s, "[%Y-%m-%d]")]; [None] stands for [ValueError],
    raised when the string does not match or the date does not exist. *)
Definition strptime (s : string) : option datetime :=
  match parse_fields s with
  | Some (y, m, d) =>
      let dt := DateTime y m d 0 in
      if valid dt then Some dt else None
  | None => None
  end.

Definition pad (width : nat) (n : Z) : string :=
  let fix go (w : nat) (n : Z) (acc : string) : string :=
    match w with
    | O => acc
    | S w' => go w' (n / 10) (String (ascii_of_nat (Z.to_nat (n mod 10) + 48)) acc)
    end in
  go width n EmptyString.

(** [d.strftime("[%Y-%m-%d]")], for a year of four digits *)
Definition strftime (d : datetime) : string :=
  "[" +:+ pad 4 (year d) +:+ "-" +:+ pad 2 (month d) +:+ "-" +:+ pad 2 (day d) +:+ "]".

End Date.

(** ** The file system and the runs of a function *)

(** A file holds text that [json.load] decodes to a value, or text on which
    it raises [JSONDecodeError]. *)
Inductive file : Type :=
  | FJson (v : json)
  | FCorrupt (raw : string).

(** What the functions print. *)
Inductive msg : Type :=
  | CorruptedAbortLoading
  | WarningNoBackup
  | ErrorSaving
  | MealAdded (content : string)
  | NoMealsFound
  | MealRow (i : Z) (timestamp content : json)
  | DeletedMeal (index : Z) (name : json)
  | InvalidMealNumber
  | DeletedAllMeals
  | SuccessfullyRestored
  | NoFileToRestoreFrom
  | CorruptedAbortRestoring
  | ErrorRestoring
  | NoSuggestionsAvailable
  | SuggestedMeal (content : json)
  | NothingEligible
  | SuggestionExists (meal : string)
  | AddedSuggestion (meal : string)
  | NoSuggestionsFound
  | SuggestionRow (i : Z) (content : json).

Record world : Type := World {
  files : gmap string file;
  stdout : list msg
}.

(** A run: from a world to a value or an uncaught exception, and the world
    it leaves. *)
Definition M (A : Type) : Type := world -> result A * world.

Definition ret {A} (a : A) : M A := fun w => (Ok a, w).

Definition bind {A B} (m : M A) (k : A -> M B) : M B :=
  fun w =>
    match m w with
    | (Ok a, w') => k a w'
    | (Raise e, w') => (Raise e, w')
    end.

Definition raise {A} (e : exn) : M A := fun w => (Raise e, w).

Definition lift {A} (r : result A) : M A := fun w => (r, w).

(** [try: m except ... : handler] *)
Definition try {A} (m : M A) (handler : exn -> M A) : M A :=
  fun w =>
    match m w with
    | (Ok a, w') => (Ok a, w')
    | (Raise e, w') => handler e w'
    end.

Notation "x <- m ;; k" := (bind m (fun x => k))
  (at level 100, m at next level, right associativity) : py_scope.
Notation "m ;;; k" := (bind m (fun _ => k))
  (at level 100, right associativity) : py_scope.

Definition print (x : msg) : M unit :=
  fun w => (Ok tt, World (files w) (stdout w ++ [x])).

(** [with open(path, "r") as f: json.load(f)] *)
Definition read_json (path : string) : M json :=
  fun w =>
    match files w !! path with
    | None => (Raise FileNotFoundError, w)
    | Some (FJson v) => (Ok v, w)
    | Some (FCorrupt _) => (Raise JSONDecodeError, w)
    end.

(** [with open(path, "w") as f: json.dump(data, f, indent=2)] *)
Definition write_json (path : string) (data : json) : M unit :=
  fun w => (Ok tt, World (<[path := FJson data]> (files w)) (stdout w)).

(** [os.path.exists(path)] for a file *)
Definition path_exists (path : string) : M bool :=
  fun w => (Ok (bool_decide (is_Some (files w !! path))), w).

(** [shutil.copy2(src, dst)] *)
Definition copy2 (src dst : string) : M unit :=
  fun w =>
    match files w !! src with
    | Some f => (Ok tt, World (<[dst := f]> (files w)) (stdout w))
    | None => (Raise FileNotFoundError, w)
    end.

(** [if not os.path.exists(d): os.makedirs(d)]: directories are not kept in
    the world; only the empty name cannot be made. *)
Definition ensure_dir (d : string) : M unit :=
  if PyStr.is_empty d then raise FileNotFoundError else ret tt.

(** [for x in l: body(x)] *)
Fixpoint for_each {A} (l : list A) (body : A -> M unit) : M unit :=
  match l with
  | [] => ret tt
  | x :: r => body x ;;; for_each r body
  end.

(** [enumerate(l, start)] *)
Fixpoint enumerate {A} (l : list A) (start : Z) : list (Z * A) :=
  match l with
  | [] => []
  | x :: r => (start, x) :: enumerate r (start + 1)
  end.

(** ** Store ([load_file], [save_file]) *)

Definition is_None (v : json) : bool :=
  match v with JNull => true | _ => false end.

Definition load_file (data_file : string) : M json :=
  try (read_json data_file)
    (fun e =>
       match e with
       | FileNotFoundError => ret (JArr [])
       | JSONDecodeError => print CorruptedAbortLoading ;;; ret JNull
       | _ => raise e
       end).

Definition save_file (data : json) (data_file : string) : M unit :=
  let directory := PosixPath.dirname data_file in
  let backup_file :=
    PosixPath.join directory
      ["backup"; BACKUP_SUFFIX +:+ PosixPath.basename data_file] in
  ensure_dir directory ;;;
  ensure_dir (PosixPath.join directory ["backup"]) ;;;
  try (e <- path_exists data_file ;;
       if e then copy2 data_file backup_file else ret tt)
    (fun _ => print WarningNoBackup) ;;;
  try (write_json data_file data)
    (fun _ => print ErrorSaving).

(** ** RecordCleaner ([clean_old_meals]) *)

(** [datetime.strptime(v, "[%Y-%m-%d]")] *)
Definition strptime (v : json) : result datetime :=
  match v with
  | JStr s =>
      match Date.strptime s with
      | Some d => Ok d
      | None => Raise ValueError
      end
  | _ => Raise TypeError
  end.

(** [datetime.now().strftime("[%Y-%m-%d]")] *)
Definition current_timestamp (now : datetime) : string := Date.strftime now.

(** The list comprehension of [clean_old_meals]. *)
Fixpoint clean_items (cutoff : Z * Z) (meals : list json) : result (list json) :=
  match meals with
  | [] => Ok []
  | meal :: rest =>
      t <-? Py.getitem meal "timestamp" ;;
      ts <-? strptime t ;;
      kept <-? clean_items cutoff rest ;;
      Ok (if Date.ge ts cutoff then meal :: kept else kept)
  end.

Definition clean_old_meals (now : datetime) (meals : json) (days : Z) : result json :=
  let cutoff := Date.minus_days now days in
  items <-? Py.iter meals ;;
  kept <-? clean_items cutoff items ;;
  Ok (JArr kept).

(** ** MealLedger ([add_meal], [list_meals], [delete_meal], [delete_all]) *)

(** [any(s["content"].lower() == meal.lower() for s in suggestions)] *)
Fixpoint any_matches (suggestions : list json) (meal : string) : result bool :=
  match suggestions with
  | [] => Ok false
  | s :: rest =>
      c <-? Py.getitem s "content" ;;
      l <-? Py.lower c ;;
      if String.eqb l (PyStr.lower meal) then Ok true else any_matches rest meal
  end.

Definition any_suggestion_matches (suggestions : json) (meal : string) : result bool :=
  items <-? Py.iter suggestions ;;
  any_matches items meal.

Definition add_meal (now : datetime) (meal meal_file suggestion_file : string)
    (date : option string) : M unit :=
  meals <- load_file meal_file ;;
  let meals := if is_None meals then JArr [] else meals in
  meals <- lift (clean_old_meals now meals 30) ;;
  let entry :=
    JObj [("timestamp",
           JStr (match date with None => current_timestamp now | Some d => d end));
          ("content", JStr meal)] in
  meals <- lift (Py.append meals entry) ;;
  save_file meals meal_file ;;;
  print (MealAdded meal) ;;;
  suggestions <- load_file suggestion_file ;;
  let suggestions := if is_None suggestions then JArr [] else suggestions in
  dup <- lift (any_suggestion_matches suggestions meal) ;;
  if negb dup then
    suggestions <- lift (Py.append suggestions (JObj [("content", JStr meal)])) ;;
    save_file suggestions suggestion_file
  else ret tt.

(** [item.get(new) or item.get(old) or sentinel] *)
Definition get_or (item : json) (new old sentinel : string) : result json :=
  a <-? Py.get item new ;;
  if Py.truthy a then Ok a
  else
    b <-? Py.get item old ;;
    Ok (Py.or_else b (JStr sentinel)).

Definition list_meals (data_file : string) : M unit :=
  data <- load_file data_file ;;
  if negb (Py.truthy data) then print NoMealsFound
  else
    items <- lift (Py.iter data) ;;
    for_each (enumerate items 1)
      (fun '(i, item) =>
         timestamp <- lift (get_or item "timestamp" "date" "unknown date") ;;
         content <- lift (get_or item "content" "meal" "unknown meal") ;;
         print (MealRow i timestamp content)).

Definition delete_meal (index : Z) (data_file : string) : M unit :=
  data <- load_file data_file ;;
  in_range <- lift (if 0 <? index
                    then n <-? Py.len data ;; Ok (index <=? n)
                    else Ok false) ;;
  if in_range then
    popped <- lift (Py.pop data (index - 1)) ;;
    let '(removed, data) := popped in
    save_file data data_file ;;;
    meal_name <- lift (get_or removed "content" "meal" "unknown meal") ;;
    print (DeletedMeal index meal_name)
  else print InvalidMealNumber.

Definition delete_all (data_file : string) : M unit :=
  save_file (JArr []) data_file ;;;
  print DeletedAllMeals.

(** ** RestoreService ([restore]) *)

Definition restore (data_file suggestion_file : string) : M unit :=
  let data_backup_file := backup_path data_file in
  let suggestion_backup_file := backup_path suggestion_file in
  try (data <- read_json data_backup_file ;;
       write_json data_file data ;;;
       data <- read_json suggestion_backup_file ;;
       write_json suggestion_file data ;;;
       print SuccessfullyRestored)
    (fun e =>
       match e with
       | FileNotFoundError => print NoFileToRestoreFrom
       | JSONDecodeError => print CorruptedAbortRestoring
       | _ => print ErrorRestoring
       end).

(** ** SuggestionBook ([suggest_meal], [add_suggestion], [list_suggestions]) *)

(** The loop of [suggest_meal] that fills [recent_names]. *)
Fixpoint recent_loop (cutoff : Z * Z) (recent_meals : list json)
    (recent_names : gset string) : result (gset string) :=
  match recent_meals with
  | [] => Ok recent_names
  | meal :: rest =>
      t <-? Py.getitem meal "timestamp" ;;
      ts <-? strptime t ;;
      if Date.ge ts cutoff then
        c <-? Py.getitem meal "content" ;;
        l <-? Py.lower c ;;
        recent_loop cutoff rest ({[ l ]} ∪ recent_names)
      else recent_loop cutoff rest recent_names
  end.

(** [[m["content"] for m in suggestions if m["content"].lower() not in recent_names]] *)
Fixpoint eligible_of (recent_names : gset string) (suggestions : list json)
    : result (list json) :=
  match suggestions with
  | [] => Ok []
  | m :: rest =>
      c <-? Py.getitem m "content" ;;
      l <-? Py.lower c ;;
      more <-? eligible_of recent_names rest ;;
      Ok (if bool_decide (l ∈ recent_names) then more else c :: more)
  end.

(** [random.choice(l)], where [rnd] is what the generator draws. *)
Definition choice {A} (rnd : nat) (l : list A) : result A :=
  match l !! (rnd mod length l)%nat with
  | Some x => Ok x
  | None => Raise IndexError
  end.

Definition suggest_meal (now : datetime) (rnd : nat)
    (meal_file suggestion_file : string) : M unit :=
  recent_meals <- load_file meal_file ;;
  suggestions <- load_file suggestion_file ;;
  if is_None suggestions || negb (Py.truthy suggestions) then
    print NoSuggestionsAvailable
  else
    let recent_cutoff := Date.minus_days now 14 in
    recent_names <-
      lift (if Py.truthy recent_meals
            then items <-? Py.iter recent_meals ;;
                 recent_loop recent_cutoff items ∅
            else Ok ∅) ;;
    eligible <- lift (items <-? Py.iter suggestions ;;
                      eligible_of recent_names items) ;;
    match eligible with
    | _ :: _ =>
        pick <- lift (choice rnd eligible) ;;
        print (SuggestedMeal pick)
    | [] => print NothingEligible
    end.

Definition add_suggestion (meal suggestion_file : string) : M unit :=
  suggestions <- load_file suggestion_file ;;
  let suggestions := if is_None suggestions then JArr [] else suggestions in
  dup <- lift (any_suggestion_matches suggestions meal) ;;
  if dup then print (SuggestionExists meal)
  else
    suggestions <- lift (Py.append suggestions (JObj [("content", JStr meal)])) ;;
    save_file suggestions suggestion_file ;;;
    print (AddedSuggestion meal).

Definition list_suggestions (suggestion_file : string) : M unit :=
  suggestions <- load_file suggestion_file ;;
  if negb (Py.truthy suggestions) then print NoSuggestionsFound
  else
    items <- lift (Py.iter suggestions) ;;
    for_each (enumerate items 1)
      (fun '(i, s) =>
         c <- lift (Py.get_default s "content" (JStr "unknown")) ;;
         print (SuggestionRow i c)).

(** Running a function from a file system, with nothing printed yet. *)
Definition run {A} (m : M A) (fs : gmap string file) : result A * world :=
  m (World fs []).

Definition outcome {A} (r : result A * world) : result A := fst r.
Definition files_after {A} (r : result A * world) : gmap string file := files (snd r).
Definition printed {A} (r : result A * world) : list msg := stdout (snd r).

(** ** Conditions on the paths *)

(** The two paths that an operation is given keep its writes apart: both
    have a directory, and the two files and their two backups are four
    different paths. *)
Definition paths_ok (data_file suggestion_file : string) : bool :=
  negb (PyStr.is_empty (PosixPath.dirname data_file))
  && negb (PyStr.is_empty (PosixPath.dirname suggestion_file))
  && negb (String.eqb data_file suggestion_file)
  && negb (String.eqb data_file (backup_path suggestion_file))
  && negb (String.eqb suggestion_file (backup_path data_file))
  && negb (String.eqb (backup_path data_file) (backup_path suggestion_file)).

Definition env_dir (live : bool) : string := if live then "live" else "test".


(** ** What a save leaves *)

(** The file system after [save_file data data_file] has run through: the
    file that was there is copied to the backup, then overwritten. *)
Definition saved (data : json) (data_file : string) (fs : gmap string file)
    : gmap string file :=
  <[data_file := FJson data]>
    (match fs !! data_file with
     | Some f => <[backup_path data_file := f]> fs
     | None => fs
     end).

(** ** The files a run may change *)

(** Whatever the world it starts from, the run leaves every file outside
    [paths] as it was: there, missing, or with the same content. *)
Definition modifies_only {A} (paths : list string) (m : M A) : Prop :=
  forall (w : world) (p : string),
    p ∉ paths -> files (snd (m w)) !! p = files w !! p.

(** ** The words of the specification *)

Definition us_per_day : Z := 86400000000.

(** The instant of a [datetime] on the line of microseconds. *)
Definition instant (d : datetime) : Z := Date.toordinal d * us_per_day + tod d.

(** The text under the key [timestamp] of a stored record. *)
Definition stamp_text (r : json) : option string :=
  match Py.getitem r "timestamp" with
  | Ok (JStr s) => Some s
  | _ => None
  end.

(** The parsed timestamp of a stored record, when it has one. *)
Definition timestamp_of (r : json) : option datetime :=
  match Py.getitem r "timestamp" with
  | Ok (JStr s) => Date.strptime s
  | _ => None
  end.

Definition parses (r : json) : bool :=
  match timestamp_of r with Some _ => true | None => false end.

(** The record is stamped at or after [now - days]. *)
Definition recent_enough (now : datetime) (days : Z) (r : json) : bool :=
  match timestamp_of r with
  | Some ts => instant now - days * us_per_day <=? instant ts
  | None => false
  end.

(** The content of a stored record, when it is a string. *)
Definition content_of (r : json) : option string :=
  match Py.getitem r "content" with
  | Ok (JStr s) => Some s
  | _ => None
  end.

(** The record that [add_meal] appends. *)
Definition meal_entry (now : datetime) (date : option string) (meal : string) : json :=
  JObj [("timestamp",
         JStr (match date with None => current_timestamp now | Some d => d end));
        ("content", JStr meal)].

(** The record that [add_meal] and [add_suggestion] append to the suggestions. *)
Definition suggestion_entry (meal : string) : json :=
  JObj [("content", JStr meal)].

(** What [load_file] returns for a path, as a function of the file system. *)
Definition loaded (fs : gmap string file) (path : string) : json :=
  match fs !! path with
  | Some (FJson v) => v
  | Some (FCorrupt _) => JNull
  | None => JArr []
  end.

(** [if v is None: v = []] *)
Definition or_empty (v : json) : json := if is_None v then JArr [] else v.

(** The second half of [add_meal]: the meal is mirrored to the suggestions. *)
Definition add_meal_mirror (meal suggestion_file : string) : M unit :=
  suggestions <- load_file suggestion_file ;;
  let suggestions := if is_None suggestions then JArr [] else suggestions in
  dup <- lift (any_suggestion_matches suggestions meal) ;;
  if negb dup then
    suggestions <- lift (Py.append suggestions (JObj [("content", JStr meal)])) ;;
    save_file suggestions suggestion_file
  else ret tt.

(** The value under a key of a dict, when it is there and truthy. *)
Definition truthy_field (fields : list (string * json)) (k : string) : option json :=
  match Py.assoc k fields with
  | Some v => if Py.truthy v then Some v else None
  | None => None
  end.

(** What a reader shows for a record: the value under the new key when it is
    there and truthy, else the value under the old key when it is there and
    truthy, else the sentinel. *)
Inductive shows (fields : list (string * json)) (new old sentinel : string)
    : json -> Prop :=
  | shows_new (v : json) :
      truthy_field fields new = Some v -> shows fields new old sentinel v
  | shows_old (v : json) :
      truthy_field fields new = None -> truthy_field fields old = Some v ->
      shows fields new old sentinel v
  | shows_sentinel :
      truthy_field fields new = None -> truthy_field fields old = None ->
      shows fields new old sentinel (JStr sentinel).

Definition is_dict (v : json) : bool :=
  match v with JObj _ => true | _ => false end.

Definition dict_fields (v : json) : list (string * json) :=
  match v with JObj fields => fields | _ => [] end.

(** The content of the record is [x], letter case apart. *)
Definition matches (x : string) (r : json) : bool :=
  match content_of r with
  | Some c => String.eqb (PyStr.lower c) (PyStr.lower x)
  | None => false
  end.

Definition count_matches (x : string) (items : list json) : nat :=
  length (List.filter (matches x) items).

(** The lowercased contents of the records of a list. *)
Definition lowered_contents (items : list json) : list string :=
  omap (fun r => PyStr.lower <$> content_of r) items.

(** The invariant of the suggestion file: no two suggestions with the same
    content, letter case apart. *)
Definition unique_contents (items : list json) : Prop :=
  NoDup (lowered_contents items).

(** A meal with this content, letter case apart, is in the ledger with a
    timestamp at or after [now - 14 days]. *)
Definition eaten_recently (now : datetime) (ledger : list json) (c : string) : bool :=
  existsb (fun m => recent_enough now 14 m && matches c m) ledger.

(** The contents of the suggestions that were not eaten recently. *)
Definition eligible (now : datetime) (ledger suggestions : list json) : list string :=
  List.filter (fun c => negb (eaten_recently now ledger c)) (omap content_of suggestions).

(** A ledger record of the new shape: a timestamp that parses and a content. *)
Definition well_formed_meal (m : json) : Prop :=
  is_Some (timestamp_of m) /\ is_Some (content_of m).

(** The row that [list_meals] prints for the record at position [i]. *)
Definition row_of (i : Z) (r : json) (m : msg) : Prop :=
  exists ts c,
    m = MealRow i ts c
    /\ shows (dict_fields r) "timestamp" "date" "unknown date" ts
    /\ shows (dict_fields r) "content" "meal" "unknown meal" c.

(** ** Sample data *)

Module Sample.

(** 15 March 2024, at noon. *)
Definition noon : datetime := DateTime 2024 3 15 43200000000.

Definition meal (stamp content : string) : json :=
  JObj [("timestamp", JStr stamp); ("content", JStr content)].

Definition data_file : string := get_data_file true None.
Definition suggestion_file : string := get_suggestion_file true None.

(** A ledger file that is not JSON. *)
Definition corrupted_fs : gmap string file :=
  {[ data_file := FCorrupt "{oops" ]}.

(** A ledger with a meal of 1 January and a meal of 10 March 2024. *)
Definition old_meal : json := meal "[2024-01-01]" "soup".
Definition new_meal : json := meal "[2024-03-10]" "rice".
Definition ledger_fs : gmap string file :=
  {[ data_file := FJson (JArr [old_meal; new_meal]) ]}.

(** A ledger whose records carry an empty value under a new key. *)
Definition mixed_record : json :=
  JObj [("timestamp", JStr ""); ("date", JStr "[2024-01-01]"); ("content", JStr "soup")].
Definition blank_record : json :=
  JObj [("timestamp", JStr "[2024-03-10]"); ("content", JStr "")].
Definition mixed_fs : gmap string file :=
  {[ data_file := FJson (JArr [mixed_record; blank_record]) ]}.

(** The ledger has a backup, the suggestions have none. *)
Definition half_backed_fs : gmap string file :=
  {[ data_file := FJson (JArr [old_meal; new_meal]);
     backup_path data_file := FJson (JArr [old_meal]) ]}.

Definition suggestion_fs : gmap string file :=
  {[ suggestion_file := FJson (JArr [suggestion_entry "Rice"]) ]}.

(** The scenario of the specification: [A] eaten today, [B] eaten 20 days
    ago, and the suggestions [A], [B], [C]. *)
Definition scenario_ledger : list json :=
  [meal "[2024-03-15]" "A"; meal "[2024-02-24]" "B"].
Definition scenario_suggestions : list json :=
  [suggestion_entry "A"; suggestion_entry "B"; suggestion_entry "C"].
Definition scenario_fs : gmap string file :=
  {[ data_file := FJson (JArr scenario_ledger);
     suggestion_file := FJson (JArr scenario_suggestions) ]}.

End Sample.

(** * The command line

    The rest of [meal.py]: the meal text and the date that [main] takes from
    the command line, and the dispatch of the sub-commands.  [argparse] is
    taken as given: [main] starts from the parsed arguments. *)

(** ** Input of the command line ([get_meal_input], [valid_date]) *)

Module Input.

(** [str.isspace] on an ASCII character *)
Definition is_space (c : ascii) : bool :=
  let n := nat_of_ascii c in
  (((9 <=? n) && (n <=? 13)) || ((28 <=? n) && (n <=? 32)))%nat.

(** [s.lstrip()] *)
Fixpoint lstrip (s : string) : string :=
  match s with
  | EmptyString => EmptyString
  | String c r => if is_space c then lstrip r else s
  end.

(** [s.rstrip()] *)
Fixpoint rstrip (s : string) : string :=
  match s with
  | EmptyString => EmptyString
  | String c r =>
      match rstrip r with
      | EmptyString => if is_space c then EmptyString else String c EmptyString
      | r' => String c r'
      end
  end.

(** [s.strip()] *)
Definition strip (s : string) : string := rstrip (lstrip s).

(** [" ".join(words)] *)
Fixpoint join_words (words : list string) : string :=
  match words with
  | [] => EmptyString
  | [w] => w
  | w :: rest => w +:+ " " +:+ join_words rest
  end.

End Input.

(** [stdin] is the text piped to the program, if standard input is not a
    terminal. *)
Definition get_meal_input (stdin : option string) (args_meal : list string)
    : option string :=
  match stdin with
  | Some text => Some (Input.strip text)
  | None =>
      match args_meal with
      | _ :: _ => Some (Input.join_words args_meal)
      | [] => None
      end
  end.

Module PlainDate.

(** [%d] at the end of the string, for the format [%Y-%m-%d] *)
Definition parse_day (s : string) : option Z :=
  match s with
  | String a EmptyString =>
      match Date.digit a with
      | Some x => if 1 <=? x then Some x else None
      | None => None
      end
  | String a (String b EmptyString) =>
      match Date.digit b with
      | Some y =>
          if Ascii.eqb a " " then (if 1 <=? y then Some y else None)
          else
            match Date.digit a with
            | Some x =>
                if ((x =? 3) && (y <=? 1)) || ((1 <=? x) && (x <=? 2))
                   || ((x =? 0) && (1 <=? y))
                then Some (10 * x + y) else None
            | None => None
            end
      | None => None
      end
  | _ => None
  end.

Definition parse_fields (s : string) : option (Z * Z * Z) :=
  match s with
  | String y1 (String y2 (String y3 (String y4 (String "-" r)))) =>
      match Date.digit y1, Date.digit y2, Date.digit y3, Date.digit y4 with
      | Some a, Some b, Some c, Some d =>
          match Date.parse_month r with
          | Some (m, r') =>
              match parse_day r' with
              | Some dd => Some (1000 * a + 100 * b + 10 * c + d, m, dd)
              | None => None
              end
          | None => None
          end
      | _, _, _, _ => None
      end
  | _ => None
  end.

(** [datetime.strptime(s, "%Y-%m-%d")]; [None] stands for [ValueError]. *)
Definition strptime (s : string) : option datetime :=
  match parse_fields s with
  | Some (y, m, d) =>
      let dt := DateTime y m d 0 in
      if Date.valid dt then Some dt else None
  | None => None
  end.

End PlainDate.

(** How [valid_date] ends: it returns [None], returns the bracketed stamp,
    or prints that the date is not valid and calls [sys.exit(1)]. *)
Inductive date_arg : Type :=
  | NoDate
  | Stamp (stamp : string)
  | NotAValidDate (date : string).

Definition valid_date (date : option string) : date_arg :=
  match date with
  | None => NoDate
  | Some s =>
      match PlainDate.strptime s with
      | Some d => Stamp (Date.strftime d)
      | None => NotAValidDate s
      end
  end.

(** ** Command dispatch ([main]) *)

(** The sub-command that [argparse] has parsed, with its arguments. *)
Inductive command : Type :=
  | CmdAdd (meal : list string)
  | CmdAddSuggest (meal : list string)
  | CmdList
  | CmdDelete (index : Z)
  | CmdDeleteAll
  | CmdRestore
  | CmdSuggest
  | CmdListSuggest.

(** [args.file], [args.date], [args.test] and the sub-command. *)
Record args : Type := Args {
  arg_file : option string;
  arg_date : option string;
  arg_test : bool;
  arg_command : command
}.

(** How [main] ends: [valid_date] has left with status 1; or [main] has
    printed that no meal content was provided; or it has called one
    operation, which returned or raised. *)
Inductive main_end : Type :=
  | ExitedOnDate (status : Z) (date : string)
  | NoMealContentProvided
  | Called (r : result unit).

(** [if meal:] for the result of [get_meal_input] *)
Definition has_content (meal : option string) : option string :=
  match meal with
  | Some (String c r) => Some (String c r)
  | _ => None
  end.

Definition called (r : result unit * world) : main_end * world :=
  (Called (fst r), snd r).

Definition main (a : args) (stdin : option string) (now : datetime) (rnd : nat)
    : world -> main_end * world :=
  fun w =>
    let data_file := get_data_file (arg_test a) (arg_file a) in
    let suggestion_file := get_suggestion_file (arg_test a) (arg_file a) in
    match arg_command a with
    | CmdAdd words =>
        let meal := get_meal_input stdin words in
        match valid_date (arg_date a) with
        | NotAValidDate s => (ExitedOnDate 1 s, w)
        | NoDate =>
            match has_content meal with
            | Some meal => called (add_meal now meal data_file suggestion_file None w)
            | None => (NoMealContentProvided, w)
            end
        | Stamp date =>
            match has_content meal with
            | Some meal =>
                called (add_meal now meal data_file suggestion_file (Some date) w)
            | None => (NoMealContentProvided, w)
            end
        end
    | CmdList => called (list_meals data_file w)
    | CmdDelete index => called (delete_meal index data_file w)
    | CmdDeleteAll => called (delete_all data_file w)
    | CmdRestore => called (restore data_file suggestion_file w)
    | CmdSuggest => called (suggest_meal now rnd data_file suggestion_file w)
    | CmdAddSuggest words =>
        match has_content (get_meal_input stdin words) with
        | Some meal => called (add_suggestion meal suggestion_file w)
        | None => (NoMealContentProvided, w)
        end
    | CmdListSuggest => called (list_suggestions suggestion_file w)
    end.

(** ** The words of the further properties *)

(** The date of a [datetime], at midnight. *)
Definition midnight (d : datetime) : datetime := DateTime (year d) (month d) (day d) 0.

(** The four paths of an environment: the two files and their backups. *)
Definition env_paths (live : bool) (cli_path : option string) : list string :=
  [get_data_file live cli_path; backup_path (get_data_file live cli_path);
   get_suggestion_file live cli_path; backup_path (get_suggestion_file live cli_path)].

(** The row that [list_suggestions] prints for the record at position [i]:
    the value under [content], or [unknown] when the key is missing. *)
Definition suggestion_row (i : Z) (r : json) : msg :=
  SuggestionRow i
    (match Py.assoc "content" (dict_fields r) with
     | Some v => v
     | None => JStr "unknown"
     end).

(** The exception that the comprehension of [clean_old_meals] raises on a
    record whose timestamp it cannot read. *)
Definition stamp_error (r : json) : option exn :=
  match Py.getitem r "timestamp" with
  | Raise e => Some e
  | Ok (JStr s) => match Date.strptime s with Some _ => None | None => Some ValueError end
  | Ok _ => Some TypeError
  end.

(** The text is made of whitespace only. *)
Fixpoint all_space (s : string) : bool :=
  match s with
  | EmptyString => true
  | String c r => Input.is_space c && all_space r
  end.

Definition starts_with_space (s : string) : bool :=
  match s with String c _ => Input.is_space c | EmptyString => false end.

Fixpoint ends_with_space (s : string) : bool :=
  match s with
  | EmptyString => false
  | String c EmptyString => Input.is_space c
  | String _ r => ends_with_space r
  end.

(** The commands that only read. *)
Definition reads_only (c : command) : bool :=
  match c with
  | CmdList | CmdSuggest | CmdListSuggest => true
  | _ => false
  end.

(** The commands that take a meal. *)
Definition takes_meal (c : command) : bool :=
  match c with
  | CmdAdd _ | CmdAddSuggest _ => true
  | _ => false
  end.

(** The file system that [add_meal] leaves on a well-formed ledger and
    suggestion list: the pruned ledger with the new entry is saved, then the
    suggestions with the meal appended, unless a suggestion matches it. *)
Definition after_add_meal (now : datetime) (meal data_file suggestion_file : string)
    (date : option string) (ledger suggestions : list json)
    (fs : gmap string file) : gmap string file :=
  let fs1 :=
    saved (JArr (List.filter (recent_enough now 30) ledger
                 ++ [meal_entry now date meal])) data_file fs in
  if existsb (matches meal) suggestions then fs1
  else saved (JArr (suggestions ++ [suggestion_entry meal])) suggestion_file fs1.
(** * Checks of the model on concrete inputs *)

Example path_ex1 : get_data_file true (Some "/home/u/food") = "/home/u/live/food.json".
Proof. reflexivity. Qed.
Example path_ex2 : get_suggestion_file false (Some "food") = "test/suggestion_food.json".
Proof. reflexivity. Qed.
Example path_ex3 : backup_path "./live/meals.json" = "./live/backup/backup_meals.json".
Proof. reflexivity. Qed.
Example path_ex4 : PosixPath.dirname "//a" = "//" /\ PosixPath.dirname "/a//b" = "/a".
Proof. split; reflexivity. Qed.
Example date_ex1 : Date.strptime "[2024-03-15]" = Some (DateTime 2024 3 15 0).
Proof. reflexivity. Qed.
Example date_ex2 : Date.strptime "[2023-02-29]" = None /\ Date.strptime "2024-03-15" = None
  /\ Date.strptime "[2024-3-5]" = Some (DateTime 2024 3 5 0)
  /\ Date.strptime "[2024-13-05]" = None /\ Date.strptime "[2024-03-15]x" = None.
Proof. repeat split; reflexivity. Qed.
Example date_ex3 : Date.toordinal (DateTime 2024 3 15 0) = 738960
  /\ Date.toordinal (DateTime 1 1 1 0) = 1.
Proof. split; reflexivity. Qed.
Example date_ex4 : Date.strftime (DateTime 2024 3 5 4000) = "[2024-03-05]".
Proof. reflexivity. Qed.

(** * Facts about paths *)

Module PathFacts.
Import PyStr PosixPath.

Lemma append_nil_l (b : string) : "" +:+ b = b.
Proof. reflexivity. Qed.

Lemma append_cons (c : ascii) (a b : string) :
  String c a +:+ b = String c (a +:+ b).
Proof. reflexivity. Qed.

Lemma append_assoc (a b c : string) : (a +:+ b) +:+ c = a +:+ (b +:+ c).
Proof.
  induction a as [|x a IH]; [reflexivity |].
  rewrite !append_cons. now f_equal.
Qed.

Lemma length_append (a b : string) :
  String.length (a +:+ b) = (String.length a + String.length b)%nat.
Proof.
  induction a as [|x a IH]; [reflexivity |].
  rewrite append_cons. simpl. now f_equal.
Qed.

Lemma drop_append (a b : string) : drop (String.length a) (a +:+ b) = b.
Proof.
  induction a as [|x a IH]; [now destruct b |].
  rewrite append_cons. exact IH.
Qed.

Lemma take_append (a b : string) : take (String.length a) (a +:+ b) = a.
Proof.
  induction a as [|x a IH]; [now destruct b |].
  rewrite append_cons. simpl. now f_equal.
Qed.

Lemma rfind_slash_range (s : string) :
  rfind_slash s = -1 \/ (0 <= rfind_slash s < len s).
Proof.
  unfold len. induction s as [|c s IH]; [now left |].
  cbn [rfind_slash String.length].
  destruct (Z.leb_spec 0 (rfind_slash s)).
  - right. lia.
  - destruct (is_slash c); [right; lia | now left].
Qed.

Lemma rfind_slash_free (s : string) :
  slash_free s = true <-> rfind_slash s = -1.
Proof.
  induction s as [|c s IH]; [easy |].
  cbn [rfind_slash slash_free].
  destruct (rfind_slash_range s) as [E | R].
  - rewrite E. change (0 <=? -1) with false. cbv iota.
    destruct (is_slash c); simpl; [easy |].
    split; [reflexivity | intros _; now apply IH].
  - destruct (Z.leb_spec 0 (rfind_slash s)); [| lia].
    split; [| lia].
    intros [_ F]%andb_prop. apply IH in F. lia.
Qed.

Lemma rfind_slash_append (a b : string) :
  rfind_slash (a +:+ b) =
    if 0 <=? rfind_slash b then len a + rfind_slash b else rfind_slash a.
Proof.
  unfold len. induction a as [|c a IH].
  - rewrite append_nil_l. cbn [rfind_slash String.length].
    destruct (rfind_slash_range b) as [-> | R]; [reflexivity |].
    destruct (Z.leb_spec 0 (rfind_slash b)); lia.
  - rewrite append_cons. cbn [rfind_slash String.length]. rewrite IH.
    destruct (Z.leb_spec 0 (rfind_slash b)).
    + destruct (Z.leb_spec 0 (Z.of_nat (String.length a) + rfind_slash b)); lia.
    + reflexivity.
Qed.

(** The last slash of [a/f] is the one written, when [f] has none. *)
Lemma rfind_slash_sep (a f : string) :
  slash_free f = true -> rfind_slash (a +:+ "/" +:+ f) = len a.
Proof.
  intros F. rewrite rfind_slash_append, append_cons, append_nil_l.
  cbn [rfind_slash].
  apply rfind_slash_free in F. rewrite F. simpl. lia.
Qed.

Lemma basename_sep (a f : string) :
  slash_free f = true -> basename (a +:+ "/" +:+ f) = f.
Proof.
  intros F. unfold basename, from. rewrite (rfind_slash_sep _ _ F). unfold len.
  replace (Z.to_nat (Z.of_nat (String.length a) + 1))
    with (String.length (a +:+ "/")).
  - rewrite <- append_assoc. apply drop_append.
  - rewrite length_append. simpl. lia.
Qed.

Lemma basename_slash_free (p : string) : slash_free (basename p) = true.
Proof.
  unfold basename, from. induction p as [|c p IH]; [reflexivity |].
  cbn [rfind_slash]. destruct (rfind_slash_range p) as [E | R].
  - rewrite E. change (0 <=? -1) with false. cbv iota.
    apply rfind_slash_free in E.
    destruct (is_slash c) eqn:C; simpl; [exact E | now rewrite C].
  - destruct (Z.leb_spec 0 (rfind_slash p)); [| lia].
    replace (Z.to_nat (rfind_slash p + 1 + 1)) with (S (Z.to_nat (rfind_slash p + 1)))
      by lia.
    exact IH.
Qed.

(** A name that is not empty and does not end with a slash. *)
Definition ends_plain (a : string) : bool :=
  negb (is_empty a) && negb (endswith_slash a).

Lemma ends_plain_append (a b : string) :
  ends_plain b = true -> ends_plain (a +:+ b) = true.
Proof.
  unfold ends_plain. intros [N E]%andb_prop.
  destruct b as [|y b]; [discriminate |]. clear N.
  induction a as [|x a IH]; [exact E |].
  rewrite append_cons. cbn [is_empty negb andb endswith_slash].
  destruct (a +:+ String y b) eqn:Q; [now destruct a |].
  exact IH.
Qed.

Lemma rstrip_plain (a : string) :
  ends_plain a = true ->
  rstrip_slash (a +:+ "/") = a /\ all_slashes (a +:+ "/") = false.
Proof.
  unfold ends_plain. induction a as [|x a IH]; [discriminate |].
  destruct a as [|y a].
  - rewrite append_cons, append_nil_l. simpl.
    destruct (is_slash x); [discriminate | easy].
  - intros H. destruct IH as [R A]; [exact H |].
    rewrite append_cons. cbn [rstrip_slash all_slashes]. rewrite R, A.
    split; [reflexivity | apply andb_false_r].
Qed.

Lemma dirname_sep (a f : string) :
  ends_plain a = true -> slash_free f = true ->
  dirname (a +:+ "/" +:+ f) = a.
Proof.
  intros P F. unfold dirname, upto. rewrite (rfind_slash_sep _ _ F). unfold len.
  replace (Z.to_nat (Z.of_nat (String.length a) + 1))
    with (String.length (a +:+ "/")) by (rewrite length_append; simpl; lia).
  rewrite <- append_assoc, take_append.
  destruct (rstrip_plain a P) as [R A]. rewrite A, R.
  destruct a; [discriminate | reflexivity].
Qed.

Lemma startswith_slash_free (f : string) :
  slash_free f = true -> startswith_slash f = false.
Proof. destruct f as [|c f]; simpl; [easy |]. now destruct (is_slash c). Qed.

(** [join(d, seg, f)] is [join(d, seg)], a slash, and [f]. *)
Lemma join_two (d seg f : string) :
  ends_plain seg = true -> startswith_slash seg = false ->
  startswith_slash f = false ->
  join d [seg; f] = join d [seg] +:+ "/" +:+ f /\ ends_plain (join d [seg]) = true.
Proof.
  intros P S F. unfold join. cbn [fold_left].
  assert (Q : ends_plain (join_step d seg) = true).
  { unfold join_step. rewrite S.
    destruct (is_empty d || endswith_slash d).
    - now apply ends_plain_append.
    - apply ends_plain_append. now apply (ends_plain_append "/"). }
  split; [| exact Q].
  unfold join_step at 1. rewrite F.
  unfold ends_plain in Q. apply andb_prop in Q as [Q1 Q2].
  apply negb_true_iff in Q1, Q2. now rewrite Q1, Q2.
Qed.

Lemma dirname_join_two (d seg f : string) :
  ends_plain seg = true -> startswith_slash seg = false -> slash_free f = true ->
  dirname (join d [seg; f]) = join d [seg].
Proof.
  intros P S F.
  destruct (join_two d seg f P S (startswith_slash_free f F)) as [-> Q].
  now apply dirname_sep.
Qed.

Lemma basename_join_two (d seg f : string) :
  ends_plain seg = true -> startswith_slash seg = false -> slash_free f = true ->
  basename (join d [seg; f]) = f.
Proof.
  intros P S F.
  destruct (join_two d seg f P S (startswith_slash_free f F)) as [-> Q].
  now apply basename_sep.
Qed.

Lemma slash_free_append (a b : string) :
  slash_free (a +:+ b) = slash_free a && slash_free b.
Proof.
  induction a as [|x a IH]; [reflexivity |].
  rewrite append_cons. cbn [slash_free]. rewrite IH. now rewrite andb_assoc.
Qed.

Lemma ends_plain_not_empty (a : string) : ends_plain a = true -> a <> "".
Proof. now destruct a. Qed.

(** The backup of a file has another base name than the file: it is seven
    characters longer. *)
Lemma basename_backup_path (p : string) :
  basename (backup_path p) = BACKUP_SUFFIX +:+ basename p.
Proof.
  unfold backup_path. apply basename_join_two; try reflexivity.
  rewrite slash_free_append. now rewrite basename_slash_free.
Qed.

Lemma backup_path_neq (p : string) : backup_path p <> p.
Proof.
  intros E. pose proof (basename_backup_path p) as B. rewrite E in B.
  apply (f_equal String.length) in B. rewrite length_append in B.
  simpl in B. lia.
Qed.

End PathFacts.

Module Resolved.
Import PyStr PosixPath PathFacts.

Lemma data_file_some (live : bool) (p : string) :
  get_data_file live (Some p) =
    join (dirname p) [env_dir live; basename p +:+ ".json"].
Proof. now destruct live. Qed.

Lemma suggestion_file_some (live : bool) (p : string) :
  get_suggestion_file live (Some p) =
    join (dirname p) [env_dir live; SUGGESTION_SUFFIX +:+ basename p +:+ ".json"].
Proof. now destruct live. Qed.

Lemma env_dir_plain (live : bool) :
  ends_plain (env_dir live) = true /\ startswith_slash (env_dir live) = false.
Proof. now destruct live. Qed.

Lemma data_name_free (p : string) : slash_free (basename p +:+ ".json") = true.
Proof. rewrite slash_free_append. now rewrite basename_slash_free. Qed.

Lemma suggestion_name_free (p : string) :
  slash_free (SUGGESTION_SUFFIX +:+ basename p +:+ ".json") = true.
Proof. rewrite !slash_free_append. now rewrite basename_slash_free. Qed.

Lemma basename_data_file (live : bool) (p : string) :
  basename (get_data_file live (Some p)) = basename p +:+ ".json".
Proof.
  rewrite data_file_some. destruct (env_dir_plain live).
  apply basename_join_two; auto using data_name_free.
Qed.

Lemma basename_suggestion_file (live : bool) (p : string) :
  basename (get_suggestion_file live (Some p)) =
    SUGGESTION_SUFFIX +:+ basename p +:+ ".json".
Proof.
  rewrite suggestion_file_some. destruct (env_dir_plain live).
  apply basename_join_two; auto using suggestion_name_free.
Qed.

Lemma dirname_data_file (live : bool) (p : string) :
  dirname (get_data_file live (Some p)) = join (dirname p) [env_dir live].
Proof.
  rewrite data_file_some. destruct (env_dir_plain live).
  apply dirname_join_two; auto using data_name_free.
Qed.

Lemma dirname_suggestion_file (live : bool) (p : string) :
  dirname (get_suggestion_file live (Some p)) = join (dirname p) [env_dir live].
Proof.
  rewrite suggestion_file_some. destruct (env_dir_plain live).
  apply dirname_join_two; auto using suggestion_name_free.
Qed.

Lemma dir_not_empty (live : bool) (p : string) :
  is_empty (join (dirname p) [env_dir live]) = false.
Proof.
  destruct (env_dir_plain live) as [P S].
  destruct (join_two (dirname p) (env_dir live) "" P S eq_refl) as [_ Q].
  now destruct (join (dirname p) [env_dir live]).
Qed.

Lemma neq_by_basename (a b : string) :
  String.length (basename a) <> String.length (basename b) ->
  String.eqb a b = false.
Proof. intros N. apply String.eqb_neq. intros ->. now apply N. Qed.

(** Every pair of paths that [main] resolves keeps the writes apart. *)
Lemma paths_ok_resolved (live : bool) (cli_path : option string) :
  paths_ok (get_data_file live cli_path) (get_suggestion_file live cli_path) = true.
Proof.
  destruct cli_path as [p |]; [| now destruct live].
  unfold paths_ok.
  rewrite dirname_data_file, dirname_suggestion_file, dir_not_empty.
  rewrite !neq_by_basename; [reflexivity | ..];
    rewrite ?basename_backup_path, ?basename_data_file, ?basename_suggestion_file;
    unfold BACKUP_SUFFIX, SUGGESTION_SUFFIX;
    rewrite ?length_append; simpl; lia.
Qed.

End Resolved.

(** * Path resolution *)

(** C3, as stated, fails: with no base path the suggestion file is named
    [suggestion.json], which is not the name of the data file, [meals.json],
    prefixed with [suggestion_]. *)
Lemma get_suggestion_file_default_not_prefixed :
  get_suggestion_file true None = "./live/suggestion.json"
  /\ get_suggestion_file true None <> "./live/suggestion_meals.json"
  /\ PosixPath.basename (get_suggestion_file true None)
       <> SUGGESTION_SUFFIX +:+ PosixPath.basename (get_data_file true None).
Proof. repeat split; discriminate. Qed.

(** C3, amended: with no base path [get_suggestion_file] returns the fixed
    path [./live/suggestion.json] or [./test/suggestion.json]; with a base
    path [p] it returns [join(dirname(p), live|test, suggestion_<basename(p)>.json)],
    which lies in the directory of the data file and is named as the data
    file, prefixed with [suggestion_]. *)
Theorem get_suggestion_file_spec (live : bool) (cli_path : option string) :
  match cli_path with
  | None =>
      get_suggestion_file live None = "./" +:+ env_dir live +:+ "/suggestion.json"
  | Some p =>
      get_suggestion_file live (Some p) =
        PosixPath.join (PosixPath.dirname p)
          [env_dir live; "suggestion_" +:+ PosixPath.basename p +:+ ".json"]
      /\ PosixPath.dirname (get_suggestion_file live (Some p)) =
           PosixPath.dirname (get_data_file live (Some p))
      /\ PosixPath.basename (get_suggestion_file live (Some p)) =
           "suggestion_" +:+ PosixPath.basename p +:+ ".json"
      /\ PosixPath.basename (get_suggestion_file live (Some p)) =
           "suggestion_" +:+ PosixPath.basename (get_data_file live (Some p))
  end.
Proof.
  destruct cli_path as [p |]; [| now destruct live].
  split; [apply Resolved.suggestion_file_some |].
  split; [now rewrite Resolved.dirname_suggestion_file, Resolved.dirname_data_file |].
  split; [apply Resolved.basename_suggestion_file |].
  now rewrite Resolved.basename_suggestion_file, Resolved.basename_data_file.
Qed.

(** * Runs of the primitives *)

Section Runs.
Context {A B : Type}.

Lemma bind_ok (m : M A) (k : A -> M B) (w w' : world) (a : A) :
  m w = (Ok a, w') -> bind m k w = k a w'.
Proof. unfold bind. now intros ->. Qed.

Lemma bind_raise (m : M A) (k : A -> M B) (w w' : world) (e : exn) :
  m w = (Raise e, w') -> bind m k w = (Raise e, w').
Proof. unfold bind. now intros ->. Qed.

Lemma bind_lift (r : result A) (k : A -> M B) (w : world) :
  bind (lift r) k w = match r with Ok a => k a w | Raise e => (Raise e, w) end.
Proof. reflexivity. Qed.

End Runs.

Lemma load_file_json (w : world) (p : string) (v : json) :
  files w !! p = Some (FJson v) -> load_file p w = (Ok v, w).
Proof. unfold load_file, try, read_json. now intros ->. Qed.

Lemma load_file_missing (w : world) (p : string) :
  files w !! p = None -> load_file p w = (Ok (JArr []), w).
Proof. unfold load_file, try, read_json. now intros ->. Qed.

Lemma load_file_corrupt (w : world) (p raw : string) :
  files w !! p = Some (FCorrupt raw) ->
  load_file p w = (Ok JNull, World (files w) (stdout w ++ [CorruptedAbortLoading])).
Proof. unfold load_file, try, read_json. now intros ->. Qed.

(** [load_file] never raises and never writes. *)
Lemma load_file_total (w : world) (p : string) :
  exists v out, load_file p w = (Ok v, World (files w) out).
Proof.
  destruct w as [fs o]. destruct (fs !! p) as [[v | raw] |] eqn:E.
  - exists v, o. now apply load_file_json.
  - exists JNull, (o ++ [CorruptedAbortLoading]).
    exact (load_file_corrupt (World fs o) p raw E).
  - exists (JArr []), o. now apply load_file_missing.
Qed.

(** The file system that [save_file] leaves: the old content, if any, is
    copied to the backup, then the data file is overwritten. *)
Lemma save_file_run (w : world) (data : json) (p : string) :
  PosixPath.dirname p <> "" ->
  save_file data p w = (Ok tt, World (saved data p (files w)) (stdout w)).
Proof.
  intros D. unfold save_file, saved, ensure_dir.
  destruct (PosixPath.dirname p) as [| c d] eqn:E; [easy |].
  assert (N : PyStr.is_empty (PosixPath.join (String c d) ["backup"]) = false).
  { unfold PosixPath.join, PosixPath.join_step. cbn [fold_left].
    rewrite !PathFacts.append_cons.
    now destruct (PyStr.startswith_slash "backup"),
      (PyStr.is_empty (String c d) || PyStr.endswith_slash (String c d)). }
  rewrite N. unfold bind, ret, try, path_exists, copy2, write_json. simpl.
  fold (backup_path p). rewrite <- E. fold (backup_path p).
  destruct (files w !! p) as [f |] eqn:F; simpl; rewrite ?F; reflexivity.
Qed.

Lemma save_file_no_directory (w : world) (data : json) (p : string) :
  PosixPath.dirname p = "" -> save_file data p w = (Raise FileNotFoundError, w).
Proof. intros D. unfold save_file, ensure_dir. now rewrite D. Qed.

(** * The files that each function may change *)

Section Frame.
Context {A B : Type}.
Variable paths : list string.

Lemma mo_ret (a : A) : modifies_only paths (ret a).
Proof. now intros w p _. Qed.

Lemma mo_raise (e : exn) : modifies_only paths (@raise A e).
Proof. now intros w p _. Qed.

Lemma mo_lift (r : result A) : modifies_only paths (lift r).
Proof. now intros w p _. Qed.

Lemma mo_bind (m : M A) (k : A -> M B) :
  modifies_only paths m -> (forall a, modifies_only paths (k a)) ->
  modifies_only paths (bind m k).
Proof.
  intros Hm Hk w p N. unfold bind. specialize (Hm w p N).
  destruct (m w) as [[a | e] w']; simpl in *; [| exact Hm].
  now rewrite (Hk a w' p N).
Qed.

Lemma mo_try (m : M A) (h : exn -> M A) :
  modifies_only paths m -> (forall e, modifies_only paths (h e)) ->
  modifies_only paths (try m h).
Proof.
  intros Hm Hh w p N. unfold try. specialize (Hm w p N).
  destruct (m w) as [[a | e] w']; simpl in *; [exact Hm |].
  now rewrite (Hh e w' p N).
Qed.

End Frame.

Section FramePrimitives.
Variable paths : list string.

Lemma mo_print (x : msg) : modifies_only paths (print x).
Proof. now intros w p _. Qed.

Lemma mo_read_json (f : string) : modifies_only paths (read_json f).
Proof.
  intros w p _. unfold read_json. now destruct (files w !! f) as [[? | ?] |].
Qed.

Lemma mo_path_exists (f : string) : modifies_only paths (path_exists f).
Proof. now intros w p _. Qed.

Lemma mo_ensure_dir (d : string) : modifies_only paths (ensure_dir d).
Proof. intros w p _. unfold ensure_dir. now destruct (PyStr.is_empty d). Qed.

Lemma mo_write_json (f : string) (v : json) :
  f ∈ paths -> modifies_only paths (write_json f v).
Proof.
  intros I w p N. simpl. apply lookup_insert_ne. now intros ->.
Qed.

Lemma mo_copy2 (src dst : string) :
  dst ∈ paths -> modifies_only paths (copy2 src dst).
Proof.
  intros I w p N. unfold copy2. destruct (files w !! src); [| reflexivity].
  simpl. apply lookup_insert_ne. now intros ->.
Qed.

Lemma mo_for_each {X : Type} (l : list X) (body : X -> M unit) :
  (forall x, modifies_only paths (body x)) -> modifies_only paths (for_each l body).
Proof.
  intros Hb. induction l as [| x l IH]; simpl.
  - apply mo_ret.
  - apply mo_bind; [apply Hb | intros _; exact IH].
Qed.

Lemma mo_load_file (f : string) : modifies_only paths (load_file f).
Proof.
  unfold load_file. apply mo_try; [apply mo_read_json |].
  intros []; try apply mo_raise.
  - apply mo_ret.
  - apply mo_bind; [apply mo_print | intros _; apply mo_ret].
Qed.

Lemma mo_save_file (data : json) (f : string) :
  f ∈ paths -> backup_path f ∈ paths -> modifies_only paths (save_file data f).
Proof.
  intros I J. unfold save_file.
  repeat (apply mo_bind; [| intros ?]); try apply mo_ensure_dir.
  - apply mo_try; [| intros _; apply mo_print].
    apply mo_bind; [apply mo_path_exists |].
    intros []; [now apply mo_copy2 | apply mo_ret].
  - apply mo_try; [now apply mo_write_json | intros _; apply mo_print].
Qed.

End FramePrimitives.

Create HintDb frame.
#[local] Hint Resolve mo_ret mo_raise mo_lift mo_print mo_load_file mo_read_json : frame.

(** A run that may change no file leaves the file system as it was. *)
Lemma modifies_nothing {A} (m : M A) (fs : gmap string file) :
  modifies_only [] m -> files_after (run m fs) = fs.
Proof.
  intros H. apply map_eq. intros p. apply (H (World fs []) p). apply not_elem_of_nil.
Qed.

Lemma list_meals_frame (data_file : string) : modifies_only [] (list_meals data_file).
Proof.
  unfold list_meals. apply mo_bind; [auto with frame |]. intros data.
  destruct (negb (Py.truthy data)); [auto with frame |].
  apply mo_bind; [auto with frame |]. intros items.
  apply mo_for_each. intros [i item].
  repeat (apply mo_bind; [auto with frame | intros ?]). auto with frame.
Qed.

Lemma list_suggestions_frame (suggestion_file : string) :
  modifies_only [] (list_suggestions suggestion_file).
Proof.
  unfold list_suggestions. apply mo_bind; [auto with frame |]. intros data.
  destruct (negb (Py.truthy data)); [auto with frame |].
  apply mo_bind; [auto with frame |]. intros items.
  apply mo_for_each. intros [i item].
  repeat (apply mo_bind; [auto with frame | intros ?]). auto with frame.
Qed.

Lemma suggest_meal_frame (now : datetime) (rnd : nat) (meal_file suggestion_file : string) :
  modifies_only [] (suggest_meal now rnd meal_file suggestion_file).
Proof.
  unfold suggest_meal.
  apply mo_bind; [auto with frame |]. intros recent_meals.
  apply mo_bind; [auto with frame |]. intros suggestions.
  destruct (is_None suggestions || negb (Py.truthy suggestions)); [auto with frame |].
  apply mo_bind; [auto with frame |]. intros recent_names.
  apply mo_bind; [auto with frame |]. intros [| c eligible]; [auto with frame |].
  apply mo_bind; auto with frame.
Qed.

(** C10: whatever the files hold (missing, empty, corrupted or well formed),
    [list_meals], [list_suggestions] and [suggest_meal] leave the whole file
    system as it was, whether they return or end with an exception; so the
    ledger, the suggestion file and their backups are untouched. *)
Theorem read_only_operations_write_nothing
    (fs : gmap string file) (now : datetime) (rnd : nat)
    (meal_file suggestion_file : string) :
  files_after (run (list_meals meal_file) fs) = fs
  /\ files_after (run (list_suggestions suggestion_file) fs) = fs
  /\ files_after (run (suggest_meal now rnd meal_file suggestion_file) fs) = fs.
Proof.
  repeat split; apply modifies_nothing.
  - apply list_meals_frame.
  - apply list_suggestions_frame.
  - apply suggest_meal_frame.
Qed.

(** * Pruning *)

Lemma strptime_valid (s : string) (d : datetime) :
  Date.strptime s = Some d -> Date.valid d = true /\ tod d = 0.
Proof.
  unfold Date.strptime. destruct (Date.parse_fields s) as [[[y m] dd] |]; [| easy].
  simpl. destruct (Date.valid (DateTime y m dd 0)) eqn:V; [| easy].
  now intros [= <-].
Qed.

Lemma valid_tod (d : datetime) : Date.valid d = true -> 0 <= tod d < us_per_day.
Proof. unfold Date.valid, us_per_day. lia. Qed.

(** Comparing by day and then by time of day is comparing instants. *)
Lemma ge_instant (ts now : datetime) (days : Z) :
  0 <= tod ts < us_per_day -> 0 <= tod now < us_per_day ->
  Date.ge ts (Date.minus_days now days) = (instant now - days * us_per_day <=? instant ts).
Proof.
  unfold Date.ge, Date.minus_days, instant, us_per_day. simpl. intros Hts Hnow.
  destruct (Z.leb_spec
    (Date.toordinal now * 86400000000 + tod now - days * 86400000000)
    (Date.toordinal ts * 86400000000 + tod ts)) as [L | L].
  - destruct (Z.ltb_spec (Date.toordinal now - days) (Date.toordinal ts)); [reflexivity |].
    simpl. apply andb_true_intro. split; [apply Z.eqb_eq | apply Z.leb_le]; nia.
  - apply orb_false_intro; [apply Z.ltb_ge; nia |].
    apply andb_false_iff.
    destruct (Z.eqb_spec (Date.toordinal now - days) (Date.toordinal ts)) as [E |];
      [right; apply Z.leb_gt; nia | now left].
Qed.

Lemma clean_step (now : datetime) (days : Z) (meal : json) (rest : list json)
    (ts : datetime) :
  timestamp_of meal = Some ts ->
  clean_items (Date.minus_days now days) (meal :: rest) =
    (kept <-? clean_items (Date.minus_days now days) rest ;;
     Ok (if Date.ge ts (Date.minus_days now days) then meal :: kept else kept)).
Proof.
  unfold timestamp_of. cbn [clean_items].
  destruct (Py.getitem meal "timestamp") as [[| | | | s | |] |]; try discriminate.
  cbn [rbind strptime]. now intros ->.
Qed.

Lemma recent_enough_stamp (now : datetime) (days : Z) (r : json) (ts : datetime) :
  timestamp_of r = Some ts ->
  recent_enough now days r = (instant now - days * us_per_day <=? instant ts).
Proof. unfold recent_enough. now intros ->. Qed.

(** On records whose timestamps parse, the comprehension is the filter of
    the specification. *)
Lemma clean_items_filter (now : datetime) (days : Z) (meals : list json) :
  Date.valid now = true ->
  Forall (fun r => is_Some (timestamp_of r)) meals ->
  clean_items (Date.minus_days now days) meals =
    Ok (List.filter (recent_enough now days) meals).
Proof.
  intros V. induction 1 as [| meal rest [ts T] _ IH]; [reflexivity |].
  rewrite (clean_step now days meal rest ts T), IH. cbn [rbind List.filter].
  rewrite (recent_enough_stamp now days meal ts T).
  unfold timestamp_of in T.
  destruct (Py.getitem meal "timestamp") as [[| | | | s | |] |]; try discriminate.
  destruct (strptime_valid s ts T) as [Vts _].
  now rewrite (ge_instant ts now days (valid_tod _ Vts) (valid_tod _ V)).
Qed.

Lemma clean_items_value_error (cutoff : Z * Z) (meals : list json) :
  Forall (fun r => is_Some (stamp_text r)) meals ->
  forallb parses meals = false ->
  clean_items cutoff meals = Raise ValueError.
Proof.
  induction 1 as [| meal rest [s S] _ IH]; [discriminate |].
  cbn [forallb clean_items]. unfold parses at 1, timestamp_of.
  unfold stamp_text in S.
  destruct (Py.getitem meal "timestamp") as [[| | | | s' | |] |]; try discriminate.
  cbn [rbind strptime]. destruct (Date.strptime s'); [| reflexivity].
  intros F. cbn [rbind]. now rewrite (IH F).
Qed.

Lemma forallb_parses (meals : list json) :
  forallb parses meals = true -> Forall (fun r => is_Some (timestamp_of r)) meals.
Proof.
  intros F. apply Forall_forall. intros r I.
  rewrite forallb_forall in F. apply list_elem_of_In in I. specialize (F r I).
  unfold parses in F. destruct (timestamp_of r); [eauto | discriminate].
Qed.

Lemma filter_sublist {X : Type} (f : X -> bool) (l : list X) :
  List.filter f l `sublist_of` l.
Proof.
  induction l as [| x l IH]; simpl; [constructor |].
  destruct (f x); now constructor.
Qed.

Lemma elem_of_recent (now : datetime) (days : Z) (meals : list json) (r : json) :
  r ∈ List.filter (recent_enough now days) meals <->
  r ∈ meals /\ exists ts, timestamp_of r = Some ts
                        /\ instant now - days * us_per_day <= instant ts.
Proof.
  rewrite !list_elem_of_In, filter_In. unfold recent_enough.
  split.
  - intros [I R]. split; [exact I |].
    destruct (timestamp_of r) as [ts |]; [| discriminate].
    exists ts. split; [reflexivity | now apply Z.leb_le].
  - intros [I (ts & -> & L)]. split; [exact I | now apply Z.leb_le].
Qed.

(** A ledger that [clean_old_meals] refuses stops [add_meal] before it
    writes or prints anything. *)
Lemma add_meal_fatal (fs : gmap string file) (now : datetime)
    (meal meal_file suggestion_file : string) (date : option string)
    (meals : list json) (e : exn) :
  fs !! meal_file = Some (FJson (JArr meals)) ->
  clean_old_meals now (JArr meals) 30 = Raise e ->
  run (add_meal now meal meal_file suggestion_file date) fs = (Raise e, World fs []).
Proof.
  intros L C. unfold run, add_meal.
  rewrite (bind_ok _ _ _ _ _ (load_file_json (World fs []) meal_file _ L)).
  cbn [is_None]. now rewrite bind_lift, C.
Qed.

(** C6: on a list of records that carry a timestamp text, [clean_old_meals]
    either keeps, in their order, exactly the records whose parsed timestamp
    is at or after [now - days] (when every timestamp parses), or raises
    [ValueError] (when one does not), and then [add_meal], the operation that
    prunes, ends with that exception before writing anything. *)
Theorem clean_old_meals_spec (now : datetime) (days : Z) (meals : list json) :
  Date.valid now = true ->
  Forall (fun r => is_Some (stamp_text r)) meals ->
  if forallb parses meals then
    clean_old_meals now (JArr meals) days =
      Ok (JArr (List.filter (recent_enough now days) meals))
    /\ List.filter (recent_enough now days) meals `sublist_of` meals
    /\ (forall r, r ∈ List.filter (recent_enough now days) meals <->
          r ∈ meals /\ exists ts, timestamp_of r = Some ts
                                /\ instant now - days * us_per_day <= instant ts)
  else
    clean_old_meals now (JArr meals) days = Raise ValueError
    /\ (forall fs meal meal_file suggestion_file date,
          fs !! meal_file = Some (FJson (JArr meals)) ->
          run (add_meal now meal meal_file suggestion_file date) fs
            = (Raise ValueError, World fs [])).
Proof.
  intros V S. destruct (forallb parses meals) eqn:P.
  - split; [| split].
    + unfold clean_old_meals. cbn [Py.iter rbind].
      now rewrite (clean_items_filter now days meals V (forallb_parses meals P)).
    + apply filter_sublist.
    + apply elem_of_recent.
  - assert (C : forall d, clean_old_meals now (JArr meals) d = Raise ValueError).
    { intros d. unfold clean_old_meals. cbn [Py.iter rbind].
      now rewrite (clean_items_value_error _ meals S P). }
    split; [apply C |].
    intros fs meal mf sf date L. now apply (add_meal_fatal fs now meal mf sf date meals).
Qed.

(** At noon on 15 March 2024, a meal of 1 January is dropped and a meal of
    10 March is kept. *)
Lemma clean_old_meals_spec_witness :
  Date.valid Sample.noon = true
  /\ clean_old_meals Sample.noon
       (JArr [Sample.meal "[2024-01-01]" "soup"; Sample.meal "[2024-03-10]" "rice"]) 30
     = Ok (JArr [Sample.meal "[2024-03-10]" "rice"]).
Proof.
  split; [reflexivity |].
  refine (proj1 (clean_old_meals_spec Sample.noon 30
    [Sample.meal "[2024-01-01]" "soup"; Sample.meal "[2024-03-10]" "rice"] eq_refl _)).
  repeat constructor; now eexists.
Defined.

(** * The ledger *)

Lemma paths_ok_spec (d s : string) :
  paths_ok d s = true ->
  PosixPath.dirname d <> "" /\ PosixPath.dirname s <> "" /\ d <> s
  /\ d <> backup_path s /\ s <> backup_path d /\ backup_path d <> backup_path s.
Proof.
  unfold paths_ok. rewrite !andb_true_iff, !negb_true_iff, !String.eqb_neq.
  intros [[[[[A B] C] D] E] F]. repeat split; try assumption.
  - now destruct (PosixPath.dirname d).
  - now destruct (PosixPath.dirname s).
Qed.

Lemma not_in_two (a x y : string) : a <> x -> a <> y -> a ∉ [x; y].
Proof. intros ? ?. rewrite !not_elem_of_cons. repeat split; auto. apply not_elem_of_nil. Qed.

Lemma load_file_loaded (w : world) (path : string) :
  exists out, load_file path w = (Ok (loaded (files w) path), World (files w) out).
Proof.
  unfold loaded. destruct w as [fs o]. cbn [files].
  destruct (fs !! path) as [[v | raw] |] eqn:E.
  - exists o. now apply load_file_json.
  - exists (o ++ [CorruptedAbortLoading]). exact (load_file_corrupt (World fs o) path raw E).
  - exists o. now apply load_file_missing.
Qed.

Lemma add_meal_mirror_frame (meal suggestion_file : string) :
  modifies_only [suggestion_file; backup_path suggestion_file]
    (add_meal_mirror meal suggestion_file).
Proof.
  unfold add_meal_mirror.
  apply mo_bind; [auto with frame |]. intros suggestions.
  apply mo_bind; [auto with frame |]. intros [|]; cbn [negb]; [auto with frame |].
  apply mo_bind; [auto with frame |]. intros data.
  apply mo_save_file; set_solver.
Qed.

(** What [add_meal] leaves in the ledger and in its backup, whatever happens
    afterwards with the suggestions. *)
Lemma add_meal_ledger_written (fs : gmap string file) (now : datetime)
    (meal meal_file suggestion_file : string) (date : option string)
    (kept : list json) :
  paths_ok meal_file suggestion_file = true ->
  clean_old_meals now (or_empty (loaded fs meal_file)) 30 = Ok (JArr kept) ->
  files_after (run (add_meal now meal meal_file suggestion_file date) fs) !! meal_file
    = Some (FJson (JArr (kept ++ [meal_entry now date meal])))
  /\ files_after (run (add_meal now meal meal_file suggestion_file date) fs)
       !! backup_path meal_file
     = match fs !! meal_file with
       | Some f => Some f
       | None => fs !! backup_path meal_file
       end.
Proof.
  intros P C. destruct (paths_ok_spec _ _ P) as (D & _ & N1 & N2 & N3 & N4).
  unfold run, files_after, add_meal.
  destruct (load_file_loaded (World fs []) meal_file) as [out L]. cbn [files] in L.
  rewrite (bind_ok _ _ _ _ _ L). fold (or_empty (loaded fs meal_file)).
  rewrite bind_lift, C. fold (meal_entry now date meal).
  rewrite bind_lift. cbn [Py.append].
  rewrite (bind_ok _ _ _ _ _ (save_file_run _ _ _ D)). cbn [files stdout].
  change (bind (print (MealAdded meal)) _)
    with (print (MealAdded meal) ;;; add_meal_mirror meal suggestion_file).
  assert (F : modifies_only [suggestion_file; backup_path suggestion_file]
                (print (MealAdded meal) ;;; add_meal_mirror meal suggestion_file)).
  { apply mo_bind; [auto with frame | intros _; apply add_meal_mirror_frame]. }
  rewrite !F by (apply not_in_two; congruence). cbn [files]. unfold saved.
  split; [apply lookup_insert_eq |].
  rewrite lookup_insert_ne by (intros E; now apply (PathFacts.backup_path_neq meal_file)).
  destruct (fs !! meal_file) as [f |]; [apply lookup_insert_eq | reflexivity].
Qed.

Lemma load_file_list (fs : gmap string file) (o : list msg) (path : string)
    (l : list json) :
  loaded fs path = JArr l -> load_file path (World fs o) = (Ok (JArr l), World fs o).
Proof.
  unfold loaded. destruct (fs !! path) as [[v | raw] |] eqn:E.
  - intros ->. now apply load_file_json.
  - discriminate.
  - intros <-. now apply load_file_missing.
Qed.

(** C1, as stated, fails: on a ledger file that is not JSON, [add_meal]
    does not abort; it returns normally and the ledger file then holds the
    single new entry instead of its prior content. *)
Lemma add_meal_overwrites_corrupted_ledger :
  Sample.corrupted_fs !! Sample.data_file = Some (FCorrupt "{oops")
  /\ outcome (run (add_meal Sample.noon "eggs" Sample.data_file
                     Sample.suggestion_file None) Sample.corrupted_fs) = Ok tt
  /\ files_after (run (add_meal Sample.noon "eggs" Sample.data_file
                         Sample.suggestion_file None) Sample.corrupted_fs)
       !! Sample.data_file
     = Some (FJson (JArr [Sample.meal "[2024-03-15]" "eggs"]))
  /\ files_after (run (add_meal Sample.noon "eggs" Sample.data_file
                         Sample.suggestion_file None) Sample.corrupted_fs)
       !! Sample.data_file
     <> Sample.corrupted_fs !! Sample.data_file.
Proof. repeat split; vm_compute; (reflexivity || discriminate). Qed.

(** C1, amended: on a ledger file that is not JSON, [load_file] reports the
    corruption and returns [None], which is not the empty list; [list_meals],
    [suggest_meal] and [delete_meal] then leave every file as it was;
    [add_meal] goes on with an empty ledger: the corrupted file is copied to
    the backup and the ledger file is overwritten with the new entry alone. *)
Theorem corrupted_ledger_handling (fs : gmap string file) (now : datetime) (rnd : nat)
    (meal meal_file suggestion_file raw : string) (date : option string) (index : Z) :
  paths_ok meal_file suggestion_file = true ->
  fs !! meal_file = Some (FCorrupt raw) ->
  run (load_file meal_file) fs = (Ok JNull, World fs [CorruptedAbortLoading])
  /\ JNull <> JArr []
  /\ files_after (run (list_meals meal_file) fs) = fs
  /\ files_after (run (suggest_meal now rnd meal_file suggestion_file) fs) = fs
  /\ files_after (run (delete_meal index meal_file) fs) = fs
  /\ files_after (run (add_meal now meal meal_file suggestion_file date) fs) !! meal_file
     = Some (FJson (JArr [meal_entry now date meal]))
  /\ files_after (run (add_meal now meal meal_file suggestion_file date) fs)
       !! backup_path meal_file
     = Some (FCorrupt raw).
Proof.
  intros P C.
  split; [exact (load_file_corrupt (World fs []) meal_file raw C) |].
  split; [discriminate |].
  split; [apply modifies_nothing, list_meals_frame |].
  split; [apply modifies_nothing, suggest_meal_frame |].
  split.
  { unfold run, files_after, delete_meal.
    rewrite (bind_ok _ _ _ _ _ (load_file_corrupt (World fs []) meal_file raw C)).
    rewrite bind_lift. now destruct (0 <? index). }
  assert (K : clean_old_meals now (or_empty (loaded fs meal_file)) 30 = Ok (JArr [])).
  { unfold loaded. now rewrite C. }
  destruct (add_meal_ledger_written fs now meal meal_file suggestion_file date [] P K)
    as [W Bk].
  split; [exact W |]. now rewrite Bk, C.
Qed.

(** The amended C1 at the sample ledger. *)
Lemma corrupted_ledger_handling_witness :
  paths_ok Sample.data_file Sample.suggestion_file = true
  /\ Sample.corrupted_fs !! Sample.data_file = Some (FCorrupt "{oops")
  /\ files_after (run (add_meal Sample.noon "eggs" Sample.data_file
                         Sample.suggestion_file None) Sample.corrupted_fs)
       !! backup_path Sample.data_file
     = Some (FCorrupt "{oops").
Proof.
  split; [reflexivity |]. split; [reflexivity |].
  exact (proj2 (proj2 (proj2 (proj2 (proj2 (proj2
    (corrupted_ledger_handling Sample.corrupted_fs Sample.noon 0 "eggs"
       Sample.data_file Sample.suggestion_file "{oops" None 1 eq_refl eq_refl))))))).
Defined.

Lemma get_or_dict (fields : list (string * json)) (new old sentinel : string) :
  exists v, get_or (JObj fields) new old sentinel = Ok v
            /\ shows fields new old sentinel v.
Proof.
  unfold get_or, Py.get, Py.get_default. cbn [rbind].
  destruct (Py.assoc new fields) as [a |] eqn:A.
  - destruct (Py.truthy a) eqn:Ta.
    + exists a. split; [reflexivity |]. apply shows_new. unfold truthy_field.
      now rewrite A, Ta.
    + assert (N : truthy_field fields new = None)
        by (unfold truthy_field; now rewrite A, Ta).
      destruct (Py.assoc old fields) as [b |] eqn:Bo; unfold Py.or_else.
      * destruct (Py.truthy b) eqn:Tb.
        -- exists b. split; [reflexivity |]. apply shows_old; [exact N |].
           unfold truthy_field. now rewrite Bo, Tb.
        -- exists (JStr sentinel). split; [reflexivity |].
           apply shows_sentinel; [exact N |]. unfold truthy_field. now rewrite Bo, Tb.
      * exists (JStr sentinel). split; [reflexivity |].
        apply shows_sentinel; [exact N |]. unfold truthy_field. now rewrite Bo.
  - assert (N : truthy_field fields new = None)
      by (unfold truthy_field; now rewrite A).
    cbn [Py.truthy].
    destruct (Py.assoc old fields) as [b |] eqn:Bo; unfold Py.or_else.
    + destruct (Py.truthy b) eqn:Tb.
      * exists b. split; [reflexivity |]. apply shows_old; [exact N |].
        unfold truthy_field. now rewrite Bo, Tb.
      * exists (JStr sentinel). split; [reflexivity |].
        apply shows_sentinel; [exact N |]. unfold truthy_field. now rewrite Bo, Tb.
    + exists (JStr sentinel). split; [reflexivity |].
      apply shows_sentinel; [exact N |]. unfold truthy_field. now rewrite Bo.
Qed.

(** A record with a content that is not empty is shown with that content. *)
Lemma shows_content (r : json) (c : string) (v : json) :
  content_of r = Some c -> c <> "" ->
  shows (dict_fields r) "content" "meal" "unknown meal" v -> v = JStr c.
Proof.
  unfold content_of, Py.getitem. destruct r as [| | | | | | fields]; try discriminate.
  cbn [dict_fields]. destruct (Py.assoc "content" fields) as [x |] eqn:A; [| discriminate].
  destruct x; try discriminate. intros [= ->] N.
  assert (T : truthy_field fields "content" = Some (JStr c)).
  { unfold truthy_field. rewrite A. now destruct c. }
  intros [v' H | v' H _ | H _]; congruence.
Qed.

Lemma delete_meal_valid (fs : gmap string file) (index : Z) (data_file : string)
    (ledger : list json) (removed name : json) :
  PosixPath.dirname data_file <> "" ->
  loaded fs data_file = JArr ledger ->
  1 <= index <= Z.of_nat (length ledger) ->
  ledger !! Z.to_nat (index - 1) = Some removed ->
  get_or removed "content" "meal" "unknown meal" = Ok name ->
  run (delete_meal index data_file) fs =
    (Ok tt,
     World (saved (JArr (delete (Z.to_nat (index - 1)) ledger)) data_file fs)
       [DeletedMeal index name]).
Proof.
  intros D L R Lk G. unfold run, delete_meal.
  rewrite (bind_ok _ _ _ _ _ (load_file_list fs [] data_file ledger L)).
  rewrite bind_lift. cbn [Py.len rbind].
  destruct (Z.ltb_spec 0 index); [| lia].
  destruct (Z.leb_spec index (Z.of_nat (length ledger))); [| lia].
  rewrite bind_lift. cbn [Py.pop].
  destruct (Z.ltb_spec (index - 1) 0); [lia |].
  destruct (Z.leb_spec 0 (index - 1)); [| lia].
  destruct (Z.ltb_spec (index - 1) (Z.of_nat (length ledger))); [| lia].
  cbn [andb]. rewrite Lk.
  rewrite (bind_ok _ _ _ _ _ (save_file_run _ _ _ D)).
  now rewrite bind_lift, G.
Qed.

Lemma delete_meal_invalid (fs : gmap string file) (index : Z) (data_file : string)
    (ledger : list json) :
  loaded fs data_file = JArr ledger ->
  ~ (1 <= index <= Z.of_nat (length ledger)) ->
  run (delete_meal index data_file) fs = (Ok tt, World fs [InvalidMealNumber]).
Proof.
  intros L R. unfold run, delete_meal.
  rewrite (bind_ok _ _ _ _ _ (load_file_list fs [] data_file ledger L)).
  rewrite bind_lift. cbn [Py.len rbind].
  destruct (Z.ltb_spec 0 index); [| reflexivity].
  destruct (Z.leb_spec index (Z.of_nat (length ledger))); [lia | reflexivity].
Qed.

Lemma saved_lookup (data : json) (data_file : string) (fs : gmap string file) :
  saved data data_file fs !! data_file = Some (FJson data).
Proof. apply lookup_insert_eq. Qed.

(** C8: on a ledger that is a list of records, [delete_meal] with
    [1 <= index <= len] removes the record at that 1-based position, saves
    the others in their order and reports what the removed record shows as
    content (its content when it has one that is not empty); with any other
    index it reports an invalid number, returns normally and leaves every
    file as it was. *)
Theorem delete_meal_spec (fs : gmap string file) (index : Z) (data_file : string)
    (ledger : list json) :
  PosixPath.dirname data_file <> "" ->
  loaded fs data_file = JArr ledger ->
  Forall (fun r => is_dict r = true) ledger ->
  if (1 <=? index) && (index <=? Z.of_nat (length ledger)) then
    exists removed name,
      ledger !! Z.to_nat (index - 1) = Some removed
      /\ run (delete_meal index data_file) fs =
           (Ok tt,
            World (saved (JArr (take (Z.to_nat (index - 1)) ledger
                                ++ drop (Z.to_nat index) ledger)) data_file fs)
              [DeletedMeal index name])
      /\ saved (JArr (take (Z.to_nat (index - 1)) ledger
                      ++ drop (Z.to_nat index) ledger)) data_file fs !! data_file
         = Some (FJson (JArr (take (Z.to_nat (index - 1)) ledger
                              ++ drop (Z.to_nat index) ledger)))
      /\ shows (dict_fields removed) "content" "meal" "unknown meal" name
      /\ (forall c, content_of removed = Some c -> c <> "" -> name = JStr c)
  else
    run (delete_meal index data_file) fs = (Ok tt, World fs [InvalidMealNumber]).
Proof.
  intros D L W.
  destruct (Z.leb_spec 1 index) as [R1 | R1];
    [destruct (Z.leb_spec index (Z.of_nat (length ledger))) as [R2 | R2] |];
    cbn [andb]; try (apply (delete_meal_invalid fs index data_file ledger L); lia).
  destruct (ledger !! Z.to_nat (index - 1)) as [removed |] eqn:Lk.
  2: { apply lookup_ge_None in Lk. lia. }
  assert (Dr : is_dict removed = true).
  { rewrite Forall_forall in W. apply W. apply list_elem_of_lookup. eauto. }
  destruct removed as [| | | | | | fields]; try discriminate.
  destruct (get_or_dict fields "content" "meal" "unknown meal") as (name & G & Sh).
  exists (JObj fields), name.
  split; [reflexivity |].
  replace (Z.to_nat index) with (S (Z.to_nat (index - 1))) by lia.
  rewrite <- delete_take_drop.
  split; [apply (delete_meal_valid fs index data_file ledger (JObj fields) name);
          auto; lia |].
  split; [apply saved_lookup |].
  split; [exact Sh |].
  intros c Cc Ne. exact (shows_content (JObj fields) c name Cc Ne Sh).
Qed.

(** Deleting the second of the two sample meals leaves the first. *)
Lemma delete_meal_spec_witness :
  PosixPath.dirname Sample.data_file <> ""
  /\ run (delete_meal 2 Sample.data_file) Sample.ledger_fs =
       (Ok tt,
        World (saved (JArr [Sample.old_meal]) Sample.data_file Sample.ledger_fs)
          [DeletedMeal 2 (JStr "rice")]).
Proof.
  split; [discriminate |].
  destruct (delete_meal_spec Sample.ledger_fs 2 Sample.data_file
              [Sample.old_meal; Sample.new_meal])
    as (removed & name & Lk & R & _ & _ & C).
  - discriminate.
  - reflexivity.
  - repeat constructor.
  - injection Lk as <-. rewrite (C "rice" eq_refl) in R by discriminate. exact R.
Defined.

Lemma delete_all_run (fs : gmap string file) (data_file : string) :
  PosixPath.dirname data_file <> "" ->
  run (delete_all data_file) fs =
    (Ok tt, World (saved (JArr []) data_file fs) [DeletedAllMeals]).
Proof.
  intros D. unfold run, delete_all.
  now rewrite (bind_ok _ _ _ _ _ (save_file_run _ _ _ D)).
Qed.

Lemma parses_is_dict (r : json) : parses r = true -> is_dict r = true.
Proof. unfold parses, timestamp_of, Py.getitem. now destruct r. Qed.

(** C4, as stated, fails: [delete_meal] writes back the records that are
    left without pruning them, so a record older than 30 days stays in the
    ledger file. *)
Lemma delete_meal_persists_old_record :
  recent_enough Sample.noon 30 Sample.old_meal = false
  /\ files_after (run (delete_meal 2 Sample.data_file) Sample.ledger_fs)
       !! Sample.data_file
     = Some (FJson (JArr [Sample.old_meal])).
Proof. split; vm_compute; reflexivity. Qed.

(** The entry that [add_meal] appends is not pruned either: a meal added
    with a date of the year before is written to the ledger. *)
Example add_meal_persists_backdated_entry :
  recent_enough Sample.noon 30 (Sample.meal "[2023-01-01]" "eggs") = false
  /\ files_after (run (add_meal Sample.noon "eggs" Sample.data_file
                         Sample.suggestion_file (Some "[2023-01-01]")) ∅)
       !! Sample.data_file
     = Some (FJson (JArr [Sample.meal "[2023-01-01]" "eggs"])).
Proof. split; vm_compute; reflexivity. Qed.

(** C4, amended: on a ledger whose timestamps parse, [add_meal] writes back
    the loaded records that are stamped at or after [now - 30 days], in their
    order, followed by the new entry, so that no loaded record older than
    that is written; [delete_all] writes the empty list; [delete_meal] writes
    back the records that are left, without pruning. *)
Theorem write_paths_pruning (fs : gmap string file) (now : datetime)
    (meal meal_file suggestion_file : string) (date : option string)
    (ledger : list json) (index : Z) :
  Date.valid now = true ->
  paths_ok meal_file suggestion_file = true ->
  loaded fs meal_file = JArr ledger ->
  forallb parses ledger = true ->
  files_after (run (add_meal now meal meal_file suggestion_file date) fs) !! meal_file
    = Some (FJson (JArr (List.filter (recent_enough now 30) ledger
                         ++ [meal_entry now date meal])))
  /\ (forall r, r ∈ List.filter (recent_enough now 30) ledger <->
        r ∈ ledger /\ exists ts, timestamp_of r = Some ts
                               /\ instant now - 30 * us_per_day <= instant ts)
  /\ files_after (run (delete_all meal_file) fs) !! meal_file = Some (FJson (JArr []))
  /\ (1 <= index <= Z.of_nat (length ledger) ->
      files_after (run (delete_meal index meal_file) fs) !! meal_file
        = Some (FJson (JArr (delete (Z.to_nat (index - 1)) ledger)))).
Proof.
  intros V P L Ps. destruct (paths_ok_spec _ _ P) as (D & _).
  split.
  { apply (add_meal_ledger_written fs now meal meal_file suggestion_file date); [exact P |].
    rewrite L. unfold or_empty, clean_old_meals. cbn [is_None Py.iter rbind].
    now rewrite (clean_items_filter now 30 ledger V (forallb_parses ledger Ps)). }
  split; [apply elem_of_recent |].
  split; [rewrite (delete_all_run fs meal_file D); apply saved_lookup |].
  intros R.
  destruct (ledger !! Z.to_nat (index - 1)) as [removed |] eqn:Lk.
  2: { apply lookup_ge_None in Lk. lia. }
  assert (Dr : is_dict removed = true).
  { apply parses_is_dict. rewrite forallb_forall in Ps. apply Ps.
    apply list_elem_of_In, list_elem_of_lookup. eauto. }
  destruct removed as [| | | | | | fields]; try discriminate.
  destruct (get_or_dict fields "content" "meal" "unknown meal") as (name & G & _).
  rewrite (delete_meal_valid fs index meal_file ledger (JObj fields) name D L R Lk G).
  apply saved_lookup.
Qed.

(** Adding a meal to the sample ledger drops the meal of 1 January. *)
Lemma write_paths_pruning_witness :
  Date.valid Sample.noon = true
  /\ paths_ok Sample.data_file Sample.suggestion_file = true
  /\ files_after (run (add_meal Sample.noon "eggs" Sample.data_file
                         Sample.suggestion_file None) Sample.ledger_fs)
       !! Sample.data_file
     = Some (FJson (JArr [Sample.new_meal; Sample.meal "[2024-03-15]" "eggs"])).
Proof.
  split; [reflexivity |]. split; [reflexivity |].
  exact (proj1 (write_paths_pruning Sample.ledger_fs Sample.noon "eggs"
    Sample.data_file Sample.suggestion_file None
    [Sample.old_meal; Sample.new_meal] 1 eq_refl eq_refl eq_refl eq_refl)).
Defined.

(** * Listing *)

Lemma list_meals_loop (fs : gmap string file) (items : list json) :
  Forall (fun r => is_dict r = true) items ->
  forall (start : Z) (o : list msg),
  exists rows,
    for_each (enumerate items start)
      (fun '(i, item) =>
         timestamp <- lift (get_or item "timestamp" "date" "unknown date") ;;
         content <- lift (get_or item "content" "meal" "unknown meal") ;;
         print (MealRow i timestamp content)) (World fs o)
    = (Ok tt, World fs (o ++ rows))
    /\ length rows = length items
    /\ (forall (n : nat) (r : json), items !! n = Some r ->
          exists m, rows !! n = Some m /\ row_of (start + Z.of_nat n) r m).
Proof.
  induction 1 as [| item items Di _ IH]; intros start o.
  - exists []. cbn [enumerate for_each]. unfold ret. rewrite app_nil_r.
    repeat split. intros n r Lk. now rewrite lookup_nil in Lk.
  - destruct item as [| | | | | | fields]; try discriminate.
    destruct (get_or_dict fields "timestamp" "date" "unknown date") as (ts & Gt & St).
    destruct (get_or_dict fields "content" "meal" "unknown meal") as (c & Gc & Sc).
    destruct (IH (start + 1) (o ++ [MealRow start ts c])) as (rows & Run & Len & Rows).
    exists (MealRow start ts c :: rows).
    cbn [enumerate for_each]. unfold bind at 1.
    rewrite bind_lift, Gt, bind_lift, Gc. cbn [print files stdout].
    rewrite Run, <- app_assoc. cbn [app length].
    split; [reflexivity |]. split; [now rewrite Len |].
    intros [| n] r Lk; cbn [lookup list_lookup] in *.
    + injection Lk as <-. exists (MealRow start ts c). split; [reflexivity |].
      exists ts, c. rewrite Z.add_0_r. now repeat split.
    + destruct (Rows n r Lk) as (m & Lm & Rm). exists m. split; [exact Lm |].
      now replace (start + Z.of_nat (S n)) with (start + 1 + Z.of_nat n) by lia.
Qed.

(** C9, as stated, fails: a record whose [timestamp] key is there with an
    empty value is shown with the value of its legacy [date] key, and a
    record whose [content] key is there with an empty value is shown with
    the sentinel. *)
Lemma list_meals_skips_empty_new_key :
  Py.assoc "timestamp" (dict_fields Sample.mixed_record) = Some (JStr "")
  /\ Py.assoc "content" (dict_fields Sample.blank_record) = Some (JStr "")
  /\ printed (run (list_meals Sample.data_file) Sample.mixed_fs)
     = [MealRow 1 (JStr "[2024-01-01]") (JStr "soup");
        MealRow 2 (JStr "[2024-03-10]") (JStr "unknown meal")]
  /\ printed (run (list_meals Sample.data_file) Sample.mixed_fs)
     <> [MealRow 1 (JStr "") (JStr "soup"); MealRow 2 (JStr "[2024-03-10]") (JStr "")].
Proof. repeat split; vm_compute; (reflexivity || discriminate). Qed.

(** C9, amended: on a ledger that is a list of records, [list_meals] prints
    one row per record, in file order and numbered from 1, that shows the
    value of the new key ([timestamp], [content]) when it is there and
    truthy, else the value of the legacy key ([date], [meal]) when it is
    there and truthy, else the sentinel; on an empty ledger it prints that
    no meals were found. *)
Theorem list_meals_rows (fs : gmap string file) (data_file : string)
    (ledger : list json) :
  loaded fs data_file = JArr ledger ->
  Forall (fun r => is_dict r = true) ledger ->
  outcome (run (list_meals data_file) fs) = Ok tt
  /\ files_after (run (list_meals data_file) fs) = fs
  /\ match ledger with
     | [] => printed (run (list_meals data_file) fs) = [NoMealsFound]
     | _ :: _ =>
         length (printed (run (list_meals data_file) fs)) = length ledger
         /\ forall (n : nat) (r : json), ledger !! n = Some r ->
              exists m, printed (run (list_meals data_file) fs) !! n = Some m
                        /\ row_of (Z.of_nat n + 1) r m
     end.
Proof.
  intros L W. unfold run, outcome, files_after, printed, list_meals.
  rewrite (bind_ok _ _ _ _ _ (load_file_list fs [] data_file ledger L)).
  destruct ledger as [| r0 rest]; [now repeat split |].
  cbn [Py.truthy negb]. rewrite bind_lift. cbn [Py.iter].
  destruct (list_meals_loop fs (r0 :: rest) W 1 []) as (rows & -> & Len & Rows).
  cbn [fst snd files stdout app].
  repeat split; [exact Len |].
  intros n r Lk. destruct (Rows n r Lk) as (m & Lm & Rm).
  exists m. split; [exact Lm |]. now rewrite Z.add_comm.
Qed.

(** The rows of the sample ledger. *)
Lemma list_meals_rows_witness :
  loaded Sample.ledger_fs Sample.data_file = JArr [Sample.old_meal; Sample.new_meal]
  /\ files_after (run (list_meals Sample.data_file) Sample.ledger_fs) = Sample.ledger_fs.
Proof.
  split; [reflexivity |].
  refine (proj1 (proj2 (list_meals_rows Sample.ledger_fs Sample.data_file
    [Sample.old_meal; Sample.new_meal] eq_refl _))).
  repeat constructor.
Defined.

(** * Restoring *)

Lemma restore_no_ledger_backup (fs : gmap string file) (data_file suggestion_file : string) :
  fs !! backup_path data_file = None ->
  run (restore data_file suggestion_file) fs = (Ok tt, World fs [NoFileToRestoreFrom]).
Proof.
  intros N. unfold run, restore, try, bind, read_json. cbn [files]. now rewrite N.
Qed.

Lemma restore_corrupted_ledger_backup (fs : gmap string file)
    (data_file suggestion_file raw : string) :
  fs !! backup_path data_file = Some (FCorrupt raw) ->
  run (restore data_file suggestion_file) fs = (Ok tt, World fs [CorruptedAbortRestoring]).
Proof.
  intros N. unfold run, restore, try, bind, read_json. cbn [files]. now rewrite N.
Qed.

Lemma restore_no_suggestion_backup (fs : gmap string file)
    (data_file suggestion_file : string) (v : json) :
  data_file <> backup_path suggestion_file ->
  fs !! backup_path data_file = Some (FJson v) ->
  fs !! backup_path suggestion_file = None ->
  run (restore data_file suggestion_file) fs =
    (Ok tt, World (<[data_file := FJson v]> fs) [NoFileToRestoreFrom]).
Proof.
  intros Ne B N. unfold run, restore, try, bind, read_json, write_json.
  cbn [files stdout]. rewrite B. cbn [files stdout].
  rewrite lookup_insert_ne by exact Ne. now rewrite N.
Qed.

(** C2, as stated, fails: when the ledger has a backup and the suggestions
    have none, [restore] reports that there is no file to restore from, but
    it has overwritten the ledger file with its backup by then. *)
Lemma restore_overwrites_ledger_before_failing :
  Sample.half_backed_fs !! backup_path Sample.suggestion_file = None
  /\ printed (run (restore Sample.data_file Sample.suggestion_file) Sample.half_backed_fs)
     = [NoFileToRestoreFrom]
  /\ Sample.half_backed_fs !! Sample.data_file
     = Some (FJson (JArr [Sample.old_meal; Sample.new_meal]))
  /\ files_after (run (restore Sample.data_file Sample.suggestion_file)
                    Sample.half_backed_fs) !! Sample.data_file
     = Some (FJson (JArr [Sample.old_meal]))
  /\ files_after (run (restore Sample.data_file Sample.suggestion_file)
                    Sample.half_backed_fs) !! Sample.data_file
     <> Sample.half_backed_fs !! Sample.data_file.
Proof. repeat split; vm_compute; (reflexivity || discriminate). Qed.

(** C2, amended: in a state where at least one of the two backups is
    missing, [restore] changes no file and reports that there is no file to
    restore from when the ledger backup is missing; when the ledger backup is
    there and is JSON, it reports the same after it has overwritten the
    ledger file with the backup, and the suggestion file is as it was; when
    the ledger backup is there and is not JSON, it changes no file and
    reports the corruption. *)
Theorem restore_missing_backup (fs : gmap string file)
    (data_file suggestion_file : string) :
  paths_ok data_file suggestion_file = true ->
  fs !! backup_path data_file = None \/ fs !! backup_path suggestion_file = None ->
  match fs !! backup_path data_file with
  | None =>
      run (restore data_file suggestion_file) fs
        = (Ok tt, World fs [NoFileToRestoreFrom])
  | Some (FJson v) =>
      run (restore data_file suggestion_file) fs
        = (Ok tt, World (<[data_file := FJson v]> fs) [NoFileToRestoreFrom])
      /\ <[data_file := FJson v]> fs !! suggestion_file = fs !! suggestion_file
      /\ <[data_file := FJson v]> fs !! data_file = Some (FJson v)
  | Some (FCorrupt _) =>
      run (restore data_file suggestion_file) fs
        = (Ok tt, World fs [CorruptedAbortRestoring])
  end.
Proof.
  intros P M. destruct (paths_ok_spec _ _ P) as (_ & _ & N1 & N2 & _).
  destruct (fs !! backup_path data_file) as [[v | raw] |] eqn:B.
  - destruct M as [M | M]; [discriminate |].
    split; [now apply restore_no_suggestion_backup |].
    split; [now apply lookup_insert_ne | apply lookup_insert_eq].
  - now apply (restore_corrupted_ledger_backup fs data_file suggestion_file raw).
  - now apply restore_no_ledger_backup.
Qed.

(** With no backup at all, [restore] leaves the sample ledger as it is. *)
Lemma restore_missing_backup_witness :
  paths_ok Sample.data_file Sample.suggestion_file = true
  /\ Sample.ledger_fs !! backup_path Sample.data_file = None
  /\ run (restore Sample.data_file Sample.suggestion_file) Sample.ledger_fs
     = (Ok tt, World Sample.ledger_fs [NoFileToRestoreFrom]).
Proof.
  split; [reflexivity |]. split; [reflexivity |].
  exact (restore_missing_backup Sample.ledger_fs Sample.data_file
           Sample.suggestion_file eq_refl (or_introl eq_refl)).
Defined.

(** * Suggestions *)

Lemma any_matches_existsb (items : list json) (x : string) :
  Forall (fun r => is_Some (content_of r)) items ->
  any_matches items x = Ok (existsb (matches x) items).
Proof.
  induction 1 as [| r items [c C] _ IH]; [reflexivity |].
  cbn [any_matches existsb]. unfold matches at 1. rewrite C.
  unfold content_of in C.
  destruct (Py.getitem r "content") as [[| | | | s | |] |]; try discriminate.
  injection C as ->. cbn [rbind Py.lower].
  destruct (String.eqb (PyStr.lower c) (PyStr.lower x)); [reflexivity | exact IH].
Qed.

Lemma count_matches_none (x : string) (items : list json) :
  existsb (matches x) items = false -> count_matches x items = 0%nat.
Proof.
  unfold count_matches. induction items as [| r items IH]; [reflexivity |].
  cbn [existsb List.filter]. intros [-> E]%orb_false_elim. now apply IH.
Qed.

Lemma matches_lowered (x : string) (r : json) (items : list json) :
  matches x r = true -> r ∈ items -> PyStr.lower x ∈ lowered_contents items.
Proof.
  unfold matches, lowered_contents. intros M I.
  apply list_elem_of_omap. exists r. split; [exact I |].
  destruct (content_of r) as [c |]; [| discriminate].
  apply String.eqb_eq in M. cbn. now rewrite M.
Qed.

Lemma lowered_contents_cons (r : json) (items : list json) :
  lowered_contents (r :: items) =
    match content_of r with
    | Some c => PyStr.lower c :: lowered_contents items
    | None => lowered_contents items
    end.
Proof. unfold lowered_contents. cbn [omap list_omap]. now destruct (content_of r). Qed.

Lemma count_matches_unique (x : string) (items : list json) :
  unique_contents items -> existsb (matches x) items = true ->
  count_matches x items = 1%nat.
Proof.
  unfold unique_contents, count_matches.
  induction items as [| r items IH]; [discriminate |].
  rewrite lowered_contents_cons. cbn [existsb List.filter]. intros U E.
  destruct (matches x r) eqn:M.
  - cbn [length]. f_equal.
    apply (count_matches_none x items).
    destruct (existsb (matches x) items) eqn:E'; [| reflexivity].
    exfalso. apply existsb_exists in E' as (r' & I & M').
    unfold matches in M. destruct (content_of r) as [c |]; [| discriminate].
    apply String.eqb_eq in M. rewrite M in U.
    apply NoDup_cons in U as [U _]. apply U.
    apply (matches_lowered x r' items M'). now apply list_elem_of_In.
  - apply IH; [| exact E].
    destruct (content_of r); [now apply NoDup_cons in U | exact U].
Qed.

Lemma count_matches_snoc (x : string) (items : list json) :
  count_matches x (items ++ [suggestion_entry x]) = S (count_matches x items).
Proof.
  unfold count_matches. rewrite List.filter_app, length_app. cbn [List.filter].
  assert (M : matches x (suggestion_entry x) = true).
  { unfold matches. cbn. apply String.eqb_refl. }
  rewrite M. cbn [length]. lia.
Qed.

(** Appending a content that matches none keeps the contents distinct. *)
Lemma unique_contents_snoc (x : string) (items : list json) :
  unique_contents items -> existsb (matches x) items = false ->
  unique_contents (items ++ [suggestion_entry x]).
Proof.
  unfold unique_contents, lowered_contents. intros U E.
  rewrite omap_app. apply NoDup_app. split; [exact U |].
  split; [| apply NoDup_singleton].
  intros l I J. apply list_elem_of_singleton in J as ->.
  apply list_elem_of_omap in I as (r & I & C).
  assert (M : matches x r = true).
  { unfold matches. destruct (content_of r) as [c |]; [| discriminate].
    cbn in C. injection C as ->. apply String.eqb_refl. }
  assert (E' : existsb (matches x) items = true).
  { apply existsb_exists. exists r. split; [now apply list_elem_of_In | exact M]. }
  congruence.
Qed.

Lemma add_suggestion_exists (fs : gmap string file) (x suggestion_file : string)
    (items : list json) :
  loaded fs suggestion_file = JArr items ->
  Forall (fun r => is_Some (content_of r)) items ->
  existsb (matches x) items = true ->
  run (add_suggestion x suggestion_file) fs = (Ok tt, World fs [SuggestionExists x]).
Proof.
  intros L W E. unfold run, add_suggestion.
  rewrite (bind_ok _ _ _ _ _ (load_file_list fs [] suggestion_file items L)).
  cbn [is_None]. rewrite bind_lift. unfold any_suggestion_matches. cbn [Py.iter rbind].
  now rewrite (any_matches_existsb items x W), E.
Qed.

Lemma add_suggestion_new (fs : gmap string file) (x suggestion_file : string)
    (items : list json) :
  PosixPath.dirname suggestion_file <> "" ->
  loaded fs suggestion_file = JArr items ->
  Forall (fun r => is_Some (content_of r)) items ->
  existsb (matches x) items = false ->
  run (add_suggestion x suggestion_file) fs =
    (Ok tt,
     World (saved (JArr (items ++ [suggestion_entry x])) suggestion_file fs)
       [AddedSuggestion x]).
Proof.
  intros D L W E. unfold run, add_suggestion.
  rewrite (bind_ok _ _ _ _ _ (load_file_list fs [] suggestion_file items L)).
  cbn [is_None]. rewrite bind_lift. unfold any_suggestion_matches. cbn [Py.iter rbind].
  rewrite (any_matches_existsb items x W), E.
  rewrite bind_lift. cbn [Py.append].
  now rewrite (bind_ok _ _ _ _ _ (save_file_run _ _ _ D)).
Qed.

Lemma loaded_saved (data : list json) (path : string) (fs : gmap string file) :
  loaded (saved (JArr data) path fs) path = JArr data.
Proof. unfold loaded. now rewrite saved_lookup. Qed.

Lemma count_matches_some (x : string) (items : list json) :
  existsb (matches x) items = true -> (1 <= count_matches x items)%nat.
Proof.
  unfold count_matches. induction items as [| r items IH]; [discriminate |].
  cbn [existsb List.filter]. destruct (matches x r); cbn [length orb]; [lia | exact IH].
Qed.

(** C7: on a suggestion file that is missing or holds a list of suggestions,
    two calls of [add_suggestion x] leave as many suggestions whose content
    is [x], letter case apart, as there were, and one if there was none; so
    exactly one when the contents were distinct (letter case apart), as the
    data model has them, and they stay distinct.  The first call appends
    [{content: x}] and saves when there is no match, and a call that finds a
    match reports that the suggestion exists and writes nothing. *)
Theorem add_suggestion_twice (fs : gmap string file) (x suggestion_file : string)
    (items : list json) :
  PosixPath.dirname suggestion_file <> "" ->
  loaded fs suggestion_file = JArr items ->
  Forall (fun r => is_Some (content_of r)) items ->
  exists items',
    loaded (files_after (run (add_suggestion x suggestion_file)
              (files_after (run (add_suggestion x suggestion_file) fs))))
      suggestion_file = JArr items'
    /\ count_matches x items' = Nat.max 1 (count_matches x items)
    /\ (unique_contents items ->
        count_matches x items' = 1%nat /\ unique_contents items')
    /\ run (add_suggestion x suggestion_file) fs =
         (if existsb (matches x) items
          then (Ok tt, World fs [SuggestionExists x])
          else (Ok tt,
                World (saved (JArr (items ++ [suggestion_entry x])) suggestion_file fs)
                  [AddedSuggestion x]))
    /\ items' = (if existsb (matches x) items then items
                 else items ++ [suggestion_entry x])
    /\ run (add_suggestion x suggestion_file)
         (files_after (run (add_suggestion x suggestion_file) fs)) =
         (Ok tt,
          World (files_after (run (add_suggestion x suggestion_file) fs))
            [SuggestionExists x]).
Proof.
  intros D L W. destruct (existsb (matches x) items) eqn:E.
  - exists items.
    rewrite (add_suggestion_exists fs x suggestion_file items L W E).
    unfold files_after at 2. cbn [snd files].
    rewrite (add_suggestion_exists fs x suggestion_file items L W E).
    unfold files_after. cbn [snd files].
    split; [exact L |].
    split; [pose proof (count_matches_some x items E); lia |].
    split; [intros U; split; [now apply count_matches_unique | exact U] |].
    split; [reflexivity |]. split; [reflexivity |].
    now apply (add_suggestion_exists fs x suggestion_file items).
  - exists (items ++ [suggestion_entry x]).
    rewrite (add_suggestion_new fs x suggestion_file items D L W E).
    unfold files_after at 2. cbn [snd files].
    assert (W' : Forall (fun r => is_Some (content_of r)) (items ++ [suggestion_entry x])).
    { apply Forall_app. split; [exact W |]. repeat constructor. now eexists. }
    assert (E' : existsb (matches x) (items ++ [suggestion_entry x]) = true).
    { rewrite existsb_app. cbn [existsb]. unfold matches at 2. cbn.
      rewrite String.eqb_refl. now rewrite orb_true_r. }
    assert (C : count_matches x (items ++ [suggestion_entry x]) = 1%nat).
    { rewrite count_matches_snoc. f_equal. now apply count_matches_none. }
    rewrite (add_suggestion_exists _ x suggestion_file _ (loaded_saved _ _ _) W' E').
    unfold files_after. cbn [snd files].
    split; [apply loaded_saved |].
    split; [rewrite C, (count_matches_none x items E); reflexivity |].
    split; [intros U; split; [exact C | now apply unique_contents_snoc] |].
    split; [reflexivity |]. split; [reflexivity |].
    exact (add_suggestion_exists _ x suggestion_file _ (loaded_saved _ _ _) W' E').
Qed.

(** Adding [rice] twice to the suggestions [[Rice]] leaves them as they are. *)
Lemma add_suggestion_twice_witness :
  PosixPath.dirname Sample.suggestion_file <> ""
  /\ unique_contents [suggestion_entry "Rice"]
  /\ exists items',
      loaded (files_after (run (add_suggestion "rice" Sample.suggestion_file)
                (files_after (run (add_suggestion "rice" Sample.suggestion_file)
                   Sample.suggestion_fs))))
        Sample.suggestion_file = JArr items'
      /\ count_matches "rice" items' = 1%nat.
Proof.
  assert (U : unique_contents [suggestion_entry "Rice"]).
  { unfold unique_contents. cbn. apply NoDup_singleton. }
  split; [discriminate |]. split; [exact U |].
  destruct (add_suggestion_twice Sample.suggestion_fs "rice" Sample.suggestion_file
              [suggestion_entry "Rice"]) as (items' & L & _ & C & _).
  - discriminate.
  - reflexivity.
  - repeat constructor. now eexists.
  - exists items'. split; [exact L | exact (proj1 (C U))].
Defined.

Lemma getitem_stamp (m : json) (ts : datetime) :
  timestamp_of m = Some ts ->
  exists s, Py.getitem m "timestamp" = Ok (JStr s) /\ strptime (JStr s) = Ok ts.
Proof.
  unfold timestamp_of.
  destruct (Py.getitem m "timestamp") as [[| | | | s | |] |]; try discriminate.
  intros T. exists s. split; [reflexivity |]. cbn [strptime]. now rewrite T.
Qed.

Lemma getitem_content (m : json) (c : string) :
  content_of m = Some c -> Py.getitem m "content" = Ok (JStr c).
Proof.
  unfold content_of.
  destruct (Py.getitem m "content") as [[| | | | s | |] |]; try discriminate.
  now intros [= ->].
Qed.

(** The set that the loop of [suggest_meal] builds. *)
Lemma recent_loop_spec (now : datetime) (ledger : list json) :
  Date.valid now = true ->
  Forall well_formed_meal ledger ->
  forall acc : gset string,
  exists names,
    recent_loop (Date.minus_days now 14) ledger acc = Ok names
    /\ forall l, l ∈ names <->
         l ∈ acc \/ exists m, m ∈ ledger /\ recent_enough now 14 m = true
                              /\ PyStr.lower <$> content_of m = Some l.
Proof.
  intros V. induction 1 as [| m ledger [[ts T] [c C]] _ IH]; intros acc.
  - exists acc. split; [reflexivity |]. intros l. split; [now left |].
    intros [? | (m & I & _)]; [assumption |]. now apply elem_of_nil in I.
  - destruct (getitem_stamp m ts T) as (s & Gs & Ps).
    cbn [recent_loop]. rewrite Gs. cbn [rbind]. rewrite Ps. cbn [rbind].
    assert (R : Date.ge ts (Date.minus_days now 14) = recent_enough now 14 m).
    { rewrite (recent_enough_stamp now 14 m ts T).
      apply ge_instant; [| now apply valid_tod].
      unfold timestamp_of in T. rewrite Gs in T.
      now apply valid_tod, (strptime_valid s). }
    rewrite R. destruct (recent_enough now 14 m) eqn:Rm.
    + rewrite (getitem_content m c C). cbn [rbind Py.lower].
      destruct (IH ({[PyStr.lower c]} ∪ acc)) as (names & -> & Hn).
      exists names. split; [reflexivity |]. intros l. rewrite Hn.
      rewrite elem_of_union, elem_of_singleton. split.
      * intros [[-> | A] | (m' & I & R' & C')].
        -- right. exists m. split; [left |]. split; [exact Rm |]. now rewrite C.
        -- now left.
        -- right. exists m'. split; [now right | now split].
      * intros [A | (m' & I & R' & C')]; [now left; right |].
        apply elem_of_cons in I as [-> | I].
        -- left; left. rewrite C in C'. now injection C'.
        -- right. exists m'. now repeat split.
    + destruct (IH acc) as (names & -> & Hn).
      exists names. split; [reflexivity |]. intros l. rewrite Hn. split.
      * intros [A | (m' & I & R' & C')]; [now left |].
        right. exists m'. split; [now right | now split].
      * intros [A | (m' & I & R' & C')]; [now left |].
        apply elem_of_cons in I as [-> | I]; [congruence |].
        right. exists m'. now repeat split.
Qed.

Lemma eaten_recently_spec (now : datetime) (ledger : list json) (c : string) :
  eaten_recently now ledger c = true <->
  exists m, m ∈ ledger /\ recent_enough now 14 m = true
            /\ PyStr.lower <$> content_of m = Some (PyStr.lower c).
Proof.
  unfold eaten_recently. rewrite existsb_exists. split.
  - intros (m & I & [R M]%andb_prop). exists m.
    split; [now apply list_elem_of_In |]. split; [exact R |].
    unfold matches in M. destruct (content_of m) as [c' |]; [| discriminate].
    apply String.eqb_eq in M. cbn. now rewrite M.
  - intros (m & I & R & C). exists m. split; [now apply list_elem_of_In |].
    rewrite R. unfold matches. destruct (content_of m) as [c' |]; [| discriminate].
    cbn in C. injection C as ->. apply String.eqb_refl.
Qed.

(** The comprehension of [suggest_meal] gives the eligible contents. *)
Lemma eligible_of_spec (now : datetime) (ledger suggestions : list json)
    (names : gset string) :
  (forall c, PyStr.lower c ∈ names <-> eaten_recently now ledger c = true) ->
  Forall (fun r => is_Some (content_of r)) suggestions ->
  eligible_of names suggestions = Ok (JStr <$> eligible now ledger suggestions).
Proof.
  intros Hn. unfold eligible. induction 1 as [| r suggestions [c C] _ IH]; [reflexivity |].
  cbn [eligible_of]. rewrite (getitem_content r c C). cbn [rbind Py.lower].
  rewrite IH. cbn [rbind omap list_omap]. rewrite C. cbn [List.filter].
  destruct (eaten_recently now ledger c) eqn:E.
  - rewrite bool_decide_eq_true_2 by now apply Hn. reflexivity.
  - rewrite bool_decide_eq_false_2; [reflexivity |]. rewrite Hn, E. discriminate.
Qed.

Lemma choice_elem {X : Type} (rnd : nat) (l : list X) :
  l <> [] -> exists x, choice rnd l = Ok x /\ x ∈ l.
Proof.
  intros N. unfold choice.
  destruct (l !! (rnd mod length l)%nat) as [x |] eqn:Lk.
  - exists x. split; [reflexivity |]. apply list_elem_of_lookup. eauto.
  - apply lookup_ge_None in Lk.
    assert (length l <> 0%nat) by (destruct l; [easy | discriminate]).
    pose proof (Nat.mod_upper_bound rnd (length l)). lia.
Qed.

Lemma suggest_meal_run (fs : gmap string file) (now : datetime) (rnd : nat)
    (meal_file suggestion_file : string) (ledger suggestions : list json) :
  Date.valid now = true ->
  loaded fs meal_file = JArr ledger ->
  loaded fs suggestion_file = JArr suggestions ->
  Forall well_formed_meal ledger ->
  Forall (fun r => is_Some (content_of r)) suggestions ->
  suggestions <> [] ->
  run (suggest_meal now rnd meal_file suggestion_file) fs =
    match eligible now ledger suggestions with
    | [] => (Ok tt, World fs [NothingEligible])
    | c :: rest =>
        match choice rnd (JStr <$> c :: rest) with
        | Ok pick => (Ok tt, World fs [SuggestedMeal pick])
        | Raise e => (Raise e, World fs [])
        end
    end.
Proof.
  intros V Lm Ls Wm Ws Ne. unfold run, suggest_meal.
  rewrite (bind_ok _ _ _ _ _ (load_file_list fs [] meal_file ledger Lm)).
  rewrite (bind_ok _ _ _ _ _ (load_file_list fs [] suggestion_file suggestions Ls)).
  destruct suggestions as [| s0 srest]; [easy |].
  change (is_None (JArr (s0 :: srest)) || negb (Py.truthy (JArr (s0 :: srest))))
    with false. cbv iota. rewrite bind_lift.
  destruct (recent_loop_spec now ledger V Wm ∅) as (names & Rl & Hn).
  assert (Rn : (if Py.truthy (JArr ledger)
                then items <-? Py.iter (JArr ledger) ;;
                     recent_loop (Date.minus_days now 14) items ∅
                else Ok ∅) = Ok names).
  { destruct ledger; [| exact Rl]. cbn in Rl. now injection Rl as <-. }
  rewrite Rn. rewrite bind_lift. cbn [Py.iter rbind].
  rewrite (eligible_of_spec now ledger (s0 :: srest) names); [| | exact Ws].
  - destruct (eligible now ledger (s0 :: srest)) as [| c rest]; [reflexivity |].
    cbn [fmap list_fmap]. rewrite bind_lift.
    now destruct (choice rnd (JStr c :: list_fmap string json JStr rest)).
  - intros c. rewrite Hn, eaten_recently_spec. split; [| now right].
    intros [E | H]; [now apply not_elem_of_empty in E | exact H].
Qed.

Lemma elem_of_eligible (now : datetime) (ledger suggestions : list json) (c : string) :
  c ∈ eligible now ledger suggestions <->
  (exists s, s ∈ suggestions /\ content_of s = Some c)
  /\ ~ (exists m, m ∈ ledger /\ recent_enough now 14 m = true
                  /\ PyStr.lower <$> content_of m = Some (PyStr.lower c)).
Proof.
  unfold eligible. rewrite list_elem_of_In, filter_In, <- list_elem_of_In.
  rewrite list_elem_of_omap, negb_true_iff, <- eaten_recently_spec.
  now destruct (eaten_recently now ledger c).
Qed.

(** C5: on a ledger of records with a timestamp that parses and a content,
    and a list of suggestions with a content, [suggest_meal] returns normally
    and writes nothing; it prints a suggestion only when one is eligible, and
    then one whose content is the content of a suggestion and is not, letter
    case apart, the content of a ledger record stamped at or after
    [now - 14 days]. *)
Theorem suggest_meal_spec (fs : gmap string file) (now : datetime) (rnd : nat)
    (meal_file suggestion_file : string) (ledger suggestions : list json) :
  Date.valid now = true ->
  loaded fs meal_file = JArr ledger ->
  loaded fs suggestion_file = JArr suggestions ->
  Forall well_formed_meal ledger ->
  Forall (fun r => is_Some (content_of r)) suggestions ->
  outcome (run (suggest_meal now rnd meal_file suggestion_file) fs) = Ok tt
  /\ files_after (run (suggest_meal now rnd meal_file suggestion_file) fs) = fs
  /\ match suggestions, eligible now ledger suggestions with
     | [], _ =>
         printed (run (suggest_meal now rnd meal_file suggestion_file) fs)
           = [NoSuggestionsAvailable]
     | _ :: _, [] =>
         printed (run (suggest_meal now rnd meal_file suggestion_file) fs)
           = [NothingEligible]
     | _ :: _, _ :: _ =>
         exists c,
           printed (run (suggest_meal now rnd meal_file suggestion_file) fs)
             = [SuggestedMeal (JStr c)]
           /\ c ∈ eligible now ledger suggestions
     end
  /\ (forall c, c ∈ eligible now ledger suggestions <->
        (exists s, s ∈ suggestions /\ content_of s = Some c)
        /\ ~ (exists m ts c',
                m ∈ ledger /\ timestamp_of m = Some ts
                /\ instant now - 14 * us_per_day <= instant ts
                /\ content_of m = Some c' /\ PyStr.lower c' = PyStr.lower c)).
Proof.
  intros V Lm Ls Wm Ws.
  assert (Last : forall c, c ∈ eligible now ledger suggestions <->
        (exists s, s ∈ suggestions /\ content_of s = Some c)
        /\ ~ (exists m ts c',
                m ∈ ledger /\ timestamp_of m = Some ts
                /\ instant now - 14 * us_per_day <= instant ts
                /\ content_of m = Some c' /\ PyStr.lower c' = PyStr.lower c)).
  { intros c. rewrite elem_of_eligible. apply and_iff_compat_l, not_iff_compat.
    split.
    - intros (m & I & R & C). unfold recent_enough in R.
      destruct (timestamp_of m) as [ts |] eqn:T; [| discriminate].
      destruct (content_of m) as [c' |] eqn:Cm; [| discriminate].
      exists m, ts, c'. split; [exact I |]. split; [exact T |].
      split; [now apply Z.leb_le |]. split; [exact Cm | now injection C].
    - intros (m & ts & c' & I & T & R & C & E). exists m. split; [exact I |].
      rewrite (recent_enough_stamp now 14 m ts T), C. cbn. rewrite E.
      split; [now apply Z.leb_le | reflexivity]. }
  destruct suggestions as [| s0 srest].
  { unfold run, outcome, files_after, printed, suggest_meal.
    rewrite (bind_ok _ _ _ _ _ (load_file_list fs [] meal_file ledger Lm)).
    rewrite (bind_ok _ _ _ _ _ (load_file_list fs [] suggestion_file [] Ls)).
    cbn. split; [reflexivity |]. split; [reflexivity |]. split; [reflexivity | exact Last]. }
  rewrite (suggest_meal_run fs now rnd meal_file suggestion_file ledger (s0 :: srest))
    by (auto; discriminate).
  destruct (eligible now ledger (s0 :: srest)) as [| c rest] eqn:El;
    [split; [reflexivity |]; split; [reflexivity |]; split; [reflexivity | exact Last] |].
  destruct (choice_elem rnd (JStr <$> c :: rest)) as (pick & -> & I); [discriminate |].
  apply list_elem_of_fmap in I as (c0 & -> & I).
  split; [reflexivity |]. split; [reflexivity |]. split; [| exact Last].
  exists c0. split; [reflexivity | exact I].
Qed.

(** The scenario of the specification, with the draw 0. *)
Lemma suggest_meal_spec_witness :
  Date.valid Sample.noon = true
  /\ exists c,
      printed (run (suggest_meal Sample.noon 0 Sample.data_file Sample.suggestion_file)
                 Sample.scenario_fs) = [SuggestedMeal (JStr c)]
      /\ c ∈ ["B"; "C"].
Proof.
  split; [reflexivity |].
  refine (proj1 (proj2 (proj2 (suggest_meal_spec Sample.scenario_fs Sample.noon 0
    Sample.data_file Sample.suggestion_file Sample.scenario_ledger
    Sample.scenario_suggestions eq_refl eq_refl eq_refl _ _)))).
  - repeat constructor; now eexists.
  - repeat constructor; now eexists.
Defined.

(** The scenario of the specification, whatever the draw: with [A] eaten
    today and [B] eaten 20 days ago, the suggestion is [B] or [C], never [A]. *)
Example suggest_meal_scenario (rnd : nat) :
  exists c,
    run (suggest_meal Sample.noon rnd Sample.data_file Sample.suggestion_file)
      Sample.scenario_fs = (Ok tt, World Sample.scenario_fs [SuggestedMeal (JStr c)])
    /\ (c = "B" \/ c = "C") /\ c <> "A".
Proof.
  rewrite (suggest_meal_run Sample.scenario_fs Sample.noon rnd Sample.data_file
             Sample.suggestion_file Sample.scenario_ledger Sample.scenario_suggestions);
    try reflexivity; try discriminate; try (repeat constructor; now eexists).
  change (eligible Sample.noon Sample.scenario_ledger Sample.scenario_suggestions)
    with ["B"; "C"].
  destruct (choice_elem rnd (JStr <$> ["B"; "C"])) as (pick & -> & I); [discriminate |].
  apply elem_of_cons in I as [-> | I]; [exists "B"; now auto |].
  apply elem_of_cons in I as [-> | I]; [exists "C"; now auto |].
  now apply elem_of_nil in I.
Qed.

(** * Further properties: paths *)

Lemma join_one (d seg : string) :
  PyStr.startswith_slash seg = false ->
  PosixPath.join d [seg] =
    (if PyStr.is_empty d || PyStr.endswith_slash d then d else d +:+ "/") +:+ seg.
Proof.
  intros S. unfold PosixPath.join, PosixPath.join_step. cbn [fold_left]. rewrite S.
  destruct (PyStr.is_empty d || PyStr.endswith_slash d); [reflexivity |].
  now rewrite PathFacts.append_assoc.
Qed.

Lemma join_plain (a seg : string) :
  PathFacts.ends_plain a = true -> PyStr.startswith_slash seg = false ->
  PosixPath.join a [seg] = a +:+ "/" +:+ seg.
Proof.
  intros P S. rewrite (join_one a seg S). unfold PathFacts.ends_plain in P.
  apply andb_prop in P as [P1 P2]. apply negb_true_iff in P1, P2.
  rewrite P1, P2. cbn [orb]. apply PathFacts.append_assoc.
Qed.

Lemma env_dir_plain_join (live : bool) (d : string) :
  PathFacts.ends_plain (PosixPath.join d [env_dir live]) = true.
Proof.
  destruct (Resolved.env_dir_plain live) as [P S].
  now destruct (PathFacts.join_two d (env_dir live) "" P S eq_refl).
Qed.

Lemma dirname_backup_path (p : string) :
  PosixPath.dirname (backup_path p) = PosixPath.join (PosixPath.dirname p) ["backup"].
Proof.
  unfold backup_path. apply PathFacts.dirname_join_two; try reflexivity.
  rewrite PathFacts.slash_free_append. now rewrite PathFacts.basename_slash_free.
Qed.

Lemma env_paths_nodup (live : bool) (cli_path : option string) :
  NoDup (env_paths live cli_path).
Proof.
  destruct (paths_ok_spec _ _ (Resolved.paths_ok_resolved live cli_path))
    as (D1 & D2 & N1 & N2 & N3 & N4).
  pose proof (PathFacts.backup_path_neq (get_data_file live cli_path)) as B1.
  pose proof (PathFacts.backup_path_neq (get_suggestion_file live cli_path)) as B2.
  unfold env_paths. repeat (apply NoDup_cons; split); try apply NoDup_nil;
    rewrite ?not_elem_of_cons; repeat split; try apply not_elem_of_nil; congruence.
Qed.

(** X1: whatever the flag and the base path, the data file, the suggestion
    file and their two backups are four different paths, and both files
    have a directory: no save of one file lands on another. *)
Theorem resolved_paths_distinct (live : bool) (cli_path : option string) :
  NoDup (env_paths live cli_path)
  /\ PosixPath.dirname (get_data_file live cli_path) <> ""
  /\ PosixPath.dirname (get_suggestion_file live cli_path) <> "".
Proof.
  destruct (paths_ok_spec _ _ (Resolved.paths_ok_resolved live cli_path))
    as (D1 & D2 & _).
  split; [apply env_paths_nodup | now split].
Qed.

Lemma env_dirs_differ (d : string) :
  PosixPath.join d ["live"] <> PosixPath.join d ["test"].
Proof.
  rewrite !join_one by reflexivity. intros E. now apply String.app_inj in E.
Qed.

Lemma env_dirs_length (d : string) :
  String.length (PosixPath.join d ["live"]) = String.length (PosixPath.join d ["test"]).
Proof. rewrite !join_one by reflexivity. now rewrite !PathFacts.length_append. Qed.

(** The directory of each path of an environment: the directory of the
    environment, or its backup directory. *)
Lemma env_paths_dirname (live : bool) (base p : string) :
  p ∈ env_paths live (Some base) ->
  PosixPath.dirname p = PosixPath.join (PosixPath.dirname base) [env_dir live]
  \/ PosixPath.dirname p =
       PosixPath.join (PosixPath.dirname base) [env_dir live] +:+ "/backup".
Proof.
  unfold env_paths. rewrite !elem_of_cons, elem_of_nil.
  intros [-> | [-> | [-> | [-> | []]]]];
    rewrite ?dirname_backup_path, ?Resolved.dirname_data_file,
      ?Resolved.dirname_suggestion_file;
    rewrite ?(join_plain _ "backup" (env_dir_plain_join live _) eq_refl); auto.
Qed.

Lemma env_paths_apart (cli_path : option string) (p q : string) :
  p ∈ env_paths true cli_path -> q ∈ env_paths false cli_path -> p <> q.
Proof.
  destruct cli_path as [base |].
  - intros Hp Hq E. subst q.
    apply env_paths_dirname in Hp, Hq. cbn [env_dir] in Hp, Hq.
    pose proof (env_dirs_differ (PosixPath.dirname base)) as N.
    pose proof (env_dirs_length (PosixPath.dirname base)) as Len.
    set (L := PosixPath.join (PosixPath.dirname base) ["live"]) in *.
    set (T := PosixPath.join (PosixPath.dirname base) ["test"]) in *.
    destruct Hp as [Hp | Hp], Hq as [Hq | Hq]; rewrite Hp in Hq.
    + contradiction.
    + apply (f_equal String.length) in Hq. rewrite PathFacts.length_append in Hq.
      simpl in Hq. lia.
    + apply (f_equal String.length) in Hq. rewrite PathFacts.length_append in Hq.
      simpl in Hq. lia.
    + apply (f_equal PosixPath.dirname) in Hq.
      rewrite !(PathFacts.dirname_sep _ "backup") in Hq;
        try reflexivity; try apply (env_dir_plain_join true);
        try apply (env_dir_plain_join false).
      contradiction.
  - unfold env_paths. rewrite !elem_of_cons, !elem_of_nil.
    intros [-> | [-> | [-> | [-> | []]]]] [-> | [-> | [-> | [-> | []]]]]; discriminate.
Qed.

(** X2: the four paths of the live environment and the four paths of the
    test environment are eight different paths, whatever the base path. *)
Theorem environments_disjoint (cli_path : option string) :
  NoDup (env_paths true cli_path ++ env_paths false cli_path).
Proof.
  apply NoDup_app. split; [apply env_paths_nodup |].
  split; [| apply env_paths_nodup].
  intros p Hp Hq. now apply (env_paths_apart cli_path p p).
Qed.

Lemma rfind_endswith_slash (d : string) :
  PyStr.endswith_slash d = true -> PyStr.rfind_slash d = PyStr.len d - 1.
Proof.
  unfold PyStr.len. induction d as [| c r IH]; [discriminate |].
  destruct r as [| c' r'].
  - cbn. now intros ->.
  - intros E. specialize (IH E). cbn [PyStr.rfind_slash] in *.
    cbn [PyStr.rfind_slash] in IH. rewrite IH.
    cbn [String.length] in *.
    destruct (Z.leb_spec 0 (Z.of_nat (S (String.length r')) - 1)); lia.
Qed.

Lemma basename_after_slash (d f : string) :
  PyStr.endswith_slash d = true -> PyStr.slash_free f = true ->
  PosixPath.basename (d +:+ f) = f.
Proof.
  intros E F. unfold PosixPath.basename, PyStr.from.
  rewrite PathFacts.rfind_slash_append.
  apply PathFacts.rfind_slash_free in F. rewrite F. cbn [Z.leb Z.compare].
  rewrite (rfind_endswith_slash d E). unfold PyStr.len.
  replace (Z.to_nat (Z.of_nat (String.length d) - 1 + 1)) with (String.length d) by lia.
  apply PathFacts.drop_append.
Qed.

(** X3: with no base path the data file is [./live/meals.json] or
    [./test/meals.json]; with a base path [p] it is
    [join(dirname(p), live|test, basename(p).json)], a file named after the
    base name in the directory [live] or [test] beside the base path. *)
Theorem get_data_file_spec (live : bool) (cli_path : option string) :
  match cli_path with
  | None => get_data_file live None = "./" +:+ env_dir live +:+ "/meals.json"
  | Some p =>
      get_data_file live (Some p) =
        PosixPath.join (PosixPath.dirname p) [env_dir live] +:+ "/"
          +:+ PosixPath.basename p +:+ ".json"
      /\ PosixPath.basename (get_data_file live (Some p)) =
           PosixPath.basename p +:+ ".json"
      /\ PosixPath.dirname (get_data_file live (Some p)) =
           PosixPath.join (PosixPath.dirname p) [env_dir live]
      /\ PosixPath.basename (PosixPath.dirname (get_data_file live (Some p)))
         = env_dir live
  end.
Proof.
  destruct cli_path as [p |]; [| now destruct live].
  destruct (Resolved.env_dir_plain live) as [P S].
  split.
  { rewrite Resolved.data_file_some.
    apply (PathFacts.join_two (PosixPath.dirname p) (env_dir live) _ P S).
    apply PathFacts.startswith_slash_free, Resolved.data_name_free. }
  split; [apply Resolved.basename_data_file |].
  split; [apply Resolved.dirname_data_file |].
  rewrite Resolved.dirname_data_file, (join_one _ _ S).
  destruct (PyStr.is_empty (PosixPath.dirname p) || PyStr.endswith_slash (PosixPath.dirname p))
    eqn:E.
  - apply orb_prop in E as [E | E].
    + destruct (PosixPath.dirname p); [| discriminate]. now destruct live.
    + apply basename_after_slash; [exact E | now destruct live].
  - rewrite PathFacts.append_assoc. apply PathFacts.basename_sep. now destruct live.
Qed.

(** X4: the backup of a file is named [backup_] and the name of the file,
    lies in the directory [backup] of the directory of the file, and is never
    the file itself; files with different names have different backups. *)
Theorem backup_path_spec (p q : string) :
  PosixPath.basename (backup_path p) = "backup_" +:+ PosixPath.basename p
  /\ PosixPath.dirname (backup_path p) = PosixPath.join (PosixPath.dirname p) ["backup"]
  /\ backup_path p <> p
  /\ (PosixPath.basename p <> PosixPath.basename q -> backup_path p <> backup_path q).
Proof.
  split; [apply PathFacts.basename_backup_path |].
  split; [apply dirname_backup_path |].
  split; [apply PathFacts.backup_path_neq |].
  intros N E. apply (f_equal PosixPath.basename) in E.
  rewrite !PathFacts.basename_backup_path in E. now apply String.app_inj in E.
Qed.

(** * Further properties: the store *)

Lemma saved_backup (data : json) (p : string) (fs : gmap string file) :
  saved data p fs !! backup_path p =
    match fs !! p with
    | Some f => Some f
    | None => fs !! backup_path p
    end.
Proof.
  unfold saved.
  rewrite lookup_insert_ne by (intros E; now apply (PathFacts.backup_path_neq p)).
  destruct (fs !! p); [apply lookup_insert_eq | reflexivity].
Qed.

Lemma saved_other (data : json) (p q : string) (fs : gmap string file) :
  q <> p -> q <> backup_path p -> saved data p fs !! q = fs !! q.
Proof.
  intros N1 N2. unfold saved. rewrite lookup_insert_ne by congruence.
  destruct (fs !! p); [now rewrite lookup_insert_ne by congruence | reflexivity].
Qed.

(** X5: a save followed by a load gives back the data that was saved and
    prints nothing; the backup then holds what the file held before the save
    (or what it held itself, if there was no file), and no other path has
    changed. *)
Theorem save_then_load (fs : gmap string file) (data : json) (p : string) :
  PosixPath.dirname p <> "" ->
  run (save_file data p ;;; load_file p) fs = (Ok data, World (saved data p fs) [])
  /\ saved data p fs !! backup_path p =
       match fs !! p with
       | Some f => Some f
       | None => fs !! backup_path p
       end
  /\ (forall q, q <> p -> q <> backup_path p -> saved data p fs !! q = fs !! q).
Proof.
  intros D. split; [| split; [apply saved_backup | intros q; apply saved_other]].
  unfold run. rewrite (bind_ok _ _ _ _ _ (save_file_run _ _ _ D)).
  apply load_file_json. apply saved_lookup.
Qed.

Lemma save_then_load_witness :
  PosixPath.dirname Sample.data_file <> ""
  /\ run (save_file (JArr []) Sample.data_file ;;; load_file Sample.data_file)
       Sample.corrupted_fs
     = (Ok (JArr []), World (saved (JArr []) Sample.data_file Sample.corrupted_fs) []).
Proof.
  split; [discriminate |].
  exact (proj1 (save_then_load Sample.corrupted_fs (JArr []) Sample.data_file
                  ltac:(discriminate))).
Defined.

(** X6: the backup has one generation: after two saves to the same path the
    file holds the second data and the backup holds the first, whatever was
    there before. *)
Theorem save_twice_keeps_previous (fs : gmap string file) (first second : json)
    (p : string) :
  PosixPath.dirname p <> "" ->
  exists fs',
    run (save_file first p ;;; save_file second p) fs = (Ok tt, World fs' [])
    /\ fs' !! p = Some (FJson second)
    /\ fs' !! backup_path p = Some (FJson first)
    /\ (forall q, q <> p -> q <> backup_path p -> fs' !! q = fs !! q).
Proof.
  intros D. exists (saved second p (saved first p fs)).
  split.
  { unfold run. rewrite (bind_ok _ _ _ _ _ (save_file_run _ _ _ D)).
    cbn [files stdout]. exact (save_file_run (World (saved first p fs) []) second p D). }
  split; [apply saved_lookup |].
  split; [now rewrite saved_backup, saved_lookup |].
  intros q N1 N2. now rewrite !saved_other.
Qed.

Lemma save_twice_keeps_previous_witness :
  PosixPath.dirname Sample.data_file <> ""
  /\ exists fs',
      run (save_file (JArr []) Sample.data_file ;;; save_file JNull Sample.data_file)
        Sample.ledger_fs = (Ok tt, World fs' [])
      /\ fs' !! backup_path Sample.data_file = Some (FJson (JArr [])).
Proof.
  split; [discriminate |].
  destruct (save_twice_keeps_previous Sample.ledger_fs (JArr []) JNull Sample.data_file)
    as (fs' & R & _ & B & _); [discriminate |].
  exists fs'. now split.
Defined.

(** * Further properties: the files that the writers may change *)

Lemma mo_weaken {A} (small large : list string) (m : M A) :
  (forall p, p ∈ small -> p ∈ large) ->
  modifies_only small m -> modifies_only large m.
Proof. intros S H w p N. apply H. intros I. apply N, S, I. Qed.

Lemma delete_meal_frame (index : Z) (data_file : string) :
  modifies_only [data_file; backup_path data_file] (delete_meal index data_file).
Proof.
  unfold delete_meal.
  apply mo_bind; [auto with frame |]. intros data.
  apply mo_bind; [auto with frame |]. intros [|]; [| auto with frame].
  apply mo_bind; [auto with frame |]. intros [removed rest].
  apply mo_bind; [apply mo_save_file; set_solver |]. intros _.
  apply mo_bind; auto with frame.
Qed.

Lemma delete_all_frame (data_file : string) :
  modifies_only [data_file; backup_path data_file] (delete_all data_file).
Proof.
  unfold delete_all. apply mo_bind; [apply mo_save_file; set_solver |].
  intros _. auto with frame.
Qed.

Lemma add_suggestion_frame (meal suggestion_file : string) :
  modifies_only [suggestion_file; backup_path suggestion_file]
    (add_suggestion meal suggestion_file).
Proof.
  unfold add_suggestion.
  apply mo_bind; [auto with frame |]. intros suggestions.
  apply mo_bind; [auto with frame |]. intros [|]; [auto with frame |].
  apply mo_bind; [auto with frame |]. intros data.
  apply mo_bind; [apply mo_save_file; set_solver |]. intros _. auto with frame.
Qed.

Lemma add_meal_frame (now : datetime) (meal data_file suggestion_file : string)
    (date : option string) :
  modifies_only
    [data_file; backup_path data_file; suggestion_file; backup_path suggestion_file]
    (add_meal now meal data_file suggestion_file date).
Proof.
  unfold add_meal.
  apply mo_bind; [auto with frame |]. intros meals.
  apply mo_bind; [auto with frame |]. intros kept.
  apply mo_bind; [auto with frame |]. intros data.
  apply mo_bind; [apply mo_save_file; set_solver |]. intros _.
  apply mo_bind; [auto with frame |]. intros _.
  apply (mo_weaken [suggestion_file; backup_path suggestion_file]);
    [intros p; rewrite !elem_of_cons; tauto |].
  apply add_meal_mirror_frame.
Qed.

Lemma restore_frame (data_file suggestion_file : string) :
  modifies_only [data_file; suggestion_file] (restore data_file suggestion_file).
Proof.
  unfold restore. apply mo_try.
  - apply mo_bind; [auto with frame |]. intros v.
    apply mo_bind; [apply mo_write_json; set_solver |]. intros _.
    apply mo_bind; [auto with frame |]. intros v'.
    apply mo_bind; [apply mo_write_json; set_solver |]. intros _. auto with frame.
  - intros []; auto with frame.
Qed.

(** X7: whatever the files hold and however the run ends, [delete_meal] and
    [delete_all] change no path but the ledger and its backup,
    [add_suggestion] none but the suggestion file and its backup, [add_meal]
    none but these four, and [restore] none but the two files: it never
    changes a backup. *)
Theorem writers_change_only_their_files (now : datetime) (index : Z)
    (meal data_file suggestion_file : string) (date : option string) :
  modifies_only [data_file; backup_path data_file] (delete_meal index data_file)
  /\ modifies_only [data_file; backup_path data_file] (delete_all data_file)
  /\ modifies_only [suggestion_file; backup_path suggestion_file]
       (add_suggestion meal suggestion_file)
  /\ modifies_only
       [data_file; backup_path data_file; suggestion_file; backup_path suggestion_file]
       (add_meal now meal data_file suggestion_file date)
  /\ modifies_only [data_file; suggestion_file] (restore data_file suggestion_file).
Proof.
  split; [apply delete_meal_frame |]. split; [apply delete_all_frame |].
  split; [apply add_suggestion_frame |]. split; [apply add_meal_frame |].
  apply restore_frame.
Qed.

(** * Further properties: dates *)

Lemma digit_small (n : nat) :
  (n < 10)%nat -> Date.digit (ascii_of_nat (n + 48)) = Some (Z.of_nat n).
Proof. intros H. do 10 (destruct n as [| n]; [reflexivity |]). lia. Qed.

Lemma digit_mod10 (k : Z) :
  Date.digit (ascii_of_nat (Z.to_nat (k mod 10) + 48)) = Some (k mod 10).
Proof.
  pose proof (Z.mod_pos_bound k 10 eq_refl) as B.
  rewrite digit_small by lia. f_equal. lia.
Qed.

Lemma parse_month_pad_nat (n : nat) (rest : string) :
  (1 <= n <= 12)%nat ->
  Date.parse_month (Date.pad 2 (Z.of_nat n) +:+ "-" +:+ rest) = Some (Z.of_nat n, rest).
Proof. intros H. do 13 (destruct n as [| n]; [try lia; try reflexivity |]). lia. Qed.

Lemma parse_day_pad_nat (n : nat) :
  (1 <= n <= 31)%nat ->
  Date.parse_day (Date.pad 2 (Z.of_nat n) +:+ "]") = Some (Z.of_nat n)
  /\ PlainDate.parse_day (Date.pad 2 (Z.of_nat n)) = Some (Z.of_nat n).
Proof.
  intros H. do 32 (destruct n as [| n]; [try lia; try (split; reflexivity) |]). lia.
Qed.

Lemma four_digits (y : Z) :
  0 <= y <= 9999 ->
  1000 * (y / 10 / 10 / 10 mod 10) + 100 * (y / 10 / 10 mod 10)
    + 10 * (y / 10 mod 10) + y mod 10 = y.
Proof. intros H. Z.div_mod_to_equations. lia. Qed.

Lemma parse_fields_strftime (y m dd t : Z) :
  0 <= y <= 9999 -> 1 <= m <= 12 -> 1 <= dd <= 31 ->
  Date.parse_fields (Date.strftime (DateTime y m dd t)) = Some (y, m, dd).
Proof.
  intros Hy Hm Hd.
  change (Date.strftime (DateTime y m dd t))
    with (String "[" (String (ascii_of_nat (Z.to_nat (y / 10 / 10 / 10 mod 10) + 48))
           (String (ascii_of_nat (Z.to_nat (y / 10 / 10 mod 10) + 48))
           (String (ascii_of_nat (Z.to_nat (y / 10 mod 10) + 48))
           (String (ascii_of_nat (Z.to_nat (y mod 10) + 48))
           (String "-" (Date.pad 2 m +:+ "-" +:+ Date.pad 2 dd +:+ "]")))))))%string.
  cbn [Date.parse_fields]. rewrite !digit_mod10.
  replace m with (Z.of_nat (Z.to_nat m)) by lia.
  rewrite parse_month_pad_nat by lia.
  replace dd with (Z.of_nat (Z.to_nat dd)) by lia.
  rewrite (proj1 (parse_day_pad_nat (Z.to_nat dd) ltac:(lia))).
  now rewrite (four_digits y Hy).
Qed.

Lemma valid_ranges (d : datetime) :
  Date.valid d = true ->
  1 <= year d <= 9999 /\ 1 <= month d <= 12 /\ 1 <= day d <= 31
  /\ Date.valid (midnight d) = true.
Proof.
  unfold Date.valid, midnight. cbn [year month day tod]. intros V.
  repeat (apply andb_prop in V as [V ?]).
  assert (Date.days_in_month (year d) (month d) <= 31).
  { unfold Date.days_in_month.
    destruct (month d =? 2); [destruct (Date.is_leap (year d)); lia |].
    destruct ((month d =? 4) || (month d =? 6) || (month d =? 9) || (month d =? 11)); lia. }
  repeat split; lia.
Qed.

(** The stamp of a date reads back as that date. *)
Lemma strptime_strftime (d : datetime) :
  Date.valid d = true -> Date.strptime (Date.strftime d) = Some (midnight d).
Proof.
  intros V. destruct (valid_ranges d V) as (Hy & Hm & Hd & Vm).
  unfold Date.strptime. destruct d as [y m dd t]. cbn [year month day] in *.
  rewrite parse_fields_strftime by lia.
  unfold midnight in Vm. cbn [year month day] in Vm. now rewrite Vm.
Qed.

Lemma timestamp_of_entry (now : datetime) (meal : string) :
  Date.valid now = true ->
  timestamp_of (meal_entry now None meal) = Some (midnight now).
Proof.
  intros V. unfold timestamp_of, meal_entry, current_timestamp. cbn [Py.getitem Py.assoc].
  change (String.eqb "timestamp" "timestamp") with true. cbv iota.
  now apply strptime_strftime.
Qed.

(** X8: the record that [add_meal] stamps with the current time (in a year
    of four digits, which [strftime] writes in full on every platform) reads
    back, with the parser of [clean_old_meals], as the date of today at
    midnight;
    so a pruning at the same instant with a window of at least one day keeps
    it, and so does a pruning at a later instant [later] as long as
    [later - days] is not after that midnight. *)
Theorem stamped_entry_reads_back (now later : datetime) (meal : string) (days : Z) :
  Date.valid now = true ->
  1000 <= year now ->
  timestamp_of (meal_entry now None meal) = Some (midnight now)
  /\ (1 <= days -> recent_enough now days (meal_entry now None meal) = true)
  /\ (Date.valid later = true ->
      instant later - days * us_per_day <= instant (midnight now) ->
      clean_old_meals later (JArr [meal_entry now None meal]) days
        = Ok (JArr [meal_entry now None meal])).
Proof.
  intros V _. pose proof (timestamp_of_entry now meal V) as T.
  split; [exact T |]. split.
  - intros D. rewrite (recent_enough_stamp now days _ _ T). apply Z.leb_le.
    pose proof (valid_tod now V). unfold instant, midnight, Date.toordinal, us_per_day in *.
    cbn [year month day tod]. nia.
  - intros V' L. unfold clean_old_meals. cbn [Py.iter rbind].
    rewrite (clean_items_filter later days _ V') by (repeat constructor; eauto).
    cbn [List.filter rbind]. rewrite (recent_enough_stamp later days _ _ T).
    now apply Z.leb_le in L as ->.
Qed.

Lemma stamped_entry_reads_back_witness :
  Date.valid Sample.noon = true
  /\ timestamp_of (meal_entry Sample.noon None "eggs") = Some (midnight Sample.noon).
Proof.
  split; [reflexivity |].
  exact (proj1 (stamped_entry_reads_back Sample.noon Sample.noon "eggs" 30 eq_refl
                  ltac:(cbn; lia))).
Defined.

Lemma plain_strptime_valid (s : string) (d : datetime) :
  PlainDate.strptime s = Some d -> Date.valid d = true /\ tod d = 0.
Proof.
  unfold PlainDate.strptime.
  destruct (PlainDate.parse_fields s) as [[[y m] dd] |]; [| easy].
  simpl. destruct (Date.valid (DateTime y m dd 0)) eqn:V; [| easy].
  now intros [= <-].
Qed.

(** X9: [valid_date] returns no date when none is given; a date that parses
    as [%Y-%m-%d] is returned as a stamp of 12 characters that the parser of
    [clean_old_meals] reads back as the same date; any other text makes it
    report the text and leave with status 1. *)
Theorem valid_date_spec (date : option string) :
  match date, valid_date date with
  | None, r => r = NoDate
  | Some s, Stamp t =>
      exists d, PlainDate.strptime s = Some d
                /\ t = Date.strftime d
                /\ (1000 <= year d ->
                    String.length t = 12%nat /\ Date.strptime t = Some d)
  | Some s, NotAValidDate s' => s' = s /\ PlainDate.strptime s = None
  | Some s, NoDate => False
  end.
Proof.
  destruct date as [s |]; [| reflexivity].
  unfold valid_date. destruct (PlainDate.strptime s) as [d |] eqn:P; [| now split].
  exists d. destruct (plain_strptime_valid s d P) as [V T0].
  split; [reflexivity |]. split; [reflexivity |]. intros _. split; [reflexivity |].
  rewrite (strptime_strftime d V). f_equal. unfold midnight. destruct d as [y m dd t].
  cbn in *. now subst t.
Qed.

(** * Further properties: the input *)

Lemma lstrip_no_leading (s : string) : starts_with_space (Input.lstrip s) = false.
Proof.
  induction s as [| c r IH]; [reflexivity |]. cbn [Input.lstrip].
  destruct (Input.is_space c) eqn:E; [exact IH | cbn; exact E].
Qed.

Lemma rstrip_no_trailing (s : string) : ends_with_space (Input.rstrip s) = false.
Proof.
  induction s as [| c r IH]; [reflexivity |]. cbn [Input.rstrip].
  destruct (Input.rstrip r) as [| c' r'] eqn:R.
  - destruct (Input.is_space c) eqn:E; [reflexivity | cbn; exact E].
  - exact IH.
Qed.

Lemma rstrip_leading (s : string) :
  starts_with_space s = false -> starts_with_space (Input.rstrip s) = false.
Proof.
  destruct s as [| c r]; [reflexivity |]. cbn [Input.rstrip starts_with_space].
  intros E. destruct (Input.rstrip r); cbn; now rewrite E.
Qed.

Lemma lstrip_id (s : string) : starts_with_space s = false -> Input.lstrip s = s.
Proof. destruct s as [| c r]; [reflexivity |]. cbn. now intros ->. Qed.

Lemma rstrip_idem (s : string) : Input.rstrip (Input.rstrip s) = Input.rstrip s.
Proof.
  induction s as [| c r IH]; [reflexivity |]. cbn [Input.rstrip].
  destruct (Input.rstrip r) as [| c' r'] eqn:R.
  - destruct (Input.is_space c) eqn:E; [reflexivity |]. cbn. now rewrite E.
  - cbn [Input.rstrip] in *. now rewrite IH.
Qed.

Lemma rstrip_empty (s : string) : Input.rstrip s = "" <-> all_space s = true.
Proof.
  induction s as [| c r IH]; [easy |]. cbn [Input.rstrip all_space].
  destruct (Input.rstrip r) as [| c' r'] eqn:R.
  - destruct (Input.is_space c); cbn; [| easy].
    split; [intros _; now apply IH | reflexivity].
  - split; [discriminate |]. intros [_ A]%andb_prop. apply IH in A. discriminate.
Qed.

Lemma lstrip_all_space (s : string) :
  all_space (Input.lstrip s) = all_space s.
Proof.
  induction s as [| c r IH]; [reflexivity |]. cbn [Input.lstrip all_space].
  destruct (Input.is_space c) eqn:E; [exact IH |]. cbn. now rewrite E.
Qed.

Lemma join_words_empty (words : list string) :
  Input.join_words words = "" <-> words = [] \/ words = [""].
Proof.
  destruct words as [| w [| w' rest]]; cbn [Input.join_words].
  - split; auto.
  - split; [intros ->; now right | intros [? | [= ->]]; easy].
  - split; [| intros [? | ?]; discriminate].
    intros E. apply (f_equal String.length) in E.
    rewrite !PathFacts.length_append in E. simpl in E. lia.
Qed.

(** X10: piped text wins over the words of the command line and comes back
    stripped: without whitespace at either end, unchanged by a second
    [strip], and empty exactly when the text is whitespace only; with a
    terminal, the words come back joined by spaces, and the result is missing
    or empty exactly when there is no word or one empty word. *)
Theorem get_meal_input_spec (stdin : option string) (words : list string) :
  match stdin with
  | Some text =>
      exists m,
        get_meal_input (Some text) words = Some m
        /\ starts_with_space m = false
        /\ ends_with_space m = false
        /\ Input.strip m = m
        /\ (has_content (Some m) = None <-> all_space text = true)
  | None =>
      (has_content (get_meal_input None words) = None
         <-> words = [] \/ words = [""])
      /\ (forall w rest, words = w :: rest ->
            get_meal_input None words = Some (Input.join_words words))
  end.
Proof.
  destruct stdin as [text |].
  - exists (Input.strip text). unfold Input.strip.
    pose proof (lstrip_no_leading text) as L.
    split; [reflexivity |].
    split; [now apply rstrip_leading |].
    split; [apply rstrip_no_trailing |].
    split.
    + rewrite (lstrip_id _ (rstrip_leading _ L)). apply rstrip_idem.
    + rewrite <- (lstrip_all_space text), <- rstrip_empty.
      destruct (Input.rstrip (Input.lstrip text)); cbn; split; congruence.
  - split; [| now intros w rest ->].
    rewrite <- join_words_empty. unfold get_meal_input.
    destruct words as [| w rest]; [easy |].
    destruct (Input.join_words (w :: rest)); cbn; split; congruence.
Qed.

(** * Further properties: the dispatch *)

Lemma modifies_nothing_world {A} (m : M A) (w : world) :
  modifies_only [] m -> files (snd (m w)) = files w.
Proof. intros H. apply map_eq. intros p. apply (H w p). apply not_elem_of_nil. Qed.

Lemma main_frame (a : args) (stdin : option string) (now : datetime) (rnd : nat)
    (w : world) (p : string) :
  p ∉ env_paths (arg_test a) (arg_file a) ->
  files (snd (main a stdin now rnd w)) !! p = files w !! p.
Proof.
  unfold env_paths. rewrite !not_elem_of_cons. intros (N1 & N2 & N3 & N4 & _).
  unfold main.
  destruct (arg_command a) as [words | words | | index | | | |].
  - destruct (valid_date (arg_date a)); [| | reflexivity];
      (destruct (has_content (get_meal_input stdin words)); [| reflexivity]);
      apply add_meal_frame; rewrite !not_elem_of_cons; repeat split;
      auto using not_elem_of_nil.
  - destruct (has_content (get_meal_input stdin words)); [| reflexivity].
    apply add_suggestion_frame; rewrite !not_elem_of_cons; repeat split;
      auto using not_elem_of_nil.
  - apply list_meals_frame, not_elem_of_nil.
  - apply delete_meal_frame; rewrite !not_elem_of_cons; repeat split;
      auto using not_elem_of_nil.
  - apply delete_all_frame; rewrite !not_elem_of_cons; repeat split;
      auto using not_elem_of_nil.
  - apply restore_frame; rewrite !not_elem_of_cons; repeat split;
      auto using not_elem_of_nil.
  - apply suggest_meal_frame, not_elem_of_nil.
  - apply list_suggestions_frame, not_elem_of_nil.
Qed.

(** X11: whatever the command, its arguments, the files and the way the run
    ends, [main] changes no path outside the four of its environment; in
    particular a run on the test environment leaves the four paths of the
    live environment as they are, and the other way round. *)
Theorem main_stays_in_its_environment (a : args) (stdin : option string)
    (now : datetime) (rnd : nat) (w : world) :
  (forall p, p ∉ env_paths (arg_test a) (arg_file a) ->
     files (snd (main a stdin now rnd w)) !! p = files w !! p)
  /\ (forall p, p ∈ env_paths (negb (arg_test a)) (arg_file a) ->
       files (snd (main a stdin now rnd w)) !! p = files w !! p).
Proof.
  split; [intros p; apply main_frame |].
  intros p I. apply main_frame. intros J.
  destruct (arg_test a); cbn [negb] in I.
  - now apply (env_paths_apart (arg_file a) p p).
  - now apply (env_paths_apart (arg_file a) p p).
Qed.

(** X12: the commands [list], [suggest] and [listsuggest] call their
    operation and leave every file as it was, whatever the files hold. *)
Theorem main_read_only_commands (a : args) (stdin : option string)
    (now : datetime) (rnd : nat) (w : world) :
  reads_only (arg_command a) = true ->
  files (snd (main a stdin now rnd w)) = files w
  /\ exists r, fst (main a stdin now rnd w) = Called r.
Proof.
  unfold main. destruct (arg_command a); try discriminate; intros _;
    (split; [| eexists; reflexivity]); cbn [called snd];
    apply modifies_nothing_world.
  - apply list_meals_frame.
  - apply suggest_meal_frame.
  - apply list_suggestions_frame.
Qed.

Lemma main_read_only_commands_witness :
  reads_only CmdList = true
  /\ files (snd (main (Args None None true CmdList) None Sample.noon 0
                   (World Sample.corrupted_fs [])))
     = Sample.corrupted_fs.
Proof.
  split; [reflexivity |].
  exact (proj1 (main_read_only_commands (Args None None true CmdList) None
                  Sample.noon 0 (World Sample.corrupted_fs []) eq_refl)).
Defined.

(** X13: when the piped text is whitespace only, [add] and [addsuggest] call
    no operation and leave the world as it was, whatever the words of the
    command line: [main] says that no meal content was provided, unless
    [add] was given a date that is not valid, which ends it with status 1. *)
Theorem main_refuses_blank_input (a : args) (text : string) (now : datetime)
    (rnd : nat) (w : world) :
  takes_meal (arg_command a) = true ->
  all_space text = true ->
  snd (main a (Some text) now rnd w) = w
  /\ (fst (main a (Some text) now rnd w) = NoMealContentProvided
      \/ exists s, arg_date a = Some s /\ PlainDate.strptime s = None
                   /\ fst (main a (Some text) now rnd w) = ExitedOnDate 1 s).
Proof.
  intros T S.
  assert (E : forall words, has_content (get_meal_input (Some text) words) = None).
  { intros words. cbn [get_meal_input]. unfold Input.strip.
    rewrite <- lstrip_all_space in S. apply rstrip_empty in S. now rewrite S. }
  unfold main. destruct (arg_command a) as [words | words | | | | | |];
    try discriminate; rewrite E.
  - unfold valid_date. destruct (arg_date a) as [s |]; [| now split; [| left]].
    destruct (PlainDate.strptime s) eqn:P; [now split; [| left] |].
    split; [reflexivity |]. right. now exists s.
  - split; [reflexivity | now left].
Qed.

Lemma main_refuses_blank_input_witness :
  takes_meal (CmdAdd ["eggs"]) = true
  /\ all_space "  " = true
  /\ snd (main (Args None None true (CmdAdd ["eggs"])) (Some "  ") Sample.noon 0
            (World Sample.ledger_fs []))
     = World Sample.ledger_fs [].
Proof.
  split; [reflexivity |]. split; [reflexivity |].
  exact (proj1 (main_refuses_blank_input (Args None None true (CmdAdd ["eggs"])) "  "
                  Sample.noon 0 (World Sample.ledger_fs []) eq_refl eq_refl)).
Defined.

(** * Further properties: the ledger *)

Lemma loaded_saved_other (data : json) (p q : string) (fs : gmap string file) :
  q <> p -> q <> backup_path p -> loaded (saved data p fs) q = loaded fs q.
Proof. intros N1 N2. unfold loaded. now rewrite saved_other. Qed.

Lemma add_meal_run (fs : gmap string file) (now : datetime)
    (meal data_file suggestion_file : string) (date : option string)
    (ledger suggestions : list json) :
  paths_ok data_file suggestion_file = true ->
  Date.valid now = true ->
  loaded fs data_file = JArr ledger ->
  forallb parses ledger = true ->
  loaded fs suggestion_file = JArr suggestions ->
  Forall (fun r => is_Some (content_of r)) suggestions ->
  run (add_meal now meal data_file suggestion_file date) fs =
    (Ok tt,
     World (after_add_meal now meal data_file suggestion_file date ledger suggestions fs)
       [MealAdded meal]).
Proof.
  intros P V Ll Pl Ls Ws. destruct (paths_ok_spec _ _ P) as (D1 & D2 & N1 & N2 & N3 & N4).
  unfold run, add_meal, after_add_meal.
  rewrite (bind_ok _ _ _ _ _ (load_file_list fs [] data_file ledger Ll)).
  cbn [is_None]. rewrite bind_lift. unfold clean_old_meals. cbn [Py.iter rbind].
  rewrite (clean_items_filter now 30 ledger V (forallb_parses ledger Pl)).
  cbn [rbind]. rewrite bind_lift. cbn [Py.append].
  fold (meal_entry now date meal).
  rewrite (bind_ok _ _ _ _ _ (save_file_run _ _ _ D1)). cbn [files stdout].
  set (fs1 := saved _ data_file fs).
  rewrite (bind_ok _ _ _ _ _ (eq_refl : print (MealAdded meal) (World fs1 [])
                                = (Ok tt, World fs1 [MealAdded meal]))).
  assert (Ls1 : loaded fs1 suggestion_file = JArr suggestions).
  { unfold fs1. rewrite loaded_saved_other by congruence. exact Ls. }
  rewrite (bind_ok _ _ _ _ _ (load_file_list fs1 _ suggestion_file suggestions Ls1)).
  cbn [is_None]. rewrite bind_lift. unfold any_suggestion_matches. cbn [Py.iter rbind].
  rewrite (any_matches_existsb suggestions meal Ws).
  destruct (existsb (matches meal) suggestions); cbn [negb]; [reflexivity |].
  rewrite bind_lift. cbn [Py.append].
  exact (save_file_run (World fs1 [MealAdded meal]) _ suggestion_file D2).
Qed.

Lemma loaded_after_add_meal (fs : gmap string file) (now : datetime)
    (meal data_file suggestion_file : string) (date : option string)
    (ledger suggestions : list json) :
  paths_ok data_file suggestion_file = true ->
  loaded fs suggestion_file = JArr suggestions ->
  loaded (after_add_meal now meal data_file suggestion_file date ledger suggestions fs)
    data_file
    = JArr (List.filter (recent_enough now 30) ledger ++ [meal_entry now date meal])
  /\ loaded (after_add_meal now meal data_file suggestion_file date ledger suggestions fs)
       suggestion_file
     = JArr (if existsb (matches meal) suggestions then suggestions
             else suggestions ++ [suggestion_entry meal]).
Proof.
  intros P Ls. destruct (paths_ok_spec _ _ P) as (D1 & D2 & N1 & N2 & N3 & N4).
  unfold after_add_meal. destruct (existsb (matches meal) suggestions).
  - split; [apply loaded_saved |]. now rewrite loaded_saved_other by congruence.
  - split; [| apply loaded_saved].
    rewrite loaded_saved_other by congruence. apply loaded_saved.
Qed.

Lemma existsb_matches_snoc (meal : string) (suggestions : list json) :
  existsb (matches meal) (suggestions ++ [suggestion_entry meal]) = true.
Proof.
  rewrite existsb_app. cbn [existsb]. unfold matches at 2. cbn.
  rewrite String.eqb_refl. now rewrite orb_true_r.
Qed.

(** X14: on a ledger whose timestamps parse and a list of suggestions,
    [add_meal] returns normally, prints that the meal was added, and leaves
    a suggestion list that holds a suggestion for the meal, letter case
    apart: the old list untouched (the suggestion file and its backup are
    not written) when it held one, else the old list with [{content: meal}]
    appended; contents that were distinct stay distinct. *)
Theorem add_meal_mirrors_suggestion (fs : gmap string file) (now : datetime)
    (meal data_file suggestion_file : string) (date : option string)
    (ledger suggestions : list json) :
  paths_ok data_file suggestion_file = true ->
  Date.valid now = true ->
  loaded fs data_file = JArr ledger ->
  forallb parses ledger = true ->
  loaded fs suggestion_file = JArr suggestions ->
  Forall (fun r => is_Some (content_of r)) suggestions ->
  exists fs' suggestions',
    run (add_meal now meal data_file suggestion_file date) fs
      = (Ok tt, World fs' [MealAdded meal])
    /\ loaded fs' suggestion_file = JArr suggestions'
    /\ suggestions' = (if existsb (matches meal) suggestions then suggestions
                       else suggestions ++ [suggestion_entry meal])
    /\ existsb (matches meal) suggestions' = true
    /\ (existsb (matches meal) suggestions = true ->
        fs' !! suggestion_file = fs !! suggestion_file
        /\ fs' !! backup_path suggestion_file = fs !! backup_path suggestion_file)
    /\ (unique_contents suggestions -> unique_contents suggestions').
Proof.
  intros P V Ll Pl Ls Ws. destruct (paths_ok_spec _ _ P) as (D1 & D2 & N1 & N2 & N3 & N4).
  exists (after_add_meal now meal data_file suggestion_file date ledger suggestions fs).
  exists (if existsb (matches meal) suggestions then suggestions
          else suggestions ++ [suggestion_entry meal]).
  split; [now apply add_meal_run |].
  split; [now apply loaded_after_add_meal |].
  split; [reflexivity |].
  unfold after_add_meal. destruct (existsb (matches meal) suggestions) eqn:E.
  - split; [exact E |]. split; [| auto]. intros _.
    now rewrite !saved_other by congruence.
  - split; [apply existsb_matches_snoc |]. split; [discriminate |].
    intros U. now apply unique_contents_snoc.
Qed.

Lemma add_meal_mirrors_suggestion_witness :
  paths_ok Sample.data_file Sample.suggestion_file = true
  /\ Date.valid Sample.noon = true
  /\ exists fs',
      run (add_meal Sample.noon "eggs" Sample.data_file Sample.suggestion_file None)
        Sample.ledger_fs = (Ok tt, World fs' [MealAdded "eggs"])
      /\ loaded fs' Sample.suggestion_file = JArr [suggestion_entry "eggs"].
Proof.
  split; [reflexivity |]. split; [reflexivity |].
  destruct (add_meal_mirrors_suggestion Sample.ledger_fs Sample.noon "eggs"
              Sample.data_file Sample.suggestion_file None
              [Sample.old_meal; Sample.new_meal] [])
    as (fs' & sg & R & L & -> & _); try reflexivity; [constructor |].
  exists fs'. now split.
Defined.

Lemma list_meals_run (fs : gmap string file) (data_file : string)
    (first : json) (rest : list json) :
  loaded fs data_file = JArr (first :: rest) ->
  Forall (fun r => is_dict r = true) (first :: rest) ->
  exists rows,
    run (list_meals data_file) fs = (Ok tt, World fs rows)
    /\ length rows = length (first :: rest)
    /\ (forall (n : nat) (r : json), (first :: rest) !! n = Some r ->
          exists m, rows !! n = Some m /\ row_of (1 + Z.of_nat n) r m).
Proof.
  intros L W. unfold run, list_meals.
  rewrite (bind_ok _ _ _ _ _ (load_file_list fs [] data_file _ L)).
  cbn [Py.truthy negb]. rewrite bind_lift. cbn [Py.iter].
  destruct (list_meals_loop fs (first :: rest) W 1 []) as (rows & -> & Len & Rows).
  exists rows. now repeat split.
Qed.

Lemma shows_string (fields : list (string * json)) (new old sentinel c : string)
    (v : json) :
  Py.assoc new fields = Some (JStr c) -> c <> "" ->
  shows fields new old sentinel v -> v = JStr c.
Proof.
  intros A N.
  assert (T : truthy_field fields new = Some (JStr c)).
  { unfold truthy_field. rewrite A. now destruct c. }
  intros [v' H | v' H _ | H _]; congruence.
Qed.

Lemma filter_parses_dict (now : datetime) (days : Z) (ledger : list json) :
  forallb parses ledger = true ->
  Forall (fun r => is_dict r = true) (List.filter (recent_enough now days) ledger).
Proof.
  intros P. apply Forall_forall. intros r I.
  apply list_elem_of_In, filter_In in I as [I _].
  rewrite forallb_forall in P. now apply parses_is_dict, P.
Qed.

(** X15: on a ledger whose timestamps parse and a list of suggestions, a
    listing that follows [add_meal] prints one row for each record that was
    kept and, last, the row of the new meal, numbered after them, with the
    stamp and the content that were given. *)
Theorem add_meal_then_list (fs : gmap string file) (now : datetime)
    (meal data_file suggestion_file : string) (date : option string)
    (ledger suggestions : list json) :
  paths_ok data_file suggestion_file = true ->
  Date.valid now = true ->
  loaded fs data_file = JArr ledger ->
  forallb parses ledger = true ->
  loaded fs suggestion_file = JArr suggestions ->
  Forall (fun r => is_Some (content_of r)) suggestions ->
  meal <> "" -> date <> Some "" ->
  exists rows,
    printed (run (list_meals data_file)
               (files_after (run (add_meal now meal data_file suggestion_file date) fs)))
      = rows
    /\ length rows = S (length (List.filter (recent_enough now 30) ledger))
    /\ last rows =
         Some (MealRow (1 + Z.of_nat (length (List.filter (recent_enough now 30) ledger)))
                 (JStr (match date with
                        | None => current_timestamp now
                        | Some d => d
                        end))
                 (JStr meal)).
Proof.
  intros P V Ll Pl Ls Ws Nm Nd.
  rewrite (add_meal_run fs now meal data_file suggestion_file date ledger suggestions)
    by assumption.
  unfold files_after. cbn [snd files].
  set (fs' := after_add_meal _ _ _ _ _ _ _ _).
  set (kept := List.filter (recent_enough now 30) ledger).
  assert (L : loaded fs' data_file = JArr (kept ++ [meal_entry now date meal])).
  { now apply loaded_after_add_meal. }
  assert (W : Forall (fun r => is_dict r = true) (kept ++ [meal_entry now date meal])).
  { apply Forall_app. split; [now apply filter_parses_dict | now repeat constructor]. }
  destruct (kept ++ [meal_entry now date meal]) as [| first rest] eqn:K.
  { now destruct kept. }
  destruct (list_meals_run fs' data_file first rest L W) as (rows & R & Len & Rows).
  exists rows. rewrite R. split; [reflexivity |].
  rewrite <- K in Len, Rows. rewrite length_app in Len. cbn [length] in Len.
  split; [lia |].
  destruct (Rows (length kept) (meal_entry now date meal)) as (m & Lm & ts & c & -> & St & Sc).
  { rewrite lookup_app_r by lia. now rewrite Nat.sub_diag. }
  rewrite last_lookup. replace (pred (length rows)) with (length kept) by lia.
  rewrite Lm. f_equal.
  assert (Ec : c = JStr meal).
  { exact (shows_string (dict_fields (meal_entry now date meal))
             "content" "meal" "unknown meal" meal c eq_refl Nm Sc). }
  assert (Ets : ts = JStr (match date with
                           | None => current_timestamp now
                           | Some d => d
                           end)).
  { apply (shows_string (dict_fields (meal_entry now date meal))
             "timestamp" "date" "unknown date" _ ts eq_refl); [| exact St].
    destruct date as [d |]; [congruence | discriminate]. }
  now rewrite Ec, Ets.
Qed.

Lemma add_meal_then_list_witness :
  paths_ok Sample.data_file Sample.suggestion_file = true
  /\ Date.valid Sample.noon = true
  /\ exists rows,
      printed (run (list_meals Sample.data_file)
                 (files_after (run (add_meal Sample.noon "eggs" Sample.data_file
                                      Sample.suggestion_file None) Sample.ledger_fs)))
        = rows
      /\ last rows = Some (MealRow 2 (JStr "[2024-03-15]") (JStr "eggs")).
Proof.
  split; [reflexivity |]. split; [reflexivity |].
  destruct (add_meal_then_list Sample.ledger_fs Sample.noon "eggs"
              Sample.data_file Sample.suggestion_file None
              [Sample.old_meal; Sample.new_meal] [])
    as (rows & R & _ & L); try reflexivity; try discriminate; [constructor |].
  exists rows. now split.
Defined.

Lemma loaded_of_lookup (fs : gmap string file) (p : string) (v : json) :
  fs !! p = Some (FJson v) -> loaded fs p = v.
Proof. unfold loaded. now intros ->. Qed.

Lemma parses_entry (now : datetime) (meal : string) :
  Date.valid now = true -> parses (meal_entry now None meal) = true.
Proof. intros V. unfold parses. now rewrite (timestamp_of_entry now meal V). Qed.

Lemma forallb_filter {X : Type} (f g : X -> bool) (l : list X) :
  forallb f l = true -> forallb f (List.filter g l) = true.
Proof.
  rewrite !forallb_forall. intros H x I. apply filter_In in I as [I _]. now apply H.
Qed.

(** X16: a meal added now without a date is still in the ledger after the
    next [add_meal], at any later instant that is not more than 30 days
    after the midnight of today: the ledger then ends with the two entries,
    in the order of the calls, after the older records that both prunings
    keep; and this whatever the suggestion file holds. *)
Theorem add_meal_twice (fs : gmap string file) (now later : datetime)
    (first second data_file suggestion_file : string) (date : option string)
    (ledger : list json) :
  paths_ok data_file suggestion_file = true ->
  Date.valid now = true -> 1000 <= year now ->
  Date.valid later = true ->
  instant later - 30 * us_per_day <= instant (midnight now) ->
  loaded fs data_file = JArr ledger ->
  forallb parses ledger = true ->
  files_after
    (run (add_meal later second data_file suggestion_file date)
       (files_after (run (add_meal now first data_file suggestion_file None) fs)))
    !! data_file
  = Some (FJson (JArr (List.filter (recent_enough later 30)
                         (List.filter (recent_enough now 30) ledger)
                       ++ [meal_entry now None first; meal_entry later date second]))).
Proof.
  intros P V _ V' Lt L Pl.
  set (kept := List.filter (recent_enough now 30) ledger).
  set (fs1 := files_after (run (add_meal now first data_file suggestion_file None) fs)).
  assert (L1 : loaded fs1 data_file = JArr (kept ++ [meal_entry now None first])).
  { apply loaded_of_lookup.
    apply (add_meal_ledger_written fs now first data_file suggestion_file None kept P).
    rewrite L. unfold or_empty, clean_old_meals. cbn [is_None Py.iter rbind].
    now rewrite (clean_items_filter now 30 ledger V (forallb_parses ledger Pl)). }
  assert (P1 : forallb parses (kept ++ [meal_entry now None first]) = true).
  { rewrite forallb_app. cbn [forallb]. rewrite (parses_entry now first V).
    unfold kept. now rewrite forallb_filter. }
  assert (R : recent_enough later 30 (meal_entry now None first) = true).
  { rewrite (recent_enough_stamp later 30 _ _ (timestamp_of_entry now first V)).
    now apply Z.leb_le. }
  replace (List.filter (recent_enough later 30) kept
           ++ [meal_entry now None first; meal_entry later date second])
    with (List.filter (recent_enough later 30) (kept ++ [meal_entry now None first])
          ++ [meal_entry later date second]).
  2: { rewrite List.filter_app. cbn [List.filter]. rewrite R. now rewrite <- app_assoc. }
  apply (add_meal_ledger_written fs1 later second data_file suggestion_file date _ P).
  rewrite L1. unfold or_empty, clean_old_meals. cbn [is_None Py.iter rbind].
  now rewrite (clean_items_filter later 30 _ V' (forallb_parses _ P1)).
Qed.

Lemma add_meal_twice_witness :
  paths_ok Sample.data_file Sample.suggestion_file = true
  /\ Date.valid Sample.noon = true
  /\ 1000 <= year Sample.noon
  /\ instant Sample.noon - 30 * us_per_day <= instant (midnight Sample.noon)
  /\ files_after
       (run (add_meal Sample.noon "rice" Sample.data_file Sample.suggestion_file None)
          (files_after (run (add_meal Sample.noon "eggs" Sample.data_file
                               Sample.suggestion_file None) Sample.ledger_fs)))
       !! Sample.data_file
     = Some (FJson (JArr [Sample.new_meal; meal_entry Sample.noon None "eggs";
                          meal_entry Sample.noon None "rice"])).
Proof.
  split; [reflexivity |]. split; [reflexivity |].
  split; [cbn; lia |]. split; [vm_compute; discriminate |].
  refine (add_meal_twice Sample.ledger_fs Sample.noon Sample.noon "eggs" "rice"
           Sample.data_file Sample.suggestion_file None
           [Sample.old_meal; Sample.new_meal] eq_refl eq_refl _ eq_refl _ eq_refl eq_refl).
  - cbn; lia.
  - vm_compute; discriminate.
Defined.

(** What [delete_meal] leaves in the files, whether or not the removed
    record can be reported. *)
Lemma delete_meal_files (fs : gmap string file) (index : Z) (data_file : string)
    (ledger : list json) :
  PosixPath.dirname data_file <> "" ->
  loaded fs data_file = JArr ledger ->
  1 <= index <= Z.of_nat (length ledger) ->
  files_after (run (delete_meal index data_file) fs)
    = saved (JArr (delete (Z.to_nat (index - 1)) ledger)) data_file fs.
Proof.
  intros D L R. unfold run, files_after, delete_meal.
  rewrite (bind_ok _ _ _ _ _ (load_file_list fs [] data_file ledger L)).
  rewrite bind_lift. cbn [Py.len rbind].
  destruct (Z.ltb_spec 0 index); [| lia].
  destruct (Z.leb_spec index (Z.of_nat (length ledger))); [| lia].
  rewrite bind_lift. cbn [Py.pop].
  destruct (Z.ltb_spec (index - 1) 0); [lia |].
  destruct (Z.leb_spec 0 (index - 1)); [| lia].
  destruct (Z.ltb_spec (index - 1) (Z.of_nat (length ledger))); [| lia].
  cbn [andb].
  destruct (ledger !! Z.to_nat (index - 1)) as [removed |] eqn:Lk.
  2: { apply lookup_ge_None in Lk. lia. }
  rewrite (bind_ok _ _ _ _ _ (save_file_run _ _ _ D)). rewrite bind_lift.
  now destruct (get_or removed "content" "meal" "unknown meal").
Qed.

(** X17: on a ledger that is a list of records, a listing that follows
    [delete_meal] with a valid index prints the rows of the records that are
    left, in their order and numbered from 1 without a gap, or that there
    are no meals when none is left. *)
Theorem delete_meal_then_list (fs : gmap string file) (index : Z)
    (data_file : string) (ledger : list json) :
  PosixPath.dirname data_file <> "" ->
  loaded fs data_file = JArr ledger ->
  Forall (fun r => is_dict r = true) ledger ->
  1 <= index <= Z.of_nat (length ledger) ->
  match delete (Z.to_nat (index - 1)) ledger with
  | [] =>
      printed (run (list_meals data_file)
                 (files_after (run (delete_meal index data_file) fs)))
        = [NoMealsFound]
  | others =>
      length (printed (run (list_meals data_file)
                         (files_after (run (delete_meal index data_file) fs))))
        = pred (length ledger)
      /\ forall (n : nat) (r : json), others !! n = Some r ->
           exists m,
             printed (run (list_meals data_file)
                        (files_after (run (delete_meal index data_file) fs))) !! n
               = Some m
             /\ row_of (1 + Z.of_nat n) r m
  end.
Proof.
  intros D L W R. rewrite (delete_meal_files fs index data_file ledger D L R).
  set (others := delete (Z.to_nat (index - 1)) ledger).
  assert (Len : length others = pred (length ledger)).
  { unfold others. rewrite length_delete; [lia |].
    apply lookup_lt_is_Some. lia. }
  assert (Wl : Forall (fun r => is_dict r = true) others).
  { unfold others. rewrite delete_take_drop. apply Forall_app.
    split; [now apply Forall_take | now apply Forall_drop]. }
  pose proof (loaded_saved others data_file fs) as Ll.
  destruct others as [| first rest] eqn:E.
  - unfold run, printed, list_meals.
    now rewrite (bind_ok _ _ _ _ _ (load_file_list _ [] data_file [] Ll)).
  - destruct (list_meals_run _ data_file first rest Ll Wl) as (rows & -> & Lr & Rows).
    cbn [printed snd stdout]. split; [congruence | exact Rows].
Qed.

Lemma delete_meal_then_list_witness :
  PosixPath.dirname Sample.data_file <> ""
  /\ length (printed (run (list_meals Sample.data_file)
                        (files_after (run (delete_meal 1 Sample.data_file)
                                        Sample.ledger_fs)))) = 1%nat.
Proof.
  split; [discriminate |].
  refine (proj1 (delete_meal_then_list Sample.ledger_fs 1 Sample.data_file
                   [Sample.old_meal; Sample.new_meal] _ eq_refl _ _)).
  - discriminate.
  - repeat constructor.
  - cbn; lia.
Defined.

(** * Further properties: restoring *)

Lemma restore_success (fs : gmap string file) (data_file suggestion_file : string)
    (v v' : json) :
  data_file <> backup_path suggestion_file ->
  fs !! backup_path data_file = Some (FJson v) ->
  fs !! backup_path suggestion_file = Some (FJson v') ->
  run (restore data_file suggestion_file) fs =
    (Ok tt,
     World (<[suggestion_file := FJson v']> (<[data_file := FJson v]> fs))
       [SuccessfullyRestored]).
Proof.
  intros Ne B B'. unfold run, restore, try, bind, read_json, write_json, print.
  cbn [files stdout]. rewrite B. cbn [files stdout].
  rewrite lookup_insert_ne by exact Ne. now rewrite B'.
Qed.

Lemma restore_corrupted_suggestion_backup (fs : gmap string file)
    (data_file suggestion_file raw : string) (v : json) :
  data_file <> backup_path suggestion_file ->
  fs !! backup_path data_file = Some (FJson v) ->
  fs !! backup_path suggestion_file = Some (FCorrupt raw) ->
  run (restore data_file suggestion_file) fs =
    (Ok tt, World (<[data_file := FJson v]> fs) [CorruptedAbortRestoring]).
Proof.
  intros Ne B B'. unfold run, restore, try, bind, read_json, write_json, print.
  cbn [files stdout]. rewrite B. cbn [files stdout].
  rewrite lookup_insert_ne by exact Ne. now rewrite B'.
Qed.

(** When the ledger has a backup that is JSON, [restore] puts it back in
    the ledger file, whatever happens with the suggestions. *)
Lemma restore_ledger_first (fs : gmap string file) (data_file suggestion_file : string)
    (v : json) :
  data_file <> backup_path suggestion_file -> data_file <> suggestion_file ->
  fs !! backup_path data_file = Some (FJson v) ->
  files_after (run (restore data_file suggestion_file) fs) !! data_file
    = Some (FJson v).
Proof.
  intros N1 N2 B.
  destruct (fs !! backup_path suggestion_file) as [[v' | raw] |] eqn:B'.
  - rewrite (restore_success fs data_file suggestion_file v v' N1 B B').
    unfold files_after. cbn [snd files].
    rewrite lookup_insert_ne by congruence. apply lookup_insert_eq.
  - rewrite (restore_corrupted_suggestion_backup fs data_file suggestion_file raw v N1 B B').
    apply lookup_insert_eq.
  - rewrite (restore_no_suggestion_backup fs data_file suggestion_file v N1 B B').
    apply lookup_insert_eq.
Qed.

(** X18: with both backups there, [restore] puts the ledger backup in the
    ledger file; then, when the suggestion backup is JSON, it puts it in the
    suggestion file and reports success, the backups are as they were, and a
    second [restore] changes nothing; when the suggestion backup is not
    JSON, it reports the corruption with the ledger file already
    overwritten. *)
Theorem restore_from_backups (fs : gmap string file)
    (data_file suggestion_file : string) (v : json) (b : file) :
  paths_ok data_file suggestion_file = true ->
  fs !! backup_path data_file = Some (FJson v) ->
  fs !! backup_path suggestion_file = Some b ->
  match b with
  | FJson v' =>
      run (restore data_file suggestion_file) fs =
        (Ok tt,
         World (<[suggestion_file := FJson v']> (<[data_file := FJson v]> fs))
           [SuccessfullyRestored])
      /\ <[suggestion_file := FJson v']> (<[data_file := FJson v]> fs)
           !! backup_path data_file = Some (FJson v)
      /\ <[suggestion_file := FJson v']> (<[data_file := FJson v]> fs)
           !! backup_path suggestion_file = Some (FJson v')
      /\ run (restore data_file suggestion_file)
           (<[suggestion_file := FJson v']> (<[data_file := FJson v]> fs)) =
           (Ok tt,
            World (<[suggestion_file := FJson v']> (<[data_file := FJson v]> fs))
              [SuccessfullyRestored])
  | FCorrupt _ =>
      run (restore data_file suggestion_file) fs =
        (Ok tt, World (<[data_file := FJson v]> fs) [CorruptedAbortRestoring])
      /\ <[data_file := FJson v]> fs !! suggestion_file = fs !! suggestion_file
  end.
Proof.
  intros P B B'. destruct (paths_ok_spec _ _ P) as (_ & _ & N1 & N2 & N3 & N4).
  pose proof (PathFacts.backup_path_neq data_file) as N5.
  pose proof (PathFacts.backup_path_neq suggestion_file) as N6.
  destruct b as [v' | raw].
  - set (fs' := <[suggestion_file := FJson v']> (<[data_file := FJson v]> fs)).
    assert (Bd : fs' !! backup_path data_file = Some (FJson v)).
    { unfold fs'. now rewrite !lookup_insert_ne by congruence. }
    assert (Bs : fs' !! backup_path suggestion_file = Some (FJson v')).
    { unfold fs'. now rewrite !lookup_insert_ne by congruence. }
    split; [now apply restore_success |]. split; [exact Bd |]. split; [exact Bs |].
    rewrite (restore_success fs' data_file suggestion_file v v' N2 Bd Bs).
    assert (Ld : fs' !! data_file = Some (FJson v)).
    { unfold fs'. rewrite lookup_insert_ne by congruence. apply lookup_insert_eq. }
    assert (Ls : fs' !! suggestion_file = Some (FJson v')).
    { unfold fs'. apply lookup_insert_eq. }
    now rewrite (insert_id fs' data_file _ Ld), (insert_id fs' suggestion_file _ Ls).
  - split; [now apply (restore_corrupted_suggestion_backup fs _ _ raw) |].
    now apply lookup_insert_ne.
Qed.

Lemma restore_from_backups_witness :
  paths_ok Sample.data_file Sample.suggestion_file = true
  /\ run (restore Sample.data_file Sample.suggestion_file)
       (<[backup_path Sample.suggestion_file := FJson (JArr [])]> Sample.half_backed_fs)
     = (Ok tt,
        World (<[Sample.suggestion_file := FJson (JArr [])]>
                 (<[Sample.data_file := FJson (JArr [Sample.old_meal])]>
                    (<[backup_path Sample.suggestion_file := FJson (JArr [])]>
                       Sample.half_backed_fs)))
          [SuccessfullyRestored]).
Proof.
  split; [reflexivity |].
  exact (proj1 (restore_from_backups
    (<[backup_path Sample.suggestion_file := FJson (JArr [])]> Sample.half_backed_fs)
    Sample.data_file Sample.suggestion_file (JArr [Sample.old_meal]) (FJson (JArr []))
    eq_refl eq_refl eq_refl)).
Defined.

(** X19: a deletion can be undone: when the ledger file holds JSON, a
    [restore] that follows [delete_all], or [delete_meal] with a valid
    index, puts the ledger file back to what it held before the deletion,
    whether or not the suggestions have a backup. *)
Theorem restore_undoes_deletion (fs : gmap string file) (index : Z)
    (data_file suggestion_file : string) (ledger : list json) :
  paths_ok data_file suggestion_file = true ->
  fs !! data_file = Some (FJson (JArr ledger)) ->
  files_after (run (restore data_file suggestion_file)
                 (files_after (run (delete_all data_file) fs))) !! data_file
    = Some (FJson (JArr ledger))
  /\ (1 <= index <= Z.of_nat (length ledger) ->
      files_after (run (restore data_file suggestion_file)
                     (files_after (run (delete_meal index data_file) fs))) !! data_file
        = Some (FJson (JArr ledger))).
Proof.
  intros P L. destruct (paths_ok_spec _ _ P) as (D & _ & N1 & N2 & _).
  split.
  - rewrite (delete_all_run fs data_file D). unfold files_after at 2. cbn [snd files].
    apply restore_ledger_first; try assumption. now rewrite saved_backup, L.
  - intros R.
    rewrite (delete_meal_files fs index data_file ledger D (loaded_of_lookup _ _ _ L) R).
    apply restore_ledger_first; try assumption. now rewrite saved_backup, L.
Qed.

Lemma restore_undoes_deletion_witness :
  paths_ok Sample.data_file Sample.suggestion_file = true
  /\ files_after (run (restore Sample.data_file Sample.suggestion_file)
                    (files_after (run (delete_all Sample.data_file) Sample.ledger_fs)))
       !! Sample.data_file
     = Some (FJson (JArr [Sample.old_meal; Sample.new_meal])).
Proof.
  split; [reflexivity |].
  exact (proj1 (restore_undoes_deletion Sample.ledger_fs 1 Sample.data_file
                  Sample.suggestion_file [Sample.old_meal; Sample.new_meal]
                  eq_refl eq_refl)).
Defined.

(** * Further properties: suggestions *)

Lemma list_suggestions_loop (fs : gmap string file) (items : list json) :
  Forall (fun r => is_dict r = true) items ->
  forall (start : Z) (o : list msg),
    for_each (enumerate items start)
      (fun '(i, s) =>
         c <- lift (Py.get_default s "content" (JStr "unknown")) ;;
         print (SuggestionRow i c)) (World fs o)
    = (Ok tt,
       World fs (o ++ imap (fun n r => suggestion_row (start + Z.of_nat n) r) items)).
Proof.
  induction 1 as [| item items Di _ IH]; intros start o.
  - cbn. unfold ret. now rewrite app_nil_r.
  - destruct item as [| | | | | | fields]; try discriminate.
    cbn [enumerate for_each]. unfold bind at 1. rewrite bind_lift.
    cbn [Py.get_default print files stdout]. rewrite IH, <- app_assoc.
    cbn [imap app]. unfold suggestion_row at 2. cbn [dict_fields].
    rewrite Z.add_0_r. do 4 f_equal. apply imap_ext. intros n r _. cbn.
    f_equal. lia.
Qed.

(** X20: on a list of suggestion records, [list_suggestions] prints one row
    per record, in file order and numbered from 1, with the value under
    [content] whatever it is (an empty text is shown as it is), and with
    [unknown] only when the key is missing; on an empty list it prints that
    there are no suggestions. It writes nothing. *)
Theorem list_suggestions_rows (fs : gmap string file) (suggestion_file : string)
    (items : list json) :
  loaded fs suggestion_file = JArr items ->
  Forall (fun r => is_dict r = true) items ->
  run (list_suggestions suggestion_file) fs =
    (Ok tt,
     World fs
       (match items with
        | [] => [NoSuggestionsFound]
        | _ => imap (fun n r => suggestion_row (1 + Z.of_nat n) r) items
        end)).
Proof.
  intros L W. unfold run, list_suggestions.
  rewrite (bind_ok _ _ _ _ _ (load_file_list fs [] suggestion_file items L)).
  destruct items as [| first rest]; [reflexivity |].
  cbn [Py.truthy negb]. rewrite bind_lift. cbn [Py.iter].
  exact (list_suggestions_loop fs (first :: rest) W 1 []).
Qed.

Lemma list_suggestions_rows_witness :
  loaded Sample.suggestion_fs Sample.suggestion_file = JArr [suggestion_entry "Rice"]
  /\ run (list_suggestions Sample.suggestion_file) Sample.suggestion_fs
     = (Ok tt, World Sample.suggestion_fs [SuggestionRow 1 (JStr "Rice")]).
Proof.
  split; [reflexivity |].
  refine (list_suggestions_rows Sample.suggestion_fs Sample.suggestion_file
            [suggestion_entry "Rice"] eq_refl _).
  repeat constructor.
Defined.



(** X22: a suggestion file that is not JSON is replaced: [add_suggestion]
    reports the corruption, copies the file to the backup, writes the list
    with the new suggestion alone, and reports the addition. *)
Theorem add_suggestion_replaces_corrupted_file (fs : gmap string file)
    (x suggestion_file raw : string) :
  PosixPath.dirname suggestion_file <> "" ->
  fs !! suggestion_file = Some (FCorrupt raw) ->
  run (add_suggestion x suggestion_file) fs =
    (Ok tt,
     World (saved (JArr [suggestion_entry x]) suggestion_file fs)
       [CorruptedAbortLoading; AddedSuggestion x])
  /\ saved (JArr [suggestion_entry x]) suggestion_file fs !! suggestion_file
     = Some (FJson (JArr [suggestion_entry x]))
  /\ saved (JArr [suggestion_entry x]) suggestion_file fs !! backup_path suggestion_file
     = Some (FCorrupt raw).
Proof.
  intros D C. split; [| split; [apply saved_lookup | now rewrite saved_backup, C]].
  unfold run, add_suggestion.
  rewrite (bind_ok _ _ _ _ _ (load_file_corrupt (World fs []) suggestion_file raw C)).
  cbn [is_None]. rewrite bind_lift. cbn [any_suggestion_matches Py.iter rbind any_matches].
  rewrite bind_lift. cbn [Py.append app].
  now rewrite (bind_ok _ _ _ _ _ (save_file_run _ _ _ D)).
Qed.

Lemma add_suggestion_replaces_corrupted_file_witness :
  PosixPath.dirname Sample.data_file <> ""
  /\ Sample.corrupted_fs !! Sample.data_file = Some (FCorrupt "{oops")
  /\ run (add_suggestion "eggs" Sample.data_file) Sample.corrupted_fs =
       (Ok tt,
        World (saved (JArr [suggestion_entry "eggs"]) Sample.data_file Sample.corrupted_fs)
          [CorruptedAbortLoading; AddedSuggestion "eggs"]).
Proof.
  split; [discriminate |]. split; [reflexivity |].
  exact (proj1 (add_suggestion_replaces_corrupted_file Sample.corrupted_fs "eggs"
                  Sample.data_file "{oops" ltac:(discriminate) eq_refl)).
Defined.

Lemma content_of_entry (now : datetime) (date : option string) (meal : string) :
  content_of (meal_entry now date meal) = Some meal.
Proof. reflexivity. Qed.

(** X23: a meal that has just been added without a date is not suggested:
    on a well-formed ledger and suggestion list, [suggest_meal] at the same
    instant, after [add_meal], returns normally, writes nothing, and prints
    either that nothing is eligible or a suggestion whose content is not
    the meal, letter case apart. *)
Theorem added_meal_is_not_suggested (fs : gmap string file) (now : datetime)
    (rnd : nat) (meal data_file suggestion_file : string)
    (ledger suggestions : list json) :
  paths_ok data_file suggestion_file = true ->
  Date.valid now = true -> 1000 <= year now ->
  loaded fs data_file = JArr ledger ->
  Forall well_formed_meal ledger ->
  loaded fs suggestion_file = JArr suggestions ->
  Forall (fun r => is_Some (content_of r)) suggestions ->
  exists fs',
    files_after (run (add_meal now meal data_file suggestion_file None) fs) = fs'
    /\ (run (suggest_meal now rnd data_file suggestion_file) fs'
          = (Ok tt, World fs' [NothingEligible])
        \/ exists c,
             run (suggest_meal now rnd data_file suggestion_file) fs'
               = (Ok tt, World fs' [SuggestedMeal (JStr c)])
             /\ PyStr.lower c <> PyStr.lower meal).
Proof.
  intros P V _ Ll Wl Ls Ws.
  assert (Pl : forallb parses ledger = true).
  { apply forallb_forall. intros r I. apply list_elem_of_In in I.
    rewrite Forall_forall in Wl. destruct (Wl r I) as [[ts T] _].
    unfold parses. now rewrite T. }
  rewrite (add_meal_run fs now meal data_file suggestion_file None ledger suggestions)
    by assumption.
  unfold files_after. cbn [snd files].
  set (fs' := after_add_meal _ _ _ _ _ _ _ _). exists fs'. split; [reflexivity |].
  destruct (loaded_after_add_meal fs now meal data_file suggestion_file None
              ledger suggestions P Ls) as [Ll' Ls'].
  fold fs' in Ll', Ls'.
  set (ledger' := List.filter (recent_enough now 30) ledger ++ [meal_entry now None meal])
    in *.
  set (suggestions' := if existsb (matches meal) suggestions then suggestions
                       else suggestions ++ [suggestion_entry meal]) in *.
  assert (Wl' : Forall well_formed_meal ledger').
  { apply Forall_app. split.
    - apply Forall_forall. intros r I. apply list_elem_of_In, filter_In in I as [I _].
      rewrite Forall_forall in Wl. now apply Wl, list_elem_of_In.
    - repeat constructor; [| now eexists].
      rewrite (timestamp_of_entry now meal V). now eexists. }
  assert (Ws' : Forall (fun r => is_Some (content_of r)) suggestions').
  { unfold suggestions'. destruct (existsb (matches meal) suggestions); [exact Ws |].
    apply Forall_app. split; [exact Ws |]. repeat constructor. now eexists. }
  assert (Ne : suggestions' <> []).
  { unfold suggestions'. destruct (existsb (matches meal) suggestions) eqn:E.
    - intros ->. discriminate.
    - now destruct suggestions. }
  rewrite (suggest_meal_run fs' now rnd data_file suggestion_file ledger' suggestions')
    by assumption.
  destruct (eligible now ledger' suggestions') as [| c rest] eqn:El; [now left |].
  right.
  destruct (choice_elem rnd (JStr <$> c :: rest)) as (pick & -> & I); [discriminate |].
  apply list_elem_of_fmap in I as (c0 & -> & I).
  exists c0. split; [reflexivity |].
  rewrite <- El in I. apply elem_of_eligible in I as [_ N]. intros E. apply N.
  exists (meal_entry now None meal). split; [| split].
  - unfold ledger'. apply elem_of_app. right. apply list_elem_of_here.
  - rewrite (recent_enough_stamp now 14 _ _ (timestamp_of_entry now meal V)).
    apply Z.leb_le. pose proof (valid_tod now V).
    unfold instant, midnight, Date.toordinal, us_per_day in *.
    cbn [year month day tod]. nia.
  - rewrite content_of_entry. cbn. now rewrite E.
Qed.

Lemma added_meal_is_not_suggested_witness :
  paths_ok Sample.data_file Sample.suggestion_file = true
  /\ Date.valid Sample.noon = true
  /\ 1000 <= year Sample.noon
  /\ run (suggest_meal Sample.noon 0 Sample.data_file Sample.suggestion_file)
       (files_after (run (add_meal Sample.noon "eggs" Sample.data_file
                            Sample.suggestion_file None) Sample.ledger_fs))
     = (Ok tt,
        World (files_after (run (add_meal Sample.noon "eggs" Sample.data_file
                                   Sample.suggestion_file None) Sample.ledger_fs))
          [NothingEligible]).
Proof.
  split; [reflexivity |]. split; [reflexivity |]. split; [cbn; lia |].
  assert (W1 : Forall well_formed_meal [Sample.old_meal; Sample.new_meal])
    by (repeat constructor; now eexists).
  assert (Y : 1000 <= year Sample.noon) by (cbn; lia).
  destruct (added_meal_is_not_suggested Sample.ledger_fs Sample.noon 0 "eggs"
              Sample.data_file Sample.suggestion_file
              [Sample.old_meal; Sample.new_meal] []
              eq_refl eq_refl Y eq_refl W1 eq_refl (Forall_nil_2 _))
    as (fs' & <- & [R | (c & R & N)]).
  - exact R.
  - exfalso. vm_compute in R. discriminate R.
Defined.

(** * Further properties: pruning *)

Lemma clean_items_first_bad (cutoff : Z * Z) (good rest : list json) (bad : json)
    (e : exn) :
  forallb parses good = true -> stamp_error bad = Some e ->
  clean_items cutoff (good ++ bad :: rest) = Raise e.
Proof.
  intros G B. induction good as [| g good IH].
  - cbn [app clean_items]. unfold stamp_error in B.
    destruct (Py.getitem bad "timestamp") as [[| | | | s | |] | e']; cbn [rbind strptime];
      try (now injection B as <-).
    destruct (Date.strptime s); [discriminate | now injection B as <-].
  - cbn [forallb] in G. apply andb_prop in G as [Pg G].
    cbn [app clean_items]. unfold parses, timestamp_of in Pg.
    destruct (Py.getitem g "timestamp") as [[| | | | s | |] |]; try discriminate.
    cbn [rbind strptime]. destruct (Date.strptime s); [| discriminate].
    cbn [rbind]. now rewrite (IH G).
Qed.

(** X24: the first record whose timestamp cannot be read decides how
    [clean_old_meals] ends: [KeyError] when the record has no [timestamp]
    key (a record of the legacy shape), [TypeError] when the record is not a
    dict or the value is not a text, [ValueError] when the text does not
    parse; and [add_meal] on a ledger file that holds such a list ends with
    that exception before it writes or prints anything. *)
Theorem first_unreadable_record_is_fatal (fs : gmap string file) (now : datetime)
    (days : Z) (meal meal_file suggestion_file : string) (date : option string)
    (good rest : list json) (bad : json) (e : exn) :
  forallb parses good = true ->
  stamp_error bad = Some e ->
  clean_old_meals now (JArr (good ++ bad :: rest)) days = Raise e
  /\ (fs !! meal_file = Some (FJson (JArr (good ++ bad :: rest))) ->
      run (add_meal now meal meal_file suggestion_file date) fs
        = (Raise e, World fs []))
  /\ (e = KeyError <-> exists fields, bad = JObj fields
                                     /\ Py.assoc "timestamp" fields = None).
Proof.
  intros G B.
  assert (C : forall d, clean_old_meals now (JArr (good ++ bad :: rest)) d = Raise e).
  { intros d. unfold clean_old_meals. cbn [Py.iter rbind].
    now rewrite (clean_items_first_bad _ good rest bad e G B). }
  split; [apply C |]. split.
  - intros L. now apply (add_meal_fatal fs now meal meal_file suggestion_file date _ e L).
  - unfold stamp_error, Py.getitem in B. split.
    + intros ->. destruct bad as [| | | | | | fields]; try discriminate.
      exists fields. split; [reflexivity |].
      destruct (Py.assoc "timestamp" fields) as [[| | | | s | |] |];
        try discriminate; [| reflexivity].
      now destruct (Date.strptime s).
    + intros (fields & -> & A). rewrite A in B. now injection B.
Qed.

Lemma first_unreadable_record_is_fatal_witness :
  forallb parses [Sample.new_meal] = true
  /\ stamp_error (JObj [("date", JStr "[2024-01-01]"); ("meal", JStr "soup")])
     = Some KeyError
  /\ clean_old_meals Sample.noon
       (JArr [Sample.new_meal;
              JObj [("date", JStr "[2024-01-01]"); ("meal", JStr "soup")]]) 30
     = Raise KeyError.
Proof.
  split; [reflexivity |]. split; [reflexivity |].
  exact (proj1 (first_unreadable_record_is_fatal ∅ Sample.noon 30 "eggs"
                  Sample.data_file Sample.suggestion_file None
                  [Sample.new_meal] []
                  (JObj [("date", JStr "[2024-01-01]"); ("meal", JStr "soup")])
                  KeyError eq_refl eq_refl)).
Defined.

Lemma filter_filter_same {X : Type} (f : X -> bool) (l : list X) :
  List.filter f (List.filter f l) = List.filter f l.
Proof.
  induction l as [| x l IH]; [reflexivity |]. cbn [List.filter].
  destruct (f x) eqn:E; [| exact IH]. cbn [List.filter]. now rewrite E, IH.
Qed.

(** X25: on records whose timestamps parse, pruning is idempotent and
    monotone in the window: pruning what a pruning has kept, at the same
    instant and with the same window, keeps all of it; and a record kept
    with a window is kept with every wider window. *)
Theorem clean_old_meals_idempotent_monotone (now : datetime) (days wider : Z)
    (meals : list json) :
  Date.valid now = true ->
  forallb parses meals = true ->
  exists kept kept',
    clean_old_meals now (JArr meals) days = Ok (JArr kept)
    /\ clean_old_meals now (JArr kept) days = Ok (JArr kept)
    /\ clean_old_meals now (JArr meals) wider = Ok (JArr kept')
    /\ (days <= wider -> forall r, r ∈ kept -> r ∈ kept').
Proof.
  intros V P.
  assert (C : forall d l, forallb parses l = true ->
            clean_old_meals now (JArr l) d = Ok (JArr (List.filter (recent_enough now d) l))).
  { intros d l Pl. unfold clean_old_meals. cbn [Py.iter rbind].
    now rewrite (clean_items_filter now d l V (forallb_parses l Pl)). }
  exists (List.filter (recent_enough now days) meals),
         (List.filter (recent_enough now wider) meals).
  split; [now apply C |]. split.
  - rewrite C by now apply forallb_filter. now rewrite filter_filter_same.
  - split; [now apply C |]. intros Le r. rewrite !elem_of_recent.
    intros [I (ts & T & L)]. split; [exact I |]. exists ts. split; [exact T |].
    unfold us_per_day in *. nia.
Qed.

Lemma clean_old_meals_idempotent_monotone_witness :
  Date.valid Sample.noon = true
  /\ exists kept,
      clean_old_meals Sample.noon (JArr [Sample.old_meal; Sample.new_meal]) 30
        = Ok (JArr kept)
      /\ clean_old_meals Sample.noon (JArr kept) 30 = Ok (JArr kept).
Proof.
  split; [reflexivity |].
  destruct (clean_old_meals_idempotent_monotone Sample.noon 30 90
              [Sample.old_meal; Sample.new_meal] eq_refl eq_refl)
    as (kept & kept' & A & B & _).
  exists kept. now split.
Defined.
